(** * nvkind: configuration reconciliation and node-topology resolution

    A shallow embedding of [pkg/nvkind/cluster.go] and the properties its
    specification states about it.

    Conventions of the embedding:
    - a Go [string] is a [string] (a sequence of bytes); the node and cluster
      names handled here are container names, so the embedding covers the
      ASCII range, on which [unicode.IsDigit] is ['0'..'9'] and
      [unicode.IsSpace] is the six ASCII blanks;
    - a Go [error] is a value of [error]; [nil] is [None];
    - a Go function returning [(T, error)] that also touches the outside
      world or the heap is a function in the monad [M];
    - Go maps are [gmap]s, [sets.Set[string]] is [gset string]. *)

From Stdlib Require Import Ascii String ZArith Sorting.Sorted Sorting.Permutation.
From stdpp Require Import base tactics option list strings gmap.

Local Open Scope string_scope.

(** ** The Go library functions the code calls *)

(** [unicode.IsSpace], on the ASCII range. *)
Definition IsSpace (c : ascii) : bool :=
  match c with
  | "009"%char | "010"%char | "011"%char | "012"%char | "013"%char
  | " "%char => true
  | _ => false
  end.

(** [strings.Fields]: the maximal runs of non-blank bytes, in order.
    [cur] is the field being read. *)
Fixpoint Fields_from (cur : string) (s : string) : list string :=
  match s with
  | EmptyString => match cur with EmptyString => [] | _ => [cur] end
  | String c s' =>
      if IsSpace c
      then match cur with
           | EmptyString => Fields_from EmptyString s'
           | _ => cur :: Fields_from EmptyString s'
           end
      else Fields_from (cur +:+ String c EmptyString) s'
  end.

Definition Fields (s : string) : list string := Fields_from EmptyString s.

(** [unicode.IsDigit], on the ASCII range. *)
Definition IsDigit (c : ascii) : bool :=
  (("0" <=? c)%char && (c <=? "9")%char)%bool.

(** [strings.lastIndexFunc s f truth]: the last index whose byte [c] has
    [f c = truth], or [-1]. *)
Fixpoint lastIndexFunc (s : string) (f : ascii -> bool) (truth : bool) : Z :=
  match s with
  | EmptyString => (-1)%Z
  | String c s' =>
      let i := lastIndexFunc s' f truth in
      if (0 <=? i)%Z then (i + 1)%Z
      else if Bool.eqb (f c) truth then 0%Z else (-1)%Z
  end.

(** [strings.TrimRightFunc s f = s[0:i+1]] with [i] the last index whose
    byte does not satisfy [f]. *)
Definition TrimRightFunc (s : string) (f : ascii -> bool) : string :=
  let i := lastIndexFunc s f false in
  substring 0 (Z.to_nat (i + 1)) s.

(** [strings.HasSuffix]. *)
Definition HasSuffix (s suffix : string) : bool :=
  (String.length suffix <=? String.length s)%nat &&
  String.eqb
    (substring (String.length s - String.length suffix)
               (String.length suffix) s)
    suffix.

(** [sort.Strings] sorts increasingly for Go's [<] on strings, the bytewise
    lexicographic order.  Strings that compare equal are identical, so the
    outcome is the one sorted arrangement of the input whatever the
    algorithm; it is computed here by insertion. *)
Definition less (a b : string) : bool := String.ltb a b.

Fixpoint insert_string (x : string) (l : list string) : list string :=
  match l with
  | [] => [x]
  | y :: l' => if less y x then y :: insert_string x l' else x :: y :: l'
  end.

Definition sort_Strings (l : list string) : list string :=
  foldr insert_string [] l.

(** ** Go errors *)

(** [errorString] is what [errors.New] and [fmt.Errorf] without [%w] build;
    [wrapError] is what [fmt.Errorf] with one [%w] builds, [err] being the
    operand (possibly [nil]); [ExitError] stands for the failures of
    [os/exec]; [StatusError] for the API server's, with its reason. *)
#[warnings="-register-all"]
Inductive error : Type :=
| errorString (s : string)
| wrapError (msg : string) (err : option error)
| ExitError (msg : string)
| StatusError (reason : string) (msg : string).

(** The [Error()] method. *)
Definition Error (e : error) : string :=
  match e with
  | errorString s => s
  | wrapError msg _ => msg
  | ExitError msg => msg
  | StatusError _ msg => msg
  end.

(** The [Unwrap()] method ([errors.Unwrap]). *)
Definition Unwrap (e : error) : option error :=
  match e with
  | wrapError _ err => err
  | _ => None
  end.

(** [fmt.Errorf (ctx ++ ": %w") err].  A [nil] operand is printed as
    [%!w(<nil>)] and leaves nothing to unwrap. *)
Definition Errorf_w (ctx : string) (err : option error) : error :=
  match err with
  | Some e => wrapError (ctx +:+ ": " +:+ Error e) (Some e)
  | None => wrapError (ctx +:+ ": %!w(<nil>)") None
  end.

(** [fmt.Errorf (ctx ++ "%v") v] for a string-like [v]. *)
Definition Errorf_v (ctx : string) (v : string) : error :=
  errorString (ctx +:+ v).

(** The chain [errors.Is] and [errors.As] walk: the error, then what it
    wraps, and so on. *)
Fixpoint chain (e : error) : list error :=
  e :: match e with
       | wrapError _ (Some e') => chain e'
       | _ => []
       end.

(** [e] carries [cause]: [cause] is on [e]'s chain. *)
Definition carries (e cause : error) : Prop := cause ∈ chain e.

(** [apierrors.IsConflict]: the reason of the API status on the chain. *)
Definition IsConflict (e : error) : bool :=
  existsb (fun e' => match e' with
                     | StatusError reason _ => String.eqb reason "Conflict"
                     | _ => false
                     end) (chain e).

(** ** Data *)

(** A pointer is a heap address; an address the heap does not hold is
    [nil]. *)
Definition loc := positive.

(** [kind.NodeRole] is a string type with two named values. *)
Definition NodeRole := string.
Definition ControlPlaneRole : NodeRole := "control-plane".
Definition WorkerRole : NodeRole := "worker".

(** Handles of the collaborators a cluster carries along ([nvml.Interface],
    [io.Writer]); [0] is [nil]. *)
Definition nvml_Interface := nat.
Definition io_Writer := nat.

(** The record the configuration is kept in on the API server. *)
Definition nvkindClusterConfigName : string := "nvkind-cluster-config".

(** What the program does to the outside world. *)
Inductive Event : Type :=
| EvExec (argv : list string) (stdin : string) (err : option error)
| EvConfigMapCreate (context name : string) (data : gmap string string).

(** A Go slice, as far as its value goes: [nil], or a slice that is not
    [nil] with its elements, of which there may be none.  [len] and [range]
    see the elements only; [reflect.DeepEqual] and the codecs tell [nil]
    from the empty slice. *)
Inductive slice (A : Type) : Type :=
| nil_slice
| mk_slice (l : list A).
#[global] Arguments nil_slice {A}.
#[global] Arguments mk_slice {A} l.

Definition elems {A} (sl : slice A) : list A :=
  match sl with
  | nil_slice => []
  | mk_slice l => l
  end.

(** Where a list is expected, a slice stands for its elements. *)
Coercion elems : slice >-> list.

#[global] Instance slice_eq_dec {A} `{!EqDecision A} : EqDecision (slice A).
Proof. solve_decision. Defined.

(** [retry.DefaultRetry.Steps] of client-go. *)
Definition DefaultRetry_Steps : nat := 5.

Section Nvkind.

(** [kind.Node] and [kind.Cluster] are declared by the [kind] library.  The
    code reads [Role], [Name] and [Nodes]; the fields it does not look at
    are kept as [NodeFields] and [ClusterFields], on which
    [reflect.DeepEqual] is decidable equality.  [NodeFields] holds the
    fields of a node by what they contain; those of reference type (the
    labels, the mounts, the port mappings, the patches) point at maps and
    backing arrays, which a copy of the struct shares with the original
    (see [node_obj]). *)
Context {NodeFields ClusterFields : Type}.
Context `{!EqDecision NodeFields, !EqDecision ClusterFields}.

Record kind_Node : Type := mk_kind_Node {
  Role : NodeRole;
  node_fields : NodeFields
}.

Record kind_Cluster : Type := mk_kind_Cluster {
  Name : string;
  Nodes : slice kind_Node;
  cluster_fields : ClusterFields
}.

#[global] Instance kind_Node_eq_dec : EqDecision kind_Node.
Proof. solve_decision. Defined.

#[global] Instance kind_Cluster_eq_dec : EqDecision kind_Cluster.
Proof. solve_decision. Defined.

(** A [kind.Node] variable of the heap.  When the variable was made by
    copying the struct of element [i] of the [Nodes] of the configuration at
    [cfg] (an assignment, a [range] clause), the maps and the backing
    arrays its fields point at are those of the element: [obj_shares] is
    [Some (cfg, i)], and what is written through them shows in either.
    [DeepCopy] gives the copy maps and arrays of its own: [None]. *)
Record node_obj : Type := mk_node_obj {
  obj_node : kind_Node;
  obj_shares : option (loc * nat)
}.

(** A [*kind.Node] either points into the [Nodes] slice of a cluster
    configuration ([&cfg.Nodes[i]]) or at a node allocated on its own. *)
Inductive node_ptr : Type :=
| ElemPtr (cfg : loc) (i : nat)
| ObjPtr (l : loc).

#[global] Instance node_ptr_eq_dec : EqDecision node_ptr.
Proof. solve_decision. Defined.

(** The structures below are declared in other files of the package; their
    fields are those [cluster.go] reads and writes. *)

(** [Config{*kind.Cluster; nvml; stdout; stderr}]. *)
Record Config : Type := mk_Config {
  Config_Cluster : loc;
  Config_nvml : nvml_Interface;
  Config_stdout : io_Writer;
  Config_stderr : io_Writer
}.

(** [ClusterOptions]; [config] is a [*Config], [None] being [nil]. *)
Record ClusterOptions : Type := mk_ClusterOptions {
  name : string;
  config : option Config;
  kubeconfig : string
}.

Definition ClusterOption : Type := ClusterOptions -> ClusterOptions.

Record ClusterCreateOptions : Type := mk_ClusterCreateOptions {
  retain : bool;
  wait : Z
}.

Definition ClusterCreateOption : Type :=
  ClusterCreateOptions -> ClusterCreateOptions.

Record Cluster : Type := mk_Cluster {
  Cluster_Name : string;
  Cluster_config : loc;
  Cluster_kubeconfig : string;
  Cluster_nvml : nvml_Interface;
  Cluster_stdout : io_Writer;
  Cluster_stderr : io_Writer
}.

Record Node : Type := mk_Node {
  Node_Name : string;
  Node_config : node_ptr;
  Node_nvml : nvml_Interface;
  Node_stdout : io_Writer;
  Node_stderr : io_Writer
}.

Inductive ConfigOption : Type :=
| WithConfigTemplate (template : string).

(** What [NewConfig] builds: the document and the handles. *)
Record NewConfigResult : Type := mk_NewConfigResult {
  new_Cluster : kind_Cluster;
  new_nvml : nvml_Interface;
  new_stdout : io_Writer;
  new_stderr : io_Writer
}.

(** A Go result [(T, error)]. *)
Inductive result (T : Type) : Type :=
| Ok (t : T)
| Err (e : error).
#[global] Arguments Ok {T} t.
#[global] Arguments Err {T} e.

(** The collaborators of this file: the YAML codec, [time.Duration]'s
    printer and [NewConfig] of [config.go]. *)
Class Collaborators : Type := {
  yaml_Marshal : option kind_Cluster -> result string;
  yaml_Unmarshal : string -> result kind_Cluster;
  Duration_String : Z -> string;
  NewConfig : list ConfigOption -> result NewConfigResult
}.

Context `{!Collaborators}.

(** ** State: the outside world and the heap *)

(** - [exec argv stdin]: what running the command gives, its combined
      output and its error;
    - [HomeDir]: the user's home directory;
    - [ClientConfig ctx], [NewForConfig ctx]: whether the client
      configuration of the context loads and the client set builds;
    - [faults]: what the API server does to the coming requests, one entry
      per request, [Some e] failing the request with [e];
    - [configmaps]: per context, the ConfigMaps of namespace [default], by
      name, each with its [Data];
    - [events]: what has been done so far, latest first;
    - [cluster_objs], [node_objs]: the [kind.Cluster] and [kind.Node]
      objects of the heap. *)
Record State : Type := mk_State {
  exec : list string -> string -> string * option error;
  HomeDir : string;
  ClientConfig : string -> option error;
  NewForConfig : string -> option error;
  faults : list (option error);
  configmaps : gmap string (gmap string (gmap string string));
  events : list Event;
  cluster_objs : gmap loc kind_Cluster;
  node_objs : gmap loc node_obj
}.

Definition set_faults (f : list (option error)) (s : State) : State :=
  mk_State (exec s) (HomeDir s) (ClientConfig s) (NewForConfig s) f
           (configmaps s) (events s) (cluster_objs s) (node_objs s).

Definition set_configmaps
    (m : gmap string (gmap string (gmap string string))) (s : State) : State :=
  mk_State (exec s) (HomeDir s) (ClientConfig s) (NewForConfig s) (faults s)
           m (events s) (cluster_objs s) (node_objs s).

Definition add_event (e : Event) (s : State) : State :=
  mk_State (exec s) (HomeDir s) (ClientConfig s) (NewForConfig s) (faults s)
           (configmaps s) (e :: events s) (cluster_objs s) (node_objs s).

Definition set_cluster_objs (h : gmap loc kind_Cluster) (s : State) : State :=
  mk_State (exec s) (HomeDir s) (ClientConfig s) (NewForConfig s) (faults s)
           (configmaps s) (events s) h (node_objs s).

Definition set_node_objs (h : gmap loc node_obj) (s : State) : State :=
  mk_State (exec s) (HomeDir s) (ClientConfig s) (NewForConfig s) (faults s)
           (configmaps s) (events s) (cluster_objs s) h.

(** A run either gives a value or panics. *)
Inductive res (A : Type) : Type :=
| Val (a : A)
| Panic (msg : string).
#[global] Arguments Val {A} a.
#[global] Arguments Panic {A} msg.

Definition M (A : Type) : Type := State -> res A * State.

Definition ret {A} (a : A) : M A := fun s => (Val a, s).

Definition bind {A B} (m : M A) (k : A -> M B) : M B :=
  fun s =>
    match m s with
    | (Val a, s') => k a s'
    | (Panic msg, s') => (Panic msg, s')
    end.

Definition panic {A} (msg : string) : M A := fun s => (Panic msg, s).

Definition get : M State := fun s => (Val s, s).

Definition modify (f : State -> State) : M unit := fun s => (Val tt, f s).

Local Notation "'let*' x ':=' m 'in' k" := (bind m (fun x => k))
  (at level 10, x pattern, m at level 100, k at level 200).

(** *** The heap *)

Definition nil_dereference : string :=
  "invalid memory address or nil pointer dereference".

Definition load_cluster (l : loc) : M kind_Cluster :=
  fun s =>
    match cluster_objs s !! l with
    | Some c => (Val c, s)
    | None => (Panic nil_dereference, s)
    end.

Definition store_cluster (l : loc) (c : kind_Cluster) : M unit :=
  modify (fun s => set_cluster_objs (<[l := c]> (cluster_objs s)) s).

Definition new_cluster (c : kind_Cluster) : M loc :=
  fun s =>
    let l := fresh (dom (cluster_objs s)) in
    (Val l, set_cluster_objs (<[l := c]> (cluster_objs s)) s).

(** What a [*kind.Node] points at. *)
Definition deref_node (s : State) (p : node_ptr) : option kind_Node :=
  match p with
  | ElemPtr cfg i =>
      match cluster_objs s !! cfg with
      | Some c => elems (Nodes c) !! i
      | None => None
      end
  | ObjPtr l => obj_node <$> node_objs s !! l
  end.

(** A node variable whose address is taken lives on the heap; [shares]
    tells whose maps and backing arrays its fields point at. *)
Definition new_node (n : kind_Node) (shares : option (loc * nat))
  : M node_ptr :=
  fun s =>
    let l := fresh (dom (node_objs s)) in
    (Val (ObjPtr l),
     set_node_objs (<[l := mk_node_obj n shares]> (node_objs s)) s).

(** [DeepCopy] of [kind.Node]: [nil] for [nil], else a new node holding a
    copy. *)
Definition DeepCopy (p : node_ptr) : M node_ptr :=
  fun s =>
    match deref_node s p with
    | Some n => new_node n None s
    | None => (Val p, s)
    end.

(** *** The outside world *)

(** [exec.Command(argv...)] with [stdin], run to its end. *)
Definition CombinedOutput (argv : list string) (stdin : string)
  : M (string * option error) :=
  fun s =>
    let r := exec s argv stdin in
    (Val r, add_event (EvExec argv stdin (snd r)) s).

Definition Run (argv : list string) (stdin : string) : M (option error) :=
  let* r := CombinedOutput argv stdin in
  ret (snd r).

(** The next request's fault, if the API server has one in store. *)
Definition take_fault : M (option error) :=
  fun s =>
    match faults s with
    | [] => (Val None, s)
    | f :: fs => (Val f, set_faults fs s)
    end.

(** [clientset.CoreV1().ConfigMaps("default").Get]: the [Data] of the
    record. *)
Definition ConfigMaps_Get (context nm : string)
  : M (result (gmap string string)) :=
  let* f := take_fault in
  match f with
  | Some e => ret (Err e)
  | None =>
      let* s := get in
      match default ∅ (configmaps s !! context) !! nm with
      | Some data => ret (Ok data)
      | None =>
          ret (Err (StatusError "NotFound"
                      ("configmaps " +:+ nm +:+ " not found")))
      end
  end.

(** [clientset.CoreV1().ConfigMaps("default").Create]. *)
Definition ConfigMaps_Create (context nm : string) (data : gmap string string)
  : M (option error) :=
  let* f := take_fault in
  match f with
  | Some e => ret (Some e)
  | None =>
      let* s := get in
      let records := default ∅ (configmaps s !! context) in
      match records !! nm with
      | Some _ =>
          ret (Some (StatusError "AlreadyExists"
                       ("configmaps " +:+ nm +:+ " already exists")))
      | None =>
          let* _ := modify (fun s =>
            add_event (EvConfigMapCreate context nm data)
              (set_configmaps
                 (<[context := <[nm := data]> records]> (configmaps s)) s)) in
          ret None
      end
  end.

(** [retry.OnError] over [wait.ExponentialBackoff]: at most [steps] calls
    of [fn]; a retriable error is remembered in [lastErr] and tried again,
    another one is returned at once; when the steps are used up the
    time-out is replaced by [lastErr]. *)
Fixpoint OnError (steps : nat) (retriable : error -> bool)
    (fn : M (option error)) (lastErr : option error) : M (option error) :=
  match steps with
  | O => ret lastErr
  | S steps' =>
      let* err := fn in
      match err with
      | None => ret None
      | Some e =>
          if retriable e then OnError steps' retriable fn (Some e)
          else ret (Some e)
      end
  end.

Definition RetryOnConflict (steps : nat) (fn : M (option error))
  : M (option error) :=
  OnError steps IsConflict fn None.

(** ** The program *)

(** [p == nil]. *)
Definition is_nil {A} (p : option A) : bool :=
  match p with
  | None => true
  | Some _ => false
  end.

(** Indexing a Go map of slices: a missing key gives the [nil] slice. *)
Definition at_role {A} (m : gmap NodeRole (list A)) (role : NodeRole)
  : list A :=
  default [] (m !! role).

Definition GetClusterNames : M (result (gset string)) :=
  let command := ["kind"; "get"; "clusters"; "-q"] in
  let* r := CombinedOutput command "" in
  let '(output, err) := r in
  match err with
  | Some _ => ret (Err (Errorf_w "executing command" err))
  | None => ret (Ok (list_to_set (Fields output)))
  end.

Definition getConfigBytesFromExistingCluster (nm : string)
  : M (result string) :=
  let context := "kind-" +:+ nm in
  let* s := get in
  let err := ClientConfig s context in
  match err with
  | Some _ => ret (Err (Errorf_w "loading client config" err))
  | None =>
      let err := NewForConfig s context in
      match err with
      | Some _ => ret (Err (Errorf_w "creating clientset" err))
      | None =>
          let* r := ConfigMaps_Get context nvkindClusterConfigName in
          match r with
          | Err e => ret (Err (Errorf_w "getting configmap" (Some e)))
          | Ok data => ret (Ok (default "" (data !! "config")))
          end
      end
  end.

Definition addConfigBytesToExistingCluster (nm configBytes : string)
  : M (option error) :=
  let context := "kind-" +:+ nm in
  let* s := get in
  let err := ClientConfig s context in
  match err with
  | Some _ => ret (Some (Errorf_w "loading client config" err))
  | None =>
      let err := NewForConfig s context in
      match err with
      | Some _ => ret (Some (Errorf_w "creating clientset" err))
      | None =>
          let data : gmap string string := {[ "config" := configBytes ]} in
          let* retryErr :=
            RetryOnConflict DefaultRetry_Steps
              (ConfigMaps_Create context nvkindClusterConfigName data) in
          match retryErr with
          | Some _ => ret (Some (Errorf_w "writing configmap" err))
          | None => ret None
          end
      end
  end.

(** [reflect.DeepEqual(&existingConfig, p)] for a [*kind.Cluster] [p]:
    [false] for a [nil] [p], else the equality of the two documents, for
    which a [nil] slice and an empty one are not the same. *)
Definition DeepEqual (existingConfig : kind_Cluster) (p : loc) : M bool :=
  fun s => (Val (bool_decide (cluster_objs s !! p = Some existingConfig)), s).

(** The document [c] with its [Name] field set to [nm]. *)
Definition with_Name (nm : string) (c : kind_Cluster) : kind_Cluster :=
  mk_kind_Cluster nm (Nodes c) (cluster_fields c).

(** [o.config.Cluster.Name = o.name]. *)
Definition set_Name (p : loc) (nm : string) : M unit :=
  let* c := load_cluster p in
  store_cluster p (with_Name nm c).

(** [setConfig] has a pointer receiver: it returns the options as it leaves
    them, with the error. *)
Definition setConfig (o : ClusterOptions)
  : M (option error * ClusterOptions) :=
  let* r := GetClusterNames in
  match r with
  | Err e =>
      ret (Some (Errorf_w "getting list of existing clusters" (Some e)), o)
  | Ok existingClusters =>
      let* _ :=
        match config o with
        | Some cfg =>
            if negb (String.eqb (name o) "")
            then set_Name (Config_Cluster cfg) (name o)
            else ret tt
        | None => ret tt
        end in
      if negb (bool_decide (name o ∈ existingClusters)) && negb (is_nil (config o))
      then ret (None, o)
      else
        let* early :=
          if bool_decide (name o ∈ existingClusters)
          then
            let* r := getConfigBytesFromExistingCluster (name o) in
            match r with
            | Err e => ret (inl (Some (Errorf_w "getting config bytes" (Some e))))
            | Ok existingConfigBytes =>
                match config o with
                | Some cfg =>
                    match yaml_Unmarshal existingConfigBytes with
                    | Err e =>
                        ret (inl (Some (Errorf_w "unmarshaling YAML" (Some e))))
                    | Ok existingConfig =>
                        let* eq := DeepEqual existingConfig (Config_Cluster cfg) in
                        if negb eq
                        then ret (inl (Some (errorString
                               "cannot pass new config to existing cluster")))
                        else ret (inl None)
                    end
                | None => ret (inr [WithConfigTemplate existingConfigBytes])
                end
            end
          else ret (inr []) in
        match early with
        | inl err => ret (err, o)
        | inr options =>
            match NewConfig options with
            | Err e => ret (Some (Errorf_w "creating new config" (Some e)), o)
            | Ok r =>
                let* p := new_cluster (new_Cluster r) in
                ret (None,
                     mk_ClusterOptions (name o)
                       (Some (mk_Config p (new_nvml r) (new_stdout r)
                                        (new_stderr r)))
                       (kubeconfig o))
            end
        end
  end.

Definition NewCluster (opts : list ClusterOption) : M (result Cluster) :=
  let o := foldl (fun o opt => opt o) (mk_ClusterOptions "" None "") opts in
  let* r := setConfig o in
  let '(err, o) := r in
  match err with
  | Some _ => ret (Err (Errorf_w "setting config" err))
  | None =>
      match config o with
      | None => panic nil_dereference
      | Some cfg =>
          let* o_name :=
            if String.eqb (name o) ""
            then let* c := load_cluster (Config_Cluster cfg) in ret (Name c)
            else ret (name o) in
          let* s := get in
          let o_kubeconfig :=
            if String.eqb (kubeconfig o) ""
            then if negb (String.eqb (HomeDir s) "")
                 then HomeDir s +:+ "/.kube/config"
                 else kubeconfig o
            else kubeconfig o in
          ret (Ok (mk_Cluster o_name (Config_Cluster cfg) o_kubeconfig
                              (Config_nvml cfg) (Config_stdout cfg)
                              (Config_stderr cfg)))
      end
  end.

(** The command line of [Create]. *)
Definition Create_command (c : Cluster) (o : ClusterCreateOptions)
  : list string :=
  let command :=
    ["kind"; "create"; "cluster"; "--name"; Cluster_Name c; "--config"; "-"] in
  let command := if retain o then (command ++ ["--retain"])%list else command in
  if negb (wait o =? 0)%Z
  then (command ++ ["--wait"; Duration_String (wait o)])%list
  else command.

Definition Create (c : Cluster) (opts : list ClusterCreateOption)
  : M (option error) :=
  let o := foldl (fun o opt => opt o) (mk_ClusterCreateOptions false 0) opts in
  let command := Create_command c o in
  let* s := get in
  match yaml_Marshal (cluster_objs s !! Cluster_config c) with
  | Err e => ret (Some (Errorf_w "marshaling YAML" (Some e)))
  | Ok configBytes =>
      let* err := Run command configBytes in
      match err with
      | Some _ => ret (Some (Errorf_w "executing command" err))
      | None =>
          let* err := addConfigBytesToExistingCluster (Cluster_Name c)
                        configBytes in
          match err with
          | Some _ => ret (Some (Errorf_w "adding config to cluster" err))
          | None => ret None
          end
      end
  end.

(** The first loop of [GetNodes]: the live names by role. *)
Fixpoint GetNodes_names (nodeNamesList : list string)
    (nodeNames : gmap NodeRole (list string))
  : result (gmap NodeRole (list string)) :=
  match nodeNamesList with
  | [] => Ok nodeNames
  | node :: rest =>
      let trimmed := TrimRightFunc node IsDigit in
      if HasSuffix trimmed ControlPlaneRole
      then GetNodes_names rest
             (<[ControlPlaneRole :=
                  (at_role nodeNames ControlPlaneRole ++ [node])%list]> nodeNames)
      else if HasSuffix trimmed WorkerRole
      then GetNodes_names rest
             (<[WorkerRole := (at_role nodeNames WorkerRole ++ [node])%list]>
                nodeNames)
      else Err (Errorf_v "unable to determine node role from name: " node)
  end.

(** The second loop, from element [i] of the [Nodes] of the configuration
    at [cfg] on: pointers to the declared nodes by role.  Each iteration
    has its own variable [node] (the loop semantics of Go 1.22), a copy of
    the struct of the slice element, which shares the maps and backing
    arrays of the element, and [&node] is its address. *)
Fixpoint GetNodes_configs (cfg : loc) (i : nat) (declared : list kind_Node)
    (nodeConfigs : gmap NodeRole (list node_ptr))
  : M (result (gmap NodeRole (list node_ptr))) :=
  match declared with
  | [] => ret (Ok nodeConfigs)
  | node :: rest =>
      if String.eqb (Role node) ControlPlaneRole
      then let* p := new_node node (Some (cfg, i)) in
           GetNodes_configs cfg (S i) rest
             (<[Role node := (at_role nodeConfigs (Role node) ++ [p])%list]>
                nodeConfigs)
      else if String.eqb (Role node) WorkerRole
      then let* p := new_node node (Some (cfg, i)) in
           GetNodes_configs cfg (S i) rest
             (<[Role node := (at_role nodeConfigs (Role node) ++ [p])%list]>
                nodeConfigs)
      else ret (Err (Errorf_v "unknown node role: " (Role node)))
  end.

(** The inner loop, [for i := range nodeNames[role]]. *)
Fixpoint GetNodes_pair (c : Cluster) (indices : list nat)
    (names : list string) (configs : list node_ptr) (nodes : list Node)
  : M (list Node) :=
  match indices with
  | [] => ret nodes
  | i :: rest =>
      match names !! i, configs !! i with
      | Some nm, Some p =>
          let* q := DeepCopy p in
          let node := mk_Node nm q (Cluster_nvml c) (Cluster_stdout c)
                              (Cluster_stderr c) in
          GetNodes_pair c rest names configs (nodes ++ [node])%list
      | _, _ => panic "index out of range"
      end
  end.

(** The outer loop, over the roles in their fixed order. *)
Fixpoint GetNodes_roles (c : Cluster) (roles : list NodeRole)
    (nodeNames : gmap NodeRole (list string))
    (nodeConfigs : gmap NodeRole (list node_ptr)) (nodes : list Node)
  : M (result (list Node)) :=
  match roles with
  | [] => ret (Ok nodes)
  | role :: rest =>
      if negb (length (at_role nodeNames role)
               =? length (at_role nodeConfigs role))%nat
      then ret (Err (errorString ("node names and configs mismatch for "
                                  +:+ role +:+ " role")))
      else
        let* nodes :=
          GetNodes_pair c (seq 0 (length (at_role nodeNames role)))
            (at_role nodeNames role) (at_role nodeConfigs role) nodes in
        GetNodes_roles c rest nodeNames nodeConfigs nodes
  end.

Definition GetNodes (c : Cluster) : M (result (list Node)) :=
  let command := ["kind"; "get"; "nodes"; "--name"; Cluster_Name c] in
  let* r := CombinedOutput command "" in
  let '(output, err) := r in
  match err with
  | Some _ => ret (Err (Errorf_w "executing command" err))
  | None =>
      let nodeNamesList := sort_Strings (Fields output) in
      match GetNodes_names nodeNamesList ∅ with
      | Err e => ret (Err e)
      | Ok nodeNames =>
          let* cfg := load_cluster (Cluster_config c) in
          let* r := GetNodes_configs (Cluster_config c) 0
                      (elems (Nodes cfg)) ∅ in
          match r with
          | Err e => ret (Err e)
          | Ok nodeConfigs =>
              GetNodes_roles c [ControlPlaneRole; WorkerRole]
                nodeNames nodeConfigs []
          end
      end
  end.

End Nvkind.

(** ** The vocabulary of the specification *)

(** The role a live name stands for (step 2 of the resolver): the name
    without its trailing digits ends in the role's token. *)
Definition classify (node : string) : option NodeRole :=
  let trimmed := TrimRightFunc node IsDigit in
  if HasSuffix trimmed ControlPlaneRole then Some ControlPlaneRole
  else if HasSuffix trimmed WorkerRole then Some WorkerRole
  else None.

(** The live names of a role, sorted. *)
Definition live_of (role : NodeRole) (liveNames : list string)
  : list string :=
  filter (fun node => classify node = Some role) (sort_Strings liveNames).

(** The declared nodes of a role, in declaration order. *)
Definition declared_of {NodeFields : Type} (role : NodeRole)
    (declared : list (@kind_Node NodeFields)) : list kind_Node :=
  filter (fun d => Role d = role) declared.

(** The roles of the enumeration. *)
Definition known_role (role : NodeRole) : Prop :=
  role = ControlPlaneRole \/ role = WorkerRole.

(** Go's [<=] on strings. *)
Definition le_string (a b : string) : Prop := less b a = false.

(** The bytes of a string. *)
Fixpoint bytes (s : string) : list ascii :=
  match s with
  | EmptyString => []
  | String c s' => c :: bytes s'
  end.

(** The command lines of the two queries. *)
Definition get_clusters_command : list string :=
  ["kind"; "get"; "clusters"; "-q"].

Definition get_nodes_command (cluster : string) : list string :=
  ["kind"; "get"; "nodes"; "--name"; cluster].

(** The errors of the specification, as the code words them. *)
Definition UnknownNodeRole (node : string) : error :=
  errorString ("unable to determine node role from name: " +:+ node).

Definition TopologyMismatch (role : NodeRole) : error :=
  errorString ("node names and configs mismatch for " +:+ role +:+ " role").

Definition ConfigConflict : error :=
  errorString "cannot pass new config to existing cluster".

Section Vocabulary.

Context {NodeFields ClusterFields : Type}.

Local Abbreviation State := (@State NodeFields ClusterFields).
Local Abbreviation kind_Node := (@kind_Node NodeFields).

(** [s'] is [s] after allocations of nodes: the heap of nodes has grown
    and nothing else has changed. *)
Definition nodes_allocated (s s' : State) : Prop :=
  s' = set_node_objs (node_objs s') s /\ node_objs s ⊆ node_objs s'.

(** [node] is the pairing of the live name [nm] with the declaration [d],
    with the cluster's handles. *)
Definition resolves (s : State) (c : Cluster) (node : Node)
    (nm : string) (d : kind_Node) : Prop :=
  Node_Name node = nm /\
  deref_node s (Node_config node) = Some d /\
  Node_nvml node = Cluster_nvml c /\
  Node_stdout node = Cluster_stdout c /\
  Node_stderr node = Cluster_stderr c.

(** The declaration of [node] is a node of its own in [s], allocated after
    [s0]: it is neither an element of a configuration's [Nodes] nor a node
    that [s0] already had, and the maps and backing arrays its fields
    point at are its own. *)
Definition private_copy (s0 s : State) (node : Node) : Prop :=
  exists l d,
    Node_config node = ObjPtr l /\
    (l ∉ dom (node_objs s0)) /\
    node_objs s !! l = Some (mk_node_obj d None).

(** A later write to a configuration.  [Assign cfg c'] leaves the document
    [c'] at [cfg]: an assignment to the document, to a field of it, to an
    element of [Nodes] or to a field of an element.  [InPlace cfg i g]
    writes through the maps and backing arrays that the fields of element
    [i] point at (as [cfg.Nodes[i].Labels[k] = v] does): [g] is what the
    write does to the fields, of the element and of every struct copy that
    still shares them. *)
Inductive mutation : Type :=
| Assign (cfg : loc) (c' : @kind_Cluster NodeFields ClusterFields)
| InPlace (cfg : loc) (i : nat) (g : NodeFields -> NodeFields).

Definition write_fields (g : NodeFields -> NodeFields) (d : kind_Node)
  : kind_Node :=
  mk_kind_Node (Role d) (g (node_fields d)).

Definition write_element (i : nat) (g : NodeFields -> NodeFields)
    (c : @kind_Cluster NodeFields ClusterFields)
  : @kind_Cluster NodeFields ClusterFields :=
  mk_kind_Cluster (Name c)
    (match Nodes c with
     | nil_slice => nil_slice
     | mk_slice l => mk_slice (alter (write_fields g) i l)
     end)
    (cluster_fields c).

Definition write_shared (cfg : loc) (i : nat) (g : NodeFields -> NodeFields)
    (o : @node_obj NodeFields) : node_obj :=
  if decide (obj_shares o = Some (cfg, i))
  then mk_node_obj (write_fields g (obj_node o)) (obj_shares o)
  else o.

Definition mutate (m : mutation) (s : State) : State :=
  match m with
  | Assign cfg c' =>
      set_cluster_objs (alter (fun _ => c') cfg (cluster_objs s)) s
  | InPlace cfg i g =>
      set_node_objs (write_shared cfg i g <$> node_objs s)
        (set_cluster_objs (alter (write_element i g) cfg (cluster_objs s)) s)
  end.

(** The state after the writes [ms], first to last. *)
Definition mutations (ms : list mutation) (s : State) : State :=
  foldl (fun s m => mutate m s) s ms.

(** The pairs the resolver emits: per role, in the fixed order of the
    roles, the role's sorted live names with the role's declarations. *)
Definition pairing (liveNames : list string) (declared : list kind_Node)
  : list (string * kind_Node) :=
  (zip (live_of ControlPlaneRole liveNames)
       (declared_of ControlPlaneRole declared)
   ++ zip (live_of WorkerRole liveNames)
          (declared_of WorkerRole declared))%list.

(** The state once the clusters are listed. *)
Definition listed (s : State) : State :=
  add_event (EvExec get_clusters_command "" None) s.

(** The state once the clusters are listed and the document [c] at [p] is
    given the name [nm]. *)
Definition normalized (p : loc) (nm : string)
    (c : @kind_Cluster NodeFields ClusterFields) (s : State) : State :=
  set_cluster_objs (<[p := with_Name nm c]> (cluster_objs s)) (listed s).

(** The options a caller's options add up to. *)
Definition options_of (opts : list (@ClusterOption)) : ClusterOptions :=
  foldl (fun o opt => opt o) (mk_ClusterOptions "" None "") opts.

(** The context of a cluster on the API server. *)
Definition context_of (cluster : string) : string := "kind-" +:+ cluster.

(** The record [Create] writes for the text [configBytes]. *)
Definition config_record (configBytes : string) : gmap string string :=
  {[ "config" := configBytes ]}.

(** The records of [context] once [data] is written under [nm]. *)
Definition written (context nm : string) (data : gmap string string)
    (s : State) : gmap string (gmap string (gmap string string)) :=
  <[context := <[nm := data]> (default ∅ (configmaps s !! context))]>
    (configmaps s).

End Vocabulary.

(** ** Inputs of the examples *)

(** An outside world that answers the query for the clusters with
    [clusters] and the query for the nodes with [live], and in which every
    other command succeeds silently. *)
Definition example_exec (clusters live : string) (argv : list string)
    (stdin : string) : string * option error :=
  if bool_decide (argv = get_clusters_command) then (clusters, None)
  else if bool_decide (take 4 argv = ["kind"; "get"; "nodes"; "--name"])
  then (live, None)
  else ("", None).

(** Three declarations, told apart by the image they name. *)
Definition example_declared : list (@kind_Node string) :=
  [ mk_kind_Node ControlPlaneRole "image-a";
    mk_kind_Node WorkerRole "image-b";
    mk_kind_Node WorkerRole "image-c" ].

(** A state whose cluster [kind] has the live nodes [live] and the
    configuration object at address [1]. *)
Definition example_topology (live : string)
    (declared : list (@kind_Node string)) : @State string unit :=
  mk_State (example_exec "kind" live) "/root" (fun _ => None) (fun _ => None)
           [] ∅ []
           {[ 1%positive := mk_kind_Cluster "kind" (mk_slice declared) tt ]} ∅.

Definition example_cluster : Cluster :=
  mk_Cluster "kind" 1%positive "/root/.kube/config" 0 0 0.

(** A stand-in for the YAML codec in the examples: a document is written
    as its name followed by the roles of its nodes, separated by blanks,
    and read back from any such text whatever its spacing.  As with the
    YAML codec, a slice without elements is left out of the text, and a
    text without nodes is read back with a [nil] slice. *)
Definition example_Marshal (c : option (@kind_Cluster unit unit))
  : result string :=
  match c with
  | Some c => Ok (String.concat " " (Name c :: (Role <$> elems (Nodes c))))
  | None => Ok "null"
  end.

Definition example_Unmarshal (text : string)
  : result (@kind_Cluster unit unit) :=
  match Fields text with
  | [] => Ok (mk_kind_Cluster "" nil_slice tt)
  | [nm] => Ok (mk_kind_Cluster nm nil_slice tt)
  | nm :: roles =>
      Ok (mk_kind_Cluster nm
            (mk_slice ((fun r => mk_kind_Node r tt) <$> roles)) tt)
  end.

(** [NewConfig] of the examples reads its template with the codec and
    knows no default template. *)
Definition example_NewConfig (options : list ConfigOption)
  : result (@NewConfigResult unit unit) :=
  match options with
  | WithConfigTemplate template :: _ =>
      match example_Unmarshal template with
      | Ok c => Ok (mk_NewConfigResult c 0 1 2)
      | Err e => Err e
      end
  | [] => Err (errorString "no config template")
  end.

Definition example_collaborators : @Collaborators unit unit :=
  {| yaml_Marshal := example_Marshal;
     yaml_Unmarshal := example_Unmarshal;
     Duration_String := fun d => "1m0s";
     NewConfig := example_NewConfig |}.

(** The options of the examples: naming the cluster and supplying a
    configuration. *)
Definition option_name (nm : string) : @ClusterOption :=
  fun o => mk_ClusterOptions nm (config o) (kubeconfig o).

Definition option_config (cfg : Config) : @ClusterOption :=
  fun o => mk_ClusterOptions (name o) (Some cfg) (kubeconfig o).

(** A state in which the clusters [clusters] exist, the API server has the
    faults [fs] in store and the records [records] for the context
    [kind-kind], and the heap holds the document [c] at address [1]. *)
Definition example_world (clusters : string) (fs : list (option error))
    (records : gmap string (gmap string string))
    (c : @kind_Cluster unit unit) : @State unit unit :=
  mk_State (example_exec clusters "") "/root" (fun _ => None) (fun _ => None)
           fs {[ "kind-kind" := records ]} []
           {[ 1%positive := c ]} ∅.

(** A world like [example_world] in which creating a cluster fails. *)
Definition example_failing_world (c : @kind_Cluster unit unit)
  : @State unit unit :=
  mk_State (fun argv stdin => ("", Some (ExitError "exit status 1")))
           "/root" (fun _ => None) (fun _ => None)
           [] ∅ [] {[ 1%positive := c ]} ∅.

(** Documents of the examples: the one stored for the cluster [kind], the
    same under another name, and one with a node more. *)
Definition example_stored : @kind_Cluster unit unit :=
  mk_kind_Cluster "kind" (mk_slice [mk_kind_Node WorkerRole tt]) tt.

Definition example_renamed : @kind_Cluster unit unit :=
  mk_kind_Cluster "other" (mk_slice [mk_kind_Node WorkerRole tt]) tt.

Definition example_larger : @kind_Cluster unit unit :=
  mk_kind_Cluster "kind"
    (mk_slice [mk_kind_Node ControlPlaneRole tt; mk_kind_Node WorkerRole tt])
    tt.

(** A failure of the API server that is no conflict, and one that is. *)
Definition example_forbidden : error :=
  StatusError "Forbidden" "configmaps is forbidden".

Definition example_conflict : error :=
  StatusError "Conflict" "the object has been modified".

(** The caller's configuration of the examples, at address [1]. *)
Definition example_config : Config := mk_Config 1%positive 0 1 2.

(** The record holding the text [text]. *)
Definition example_record (text : string)
  : gmap string (gmap string string) :=
  {[ nvkindClusterConfigName := {[ "config" := text ]} ]}.

(** Proves that the names of a literal list have each a role. *)
Ltac all_classified :=
  repeat first
    [ apply Forall_nil_2
    | apply Forall_cons_2;
      [ match goal with
        | |- is_Some (classify ?node) =>
            let r := eval vm_compute in (classify node) in
            match r with
            | Some ?role => exists role; vm_compute; reflexivity
            end
        end
      | ] ].

(** Replaces the fields of a literal output by their list. *)
Ltac eval_Fields :=
  repeat match goal with
         | |- context [Fields ?out] =>
             let v := eval vm_compute in (Fields out) in
             change (Fields out) with v
         end.

(** ** The rest of the program: the child processes *)

(** The manifest [RegisterNvidiaRuntimeClass] applies. *)
Definition k8sRuntimeClassYaml : string :=
"---
apiVersion: node.k8s.io/v1
handler: nvidia
kind: RuntimeClass
metadata:
  name: nvidia
".

Definition newline : string := String "010" EmptyString.

(** The operating system as [runChildProcess] meets it: whether a pipe can
    be attached to the standard input of the child that [args] starts
    ([cmd.StdinPipe], failing when the system gives no pipe). *)
Class OS : Type := {
  StdinPipe : list string -> option error
}.

Section Children.

Context {NodeFields ClusterFields : Type}.
Context `{!OS}.

Local Abbreviation M := (@M NodeFields ClusterFields).

Local Notation "'let*' x ':=' m 'in' k" := (bind m (fun x => k))
  (at level 10, x pattern, m at level 100, k at level 200).

(** [runChildProcess] returns, with its error, what it prints on the
    standard output of the program; what the child prints goes to the
    terminal and is not kept.  The child reads [input] on its standard
    input: through the pipe the goroutine feeds when there is an input,
    and nothing otherwise. *)
Definition runChildProcess (args : list string) (input : string)
  : M (string * option error) :=
  let cmdStr := String.concat " " args in
  match args with
  | [] => panic "index out of range [0] with length 0"
  | _ :: _ =>
      let err := if (0 <? String.length input)%nat then StdinPipe args
                 else None in
      match err with
      | Some _ => ret ("", Some (Errorf_w "attaching pipe to child" err))
      | None =>
          let printed := "+ " +:+ cmdStr +:+ newline in
          let* err := Run args input in
          match err with
          | Some _ =>
              ret (printed,
                   Some (Errorf_w ("error running '" +:+ cmdStr +:+ "'") err))
          | None => ret (printed, None)
          end
      end
  end.

Definition PrintClusterInfo (c : Cluster) : M (string * option error) :=
  let cmd :=
    ["kubectl"; "cluster-info"; "--context"; "kind-" +:+ Cluster_Name c] in
  let* r := runChildProcess cmd "" in
  let '(printed, err) := r in
  match err with
  | Some _ => ret (printed, Some (Errorf_w "running process" err))
  | None =>
      let cmd :=
        ["kubectl"; "--context"; "kind-" +:+ Cluster_Name c; "get"; "nodes"] in
      let* r := runChildProcess cmd "" in
      let '(printed', err) := r in
      match err with
      | Some _ =>
          ret (printed +:+ printed', Some (Errorf_w "running process" err))
      | None => ret (printed +:+ printed', None)
      end
  end.

Definition RegisterNvidiaRuntimeClass (c : Cluster)
  : M (string * option error) :=
  let cmd :=
    ["kubectl"; "--context"; "kind-" +:+ Cluster_Name c; "apply"; "-f"; "-"] in
  let* r := runChildProcess cmd k8sRuntimeClassYaml in
  let '(printed, err) := r in
  match err with
  | Some _ => ret (printed, Some (Errorf_w "running process" err))
  | None => ret (printed, None)
  end.

Definition Delete (c : Cluster) : M (string * option error) :=
  let command := ["kind"; "delete"; "cluster"; "--name"; Cluster_Name c] in
  let* r := runChildProcess command "" in
  let '(printed, err) := r in
  match err with
  | Some _ => ret (printed, Some (Errorf_w "executing command" err))
  | None => ret (printed, None)
  end.

(** *** Vocabulary *)

Local Abbreviation State := (@State NodeFields ClusterFields).

(** The state [s] in an outside world whose commands answer as [f]. *)
Definition set_exec (f : list string -> string -> string * option error)
    (s : State) : State :=
  mk_State f (HomeDir s) (ClientConfig s) (NewForConfig s) (faults s)
           (configmaps s) (events s) (cluster_objs s) (node_objs s).

(** The commands run between [s] and [s'], first to last. *)
Definition commands_run (s s' : State) (cmds : list (list string)) : Prop :=
  exists evs,
    events s' = (evs ++ events s)%list /\
    Forall2 (fun ev argv => exists stdin err, ev = EvExec argv stdin err)
            (reverse evs) cmds.

(** The requests the API server has answered between [s] and [s']. *)
Definition requests_made (s s' : State) : nat :=
  length (faults s) - length (faults s').

(** What a run of reconciliation leaves as it was: the outside world but
    for the query for the clusters and at most one request to the store,
    and the nodes of the heap. *)
Definition reads_only (s s' : State) : Prop :=
  exec s' = exec s /\
  HomeDir s' = HomeDir s /\
  configmaps s' = configmaps s /\
  node_objs s' = node_objs s /\
  events s'
  = EvExec get_clusters_command "" (snd (exec s get_clusters_command ""))
    :: events s /\
  requests_made s s' <= 1.

(** Between [s] and [s'] only the store has been at work: the commands
    answer as before, the clients load as before and the heap is as it
    was. *)
Definition store_only (s s' : State) : Prop :=
  exec s' = exec s /\
  HomeDir s' = HomeDir s /\
  ClientConfig s' = ClientConfig s /\
  NewForConfig s' = NewForConfig s /\
  cluster_objs s' = cluster_objs s /\
  node_objs s' = node_objs s.

(** The answer [f] of the API server is a conflict. *)
Definition conflict_answer (f : option error) : Prop :=
  exists e, f = Some e /\ IsConflict e = true.

(** The API server answers the next request without a fault of its own. *)
Definition next_answered (s : State) : Prop :=
  forall e, head (faults s) <> Some (Some e).

(** The line [runChildProcess] prints before it runs [args]. *)
Definition announced (args : list string) : string :=
  "+ " +:+ String.concat " " args +:+ newline.

(** [l1] occurs in [l2] as a run of consecutive elements. *)
Definition occurs_in {A} (l1 l2 : list A) : Prop :=
  exists pre post, l2 = (pre ++ l1 ++ post)%list.

End Children.

(** An operating system that always gives a pipe, and one that gives
    none. *)
Definition example_os : OS := {| StdinPipe := fun _ => None |}.

Definition example_os_no_pipe : OS :=
  {| StdinPipe := fun _ => Some (errorString "too many open files") |}.


(** A configuration whose document pointer is [nil]: no object of the
    examples lives at address [2]. *)
Definition example_dangling : Config := mk_Config 2%positive 0 1 2.

(** A [NewConfig] that has a default template, and the collaborators that
    go with it. *)
Definition example_default_NewConfig (options : list ConfigOption)
  : result (@NewConfigResult unit unit) :=
  match options with
  | [] =>
      Ok (mk_NewConfigResult
            (mk_kind_Cluster "nvkind"
               (mk_slice [mk_kind_Node ControlPlaneRole tt]) tt)
            0 1 2)
  | _ :: _ => example_NewConfig options
  end.

Definition example_defaulting : @Collaborators unit unit :=
  {| yaml_Marshal := example_Marshal;
     yaml_Unmarshal := example_Unmarshal;
     Duration_String := fun d => "1m0s";
     NewConfig := example_default_NewConfig |}.

(** A world like [example_world] without records, in which no client
    configuration can be loaded. *)
Definition example_no_client (c : @kind_Cluster unit unit)
  : @State unit unit :=
  mk_State (example_exec "" "") "/root"
           (fun _ => Some (errorString "no configuration has been provided"))
           (fun _ => None)
           [] ∅ [] {[ 1%positive := c ]} ∅.

(** A declaration whose role is not of the enumeration. *)
Definition example_undeclared : list (@kind_Node string) :=
  [ mk_kind_Node WorkerRole "image-b"; mk_kind_Node "etcd" "image-x" ].

(** A document whose [Nodes] is a slice without elements that is not
    [nil], as [kind.Cluster{Name: "kind", Nodes: []kind.Node{}}]. *)
Definition example_empty : @kind_Cluster unit unit :=
  mk_kind_Cluster "kind" (mk_slice []) tt.
(** ** Facts about the library functions *)

Example Fields_example :
  Fields (" kind-worker2" +:+ String "010" "kind-control-plane  kind-worker ")
  = ["kind-worker2"; "kind-control-plane"; "kind-worker"].
Proof. reflexivity. Qed.

Example TrimRightFunc_examples :
  TrimRightFunc "kind-worker12" IsDigit = "kind-worker" /\
  TrimRightFunc "kind-control-plane" IsDigit = "kind-control-plane" /\
  TrimRightFunc "w-1" IsDigit = "w-" /\
  TrimRightFunc "2024" IsDigit = "".
Proof. repeat split; reflexivity. Qed.

Example HasSuffix_examples :
  HasSuffix "kind-worker" WorkerRole = true /\
  HasSuffix "kind-control-plane" ControlPlaneRole = true /\
  HasSuffix "w-" WorkerRole = false /\
  HasSuffix "er" WorkerRole = false.
Proof. repeat split; reflexivity. Qed.

Example sort_Strings_example :
  sort_Strings ["kind-worker2"; "kind-control-plane"; "kind-worker"]
  = ["kind-control-plane"; "kind-worker"; "kind-worker2"].
Proof. reflexivity. Qed.

Section StringFacts.

Lemma append_nil_l (t : string) : "" +:+ t = t.
Proof. reflexivity. Qed.

Lemma append_cons (c : ascii) (s t : string) :
  String c s +:+ t = String c (s +:+ t).
Proof. reflexivity. Qed.

Lemma append_empty_r (s : string) : s +:+ "" = s.
Proof.
  induction s as [|c s IH]; [done |]. by rewrite append_cons, IH.
Qed.

Lemma append_assoc (a b c : string) : (a +:+ b) +:+ c = a +:+ (b +:+ c).
Proof.
  induction a as [|x a IH]; [done |]. by rewrite !append_cons, IH.
Qed.

Lemma length_append (a b : string) :
  String.length (a +:+ b) = String.length a + String.length b.
Proof.
  induction a as [|x a IH]; [done |]. rewrite append_cons. simpl. by rewrite IH.
Qed.

Lemma bytes_append (a b : string) : bytes (a +:+ b) = (bytes a ++ bytes b)%list.
Proof.
  induction a as [|x a IH]; [done |]. rewrite append_cons. simpl. by rewrite IH.
Qed.

Lemma bytes_inj (a b : string) : bytes a = bytes b -> a = b.
Proof.
  revert b; induction a as [|x a IH]; intros [|y b]; simpl; try done.
  intros [= -> Hab]. f_equal. by apply IH.
Qed.

Lemma substring_prefix (t d : string) :
  substring 0 (String.length t) (t +:+ d) = t.
Proof.
  induction t as [|c t IH].
  - by destruct d.
  - rewrite append_cons. simpl. by rewrite IH.
Qed.

Lemma substring_whole (s : string) : substring 0 (String.length s) s = s.
Proof.
  rewrite <- (append_empty_r s) at 2. apply substring_prefix.
Qed.

Lemma substring_suffix (p s : string) :
  substring (String.length p) (String.length s) (p +:+ s) = s.
Proof.
  induction p as [|c p IH]; [apply substring_whole |].
  rewrite append_cons. simpl. done.
Qed.

Lemma substring_split (n : nat) (s : string) :
  n <= String.length s ->
  s = substring 0 n s +:+ substring n (String.length s - n) s.
Proof.
  revert s; induction n as [|n IH]; intros s Hn.
  - simpl. rewrite Nat.sub_0_r, substring_whole. by destruct s.
  - destruct s as [|c s]; simpl in *; [lia |].
    rewrite append_cons. f_equal. apply IH. lia.
Qed.

(** [HasSuffix s suffix] says that [s] ends with [suffix]. *)
Lemma HasSuffix_spec (s suffix : string) :
  HasSuffix s suffix = true <-> exists p, s = p +:+ suffix.
Proof.
  unfold HasSuffix. rewrite andb_true_iff, Nat.leb_le, String.eqb_eq. split.
  - intros [Hlen Heq]. exists (substring 0 (String.length s - String.length suffix) s).
    pose proof (substring_split (String.length s - String.length suffix) s
                  ltac:(lia)) as Hsplit.
    replace (String.length s - (String.length s - String.length suffix))
      with (String.length suffix) in Hsplit by lia.
    by rewrite Heq in Hsplit.
  - intros [p ->]. rewrite length_append. split; [lia |].
    replace (String.length p + String.length suffix - String.length suffix)
      with (String.length p) by lia.
    apply substring_suffix.
Qed.

(** The decomposition [lastIndexFunc] computes: what follows its index
    satisfies [f], and the byte at the index does not. *)
Lemma lastIndexFunc_decomp (s : string) (f : ascii -> bool) :
  exists t d,
    s = t +:+ d /\
    Forall (fun c => f c = true) (bytes d) /\
    (t = "" \/ exists t' c, t = t' +:+ String c "" /\ f c = false) /\
    lastIndexFunc s f false = (Z.of_nat (String.length t) - 1)%Z.
Proof.
  induction s as [|c s (t & d & Hs & Hd & Ht & Hi)]; simpl.
  - exists "", "". repeat split; auto.
  - rewrite Hi. destruct t as [|c' t].
    + rewrite append_nil_l in Hs. subst s. simpl.
      destruct (f c) eqn:Hc; simpl.
      * exists "", (String c d).
        split; [done |]. split; [by constructor |]. split; [by left | done].
      * exists (String c ""), d.
        split; [done |]. split; [done |]. split; [| done].
        right. by exists "", c.
    + exists (String c (String c' t)), d. simpl in *.
      destruct (0 <=? _)%Z eqn:Hle; [| apply Z.leb_gt in Hle; lia].
      split; [by rewrite Hs |]. split; [done |]. split; [| lia].
      right. destruct Ht as [|(t' & x & Ht' & Hx)]; [done |].
      exists (String c t'), x. by rewrite append_cons, Ht'.
Qed.

(** [TrimRightFunc] strips the maximal trailing run of bytes satisfying
    [f]: what is stripped satisfies [f], and what remains is empty or ends
    with a byte that does not. *)
Lemma TrimRightFunc_spec (s : string) (f : ascii -> bool) :
  exists d,
    s = TrimRightFunc s f +:+ d /\
    Forall (fun c => f c = true) (bytes d) /\
    (TrimRightFunc s f = "" \/
     exists t' c, TrimRightFunc s f = t' +:+ String c "" /\ f c = false).
Proof.
  destruct (lastIndexFunc_decomp s f) as (t & d & Hs & Hd & Ht & Hi).
  assert (TrimRightFunc s f = t) as ->.
  { unfold TrimRightFunc. rewrite Hi.
    replace (Z.to_nat (Z.of_nat (String.length t) - 1 + 1)) with (String.length t) by lia.
    rewrite Hs. apply substring_prefix. }
  eauto.
Qed.

End StringFacts.

Section SortFacts.

Lemma less_asym (a b : string) : less a b = true -> less b a = false.
Proof.
  unfold less, String.ltb. rewrite (String.compare_antisym b a).
  by destruct (String.compare a b).
Qed.

Lemma insert_string_perm (x : string) (l : list string) :
  Permutation (insert_string x l) (x :: l).
Proof.
  induction l as [|y l IH]; simpl; [done |].
  destruct (less y x); [| done].
  rewrite IH. apply perm_swap.
Qed.

Lemma sort_Strings_perm (l : list string) : Permutation (sort_Strings l) l.
Proof.
  induction l as [|x l IH]; simpl; [done |].
  by rewrite insert_string_perm, IH.
Qed.

Lemma insert_string_HdRel (a x : string) (l : list string) :
  less x a = false -> HdRel le_string a l -> HdRel le_string a (insert_string x l).
Proof.
  intros Hax Hal. destruct l as [|y l]; simpl; [by constructor |].
  destruct (less y x); constructor; [by inversion Hal | done].
Qed.

Lemma insert_string_sorted (x : string) (l : list string) :
  Sorted le_string l -> Sorted le_string (insert_string x l).
Proof.
  induction 1 as [|y l Hl IH Hy]; simpl; [by repeat constructor |].
  destruct (less y x) eqn:Hyx.
  - constructor; [done |]. apply insert_string_HdRel; [| done].
    by apply less_asym.
  - constructor; [by constructor |]. by constructor.
Qed.

(** [sort_Strings] gives the input's names in increasing order. *)
Lemma sort_Strings_sorted (l : list string) :
  Sorted le_string (sort_Strings l).
Proof.
  induction l as [|x l IH]; simpl; [constructor |].
  by apply insert_string_sorted.
Qed.

Lemma elem_of_sort_Strings (x : string) (l : list string) :
  x ∈ sort_Strings l <-> x ∈ l.
Proof. by rewrite (sort_Strings_perm l). Qed.

Lemma length_sort_Strings (l : list string) :
  length (sort_Strings l) = length l.
Proof. by rewrite (sort_Strings_perm l). Qed.

Lemma Forall_sort_Strings (P : string -> Prop) (l : list string) :
  Forall P (sort_Strings l) <-> Forall P l.
Proof. by rewrite (sort_Strings_perm l). Qed.

(** [strings.Fields] gives no empty field. *)
Lemma Fields_from_nonempty (cur s : string) : "" ∉ Fields_from cur s.
Proof.
  revert cur; induction s as [|c s IH]; intros cur; simpl.
  - destruct cur; [apply not_elem_of_nil |].
    by intros ?%list_elem_of_singleton.
  - destruct (IsSpace c); [| apply IH].
    destruct cur; [apply IH |].
    intros [H | H]%elem_of_cons; [done | by apply (IH "")].
Qed.

Lemma Fields_nonempty (s : string) : "" ∉ Fields s.
Proof. apply Fields_from_nonempty. Qed.

End SortFacts.

(** ** Role inference *)

Section Classification.

Lemma tokens_exclusive (t : string) :
  HasSuffix t ControlPlaneRole = true -> HasSuffix t WorkerRole = true -> False.
Proof.
  rewrite !HasSuffix_spec. intros [p Hp] [q Hq].
  assert (last (bytes t) = Some "e"%char) as He.
  { rewrite Hp, bytes_append, last_app. reflexivity. }
  assert (last (bytes t) = Some "r"%char) as Hr.
  { rewrite Hq, bytes_append, last_app. reflexivity. }
  congruence.
Qed.

(** [classify] in the specification's words: the role whose token ends the
    name once its trailing digits are gone. *)
Lemma classify_spec (node : string) (role : NodeRole) :
  classify node = Some role <->
  known_role role /\ HasSuffix (TrimRightFunc node IsDigit) role = true.
Proof.
  unfold classify, known_role.
  destruct (HasSuffix _ ControlPlaneRole) eqn:Hcp.
  - split.
    + intros [= <-]. auto.
    + intros [[-> | ->] H]; [done |]. destruct (tokens_exclusive _ Hcp H).
  - destruct (HasSuffix _ WorkerRole) eqn:Hw.
    + split.
      * intros [= <-]. auto.
      * intros [[-> | ->] H]; [congruence | done].
    + split; [done |]. intros [[-> | ->] H]; congruence.
Qed.

Lemma classify_None (node : string) :
  classify node = None <->
  HasSuffix (TrimRightFunc node IsDigit) ControlPlaneRole = false /\
  HasSuffix (TrimRightFunc node IsDigit) WorkerRole = false.
Proof.
  unfold classify.
  destruct (HasSuffix _ ControlPlaneRole), (HasSuffix _ WorkerRole);
    split; (done || by intros [??]).
Qed.

Lemma classify_known (node : string) (role : NodeRole) :
  classify node = Some role -> known_role role.
Proof. by intros [? _]%classify_spec. Qed.

(** The first loop, when every name has a role: each role's slice grows by
    the names of the role, in the order they come. *)
Lemma GetNodes_names_classified (l : list string)
    (m : gmap NodeRole (list string)) :
  Forall (fun node => is_Some (classify node)) l ->
  exists m',
    GetNodes_names l m = Ok m' /\
    forall role, known_role role ->
      at_role m' role
      = (at_role m role ++ filter (fun node => classify node = Some role) l)%list.
Proof.
  revert m; induction l as [|node l IH]; intros m Hl; simpl.
  - exists m. split; [done |]. intros role _. by rewrite app_nil_r.
  - apply Forall_cons in Hl as [[r Hr] Hl].
    pose proof Hr as Hr'. unfold classify in Hr'.
    destruct (HasSuffix _ ControlPlaneRole) eqn:Hcp.
    + injection Hr' as <-.
      destruct (IH (<[ControlPlaneRole :=
                       (at_role m ControlPlaneRole ++ [node])%list]> m) Hl)
        as (m' & -> & Hm').
      exists m'. split; [done |]. intros role Hrole. rewrite (Hm' role Hrole).
      rewrite filter_cons. unfold at_role at 1.
      destruct Hrole as [-> | ->].
      * rewrite lookup_insert_eq. simpl.
        rewrite decide_True by done. by rewrite <- app_assoc.
      * rewrite lookup_insert_ne by done.
        rewrite decide_False by (rewrite Hr; discriminate). done.
    + destruct (HasSuffix _ WorkerRole) eqn:Hw; [| done].
      injection Hr' as <-.
      destruct (IH (<[WorkerRole :=
                       (at_role m WorkerRole ++ [node])%list]> m) Hl)
        as (m' & -> & Hm').
      exists m'. split; [done |]. intros role Hrole. rewrite (Hm' role Hrole).
      rewrite filter_cons. unfold at_role at 1.
      destruct Hrole as [-> | ->].
      * rewrite lookup_insert_ne by done.
        rewrite decide_False by (rewrite Hr; discriminate). done.
      * rewrite lookup_insert_eq. simpl.
        rewrite decide_True by done. by rewrite <- app_assoc.
Qed.

(** The first loop, when some name has no role: it stops at the first such
    name. *)
Lemma GetNodes_names_unclassified (l : list string)
    (m : gmap NodeRole (list string)) :
  Exists (fun node => classify node = None) l ->
  exists bad,
    bad ∈ l /\ classify bad = None /\
    GetNodes_names l m = Err (UnknownNodeRole bad).
Proof.
  revert m; induction l as [|node l IH]; intros m Hl; [by inversion Hl |].
  simpl. destruct (classify node) as [r|] eqn:Hr.
  - assert (Exists (fun node => classify node = None) l) as Hl'.
    { inversion Hl; [congruence | done]. }
    unfold classify in Hr.
    destruct (HasSuffix _ ControlPlaneRole);
      [| destruct (HasSuffix _ WorkerRole); [| done]].
    + destruct (IH (<[ControlPlaneRole :=
                       (at_role m ControlPlaneRole ++ [node])%list]> m) Hl')
        as (bad & ? & ? & ?).
      exists bad. by rewrite elem_of_cons; auto.
    + destruct (IH (<[WorkerRole :=
                       (at_role m WorkerRole ++ [node])%list]> m) Hl')
        as (bad & ? & ? & ?).
      exists bad. by rewrite elem_of_cons; auto.
  - exists node. split; [by left |]. split; [done |].
    apply classify_None in Hr as [-> ->]. done.
Qed.

End Classification.

(** ** The order of the live names *)

Section OrderFacts.

Lemma ascii_compare_lt_trans (x y z : ascii) :
  Ascii.compare x y = Lt -> Ascii.compare y z = Lt -> Ascii.compare x z = Lt.
Proof.
  unfold Ascii.compare. rewrite !N.compare_lt_iff. apply N.lt_trans.
Qed.

Lemma string_compare_trans (a b c : string) :
  String.compare a b <> Gt -> String.compare b c <> Gt ->
  String.compare a c <> Gt.
Proof.
  revert b c; induction a as [|x a IH]; intros b c Hab Hbc.
  - by destruct c.
  - destruct b as [|y b]; [done |]. destruct c as [|z c]; [done |].
    simpl in *.
    destruct (Ascii.compare x y) eqn:Hxy; [| | done].
    + apply Ascii.compare_eq_iff in Hxy as ->.
      destruct (Ascii.compare y z); [by eapply IH | done | done].
    + destruct (Ascii.compare y z) eqn:Hyz; [| | done].
      * apply Ascii.compare_eq_iff in Hyz as ->. by rewrite Hxy.
      * by rewrite (ascii_compare_lt_trans x y z).
Qed.

Lemma le_string_compare (a b : string) :
  le_string a b <-> String.compare a b <> Gt.
Proof.
  unfold le_string, less, String.ltb.
  rewrite (String.compare_antisym b a).
  by destruct (String.compare a b).
Qed.

Lemma le_string_trans (a b c : string) :
  le_string a b -> le_string b c -> le_string a c.
Proof. rewrite !le_string_compare. apply string_compare_trans. Qed.

Lemma StronglySorted_filter {A} (R : relation A) (P : A -> Prop)
    `{!forall x, Decision (P x)} (l : list A) :
  StronglySorted R l -> StronglySorted R (filter P l).
Proof.
  induction 1 as [|x l Hl IH Hx]; [constructor |].
  rewrite filter_cons. destruct (decide (P x)); [| done].
  constructor; [done |].
  rewrite Forall_forall in *. intros y [_ Hy]%list_elem_of_filter. auto.
Qed.

(** The live names of a role are the role's names among the live ones, in
    increasing order. *)
Lemma live_of_sorted (role : NodeRole) (liveNames : list string) :
  Sorted le_string (live_of role liveNames) /\
  Permutation (live_of role liveNames)
              (filter (fun node => classify node = Some role) liveNames).
Proof.
  unfold live_of. split.
  - apply StronglySorted_Sorted, StronglySorted_filter.
    apply Sorted.Sorted_StronglySorted; [| apply sort_Strings_sorted].
    exact le_string_trans.
  - by rewrite (sort_Strings_perm liveNames).
Qed.

End OrderFacts.

(** ** The heap of nodes *)

Section Heap.

Context {NodeFields ClusterFields : Type}.

Local Abbreviation State := (@State NodeFields ClusterFields).
Local Abbreviation kind_Node := (@kind_Node NodeFields).

Implicit Types (s : State) (d : kind_Node) (p : node_ptr).

Lemma nodes_allocated_refl s : nodes_allocated s s.
Proof. split; [by destruct s | done]. Qed.

Lemma nodes_allocated_trans s1 s2 s3 :
  nodes_allocated s1 s2 -> nodes_allocated s2 s3 -> nodes_allocated s1 s3.
Proof.
  intros [H12 Hsub12] [H23 Hsub23]. split; [| by etrans].
  rewrite H23, H12. reflexivity.
Qed.

Lemma nodes_allocated_dom s s' l :
  nodes_allocated s s' -> l ∉ dom (node_objs s') -> l ∉ dom (node_objs s).
Proof.
  intros [_ Hsub] Hl Hin. apply Hl.
  apply elem_of_dom in Hin as [d Hd]. apply elem_of_dom. exists d.
  by eapply lookup_weaken.
Qed.

Lemma deref_node_allocated s s' p d :
  nodes_allocated s s' -> deref_node s p = Some d -> deref_node s' p = Some d.
Proof.
  intros [Hs' Hsub]. destruct p as [cfg i | l]; simpl.
  - by rewrite Hs'.
  - destruct (node_objs s !! l) as [o|] eqn:Hl; [| done].
    by rewrite (lookup_weaken _ _ _ _ Hl Hsub).
Qed.

Lemma new_node_spec (n : kind_Node) (shares : option (loc * nat)) s :
  exists l s',
    new_node n shares s = (Val (ObjPtr l), s') /\
    (l ∉ dom (node_objs s)) /\
    node_objs s' !! l = Some (mk_node_obj n shares) /\
    nodes_allocated s s'.
Proof.
  unfold new_node. set (l := fresh (dom (node_objs s))).
  assert (l ∉ dom (node_objs s)) as Hl by apply is_fresh.
  exists l, (set_node_objs (<[l := mk_node_obj n shares]> (node_objs s)) s).
  split; [done |]. split; [done |]. split; [apply lookup_insert_eq |].
  split; [done |]. simpl. apply insert_subseteq. by apply not_elem_of_dom.
Qed.

Lemma DeepCopy_spec p d s :
  deref_node s p = Some d ->
  exists l s',
    DeepCopy p s = (Val (ObjPtr l), s') /\
    (l ∉ dom (node_objs s)) /\
    node_objs s' !! l = Some (mk_node_obj d None) /\
    nodes_allocated s s'.
Proof. intros Hp. unfold DeepCopy. rewrite Hp. apply new_node_spec. Qed.

(** A write to a configuration leaves a node that has maps and arrays of
    its own as it is. *)
Lemma mutate_own (m : mutation) s (l : loc) d :
  node_objs s !! l = Some (mk_node_obj d None) ->
  node_objs (mutate m s) !! l = Some (mk_node_obj d None).
Proof.
  intros Hl. destruct m as [cfg c' | cfg i g]; simpl; [done |].
  by rewrite lookup_fmap, Hl.
Qed.

Lemma mutations_own (ms : list mutation) :
  forall s (l : loc) d,
    node_objs s !! l = Some (mk_node_obj d None) ->
    node_objs (mutations ms s) !! l = Some (mk_node_obj d None).
Proof.
  induction ms as [|m ms IH]; intros s l d Hl; [done |].
  apply IH with (s := mutate m s). by apply mutate_own.
Qed.

(** A write through the maps and arrays of an element shows in a struct
    copy of the element. *)
Lemma mutate_shared (cfg : loc) (i : nat) (g : NodeFields -> NodeFields)
    s (l : loc) d :
  node_objs s !! l = Some (mk_node_obj d (Some (cfg, i))) ->
  deref_node (mutate (InPlace cfg i g) s) (ObjPtr l)
  = Some (write_fields g d).
Proof.
  intros Hl. simpl. rewrite lookup_fmap, Hl. simpl.
  unfold write_shared. simpl. by rewrite decide_True.
Qed.

End Heap.

(** ** Node resolution *)

Section Topology.

Context {NodeFields ClusterFields : Type}.

Local Abbreviation State := (@State NodeFields ClusterFields).
Local Abbreviation kind_Node := (@kind_Node NodeFields).

Implicit Types (s : State) (d : kind_Node) (p : node_ptr) (c : Cluster).

(** The second loop, when every declared role is of the enumeration: each
    role's slice grows by pointers to copies of the role's declarations, in
    declaration order. *)
Lemma GetNodes_configs_known (cfg0 : loc) (i : nat)
    (declared : list kind_Node) (m : gmap NodeRole (list node_ptr)) s :
  Forall (fun d => known_role (Role d)) declared ->
  exists m' s',
    GetNodes_configs cfg0 i declared m s = (Val (Ok m'), s') /\
    nodes_allocated s s' /\
    forall role, known_role role ->
      exists ps,
        at_role m' role = (at_role m role ++ ps)%list /\
        Forall2 (fun p d => deref_node s' p = Some d) ps
                (declared_of role declared).
Proof.
  revert i m s; induction declared as [|node rest IH]; intros i m s Hknown.
  - exists m, s. split; [done |]. split; [apply nodes_allocated_refl |].
    intros role _. exists []. by rewrite app_nil_r.
  - apply Forall_cons in Hknown as [Hnode Hrest].
    destruct (new_node_spec node (Some (cfg0, i)) s)
      as (l & s1 & Hnew & _ & Hl & Hs1).
    set (m1 := <[Role node := (at_role m (Role node) ++ [ObjPtr l])%list]> m).
    destruct (IH (S i) m1 s1 Hrest) as (m' & s' & Hrun & Hs' & Hm').
    assert (GetNodes_configs cfg0 i (node :: rest) m s = (Val (Ok m'), s'))
      as Hgo.
    { simpl. destruct Hnode as [Hr | Hr].
      - replace (String.eqb (Role node) ControlPlaneRole) with true
          by (by rewrite Hr).
        unfold bind. rewrite Hnew. exact Hrun.
      - replace (String.eqb (Role node) ControlPlaneRole) with false
          by (by rewrite Hr).
        replace (String.eqb (Role node) WorkerRole) with true
          by (by rewrite Hr).
        unfold bind. rewrite Hnew. exact Hrun. }
    exists m', s'. split; [done |].
    split; [by eapply nodes_allocated_trans |].
    intros role Hrole. destruct (Hm' role Hrole) as (ps & Hps & Hderef).
    unfold declared_of. rewrite filter_cons.
    destruct (decide (Role node = role)) as [Heq | Hne].
    + exists (ObjPtr l :: ps). split.
      * rewrite Hps. unfold m1, at_role at 1.
        rewrite Heq, lookup_insert_eq. simpl. by rewrite <- app_assoc.
      * constructor; [| done].
        eapply deref_node_allocated; [done |]. simpl. by rewrite Hl.
    + exists ps. split; [| done].
      rewrite Hps. unfold m1, at_role at 1.
      by rewrite lookup_insert_ne.
Qed.

(** The second loop, when some declared role is not of the enumeration. *)
Lemma GetNodes_configs_unknown (cfg0 : loc) (i : nat)
    (declared : list kind_Node) (m : gmap NodeRole (list node_ptr)) s :
  Exists (fun d => ~ known_role (Role d)) declared ->
  exists e s', GetNodes_configs cfg0 i declared m s = (Val (Err e), s').
Proof.
  revert i m s; induction declared as [|node rest IH]; intros i m s Hex;
    [by inversion Hex |].
  simpl.
  destruct (String.eqb (Role node) ControlPlaneRole) eqn:Hcp;
    [| destruct (String.eqb (Role node) WorkerRole) eqn:Hw].
  - destruct (new_node_spec node (Some (cfg0, i)) s) as (l & s1 & Hnew & _).
    unfold bind. rewrite Hnew. apply IH.
    inversion Hex as [?? Hbad | ]; [| done].
    apply String.eqb_eq in Hcp. destruct Hbad. by left.
  - destruct (new_node_spec node (Some (cfg0, i)) s) as (l & s1 & Hnew & _).
    unfold bind. rewrite Hnew. apply IH.
    inversion Hex as [?? Hbad | ]; [| done].
    apply String.eqb_eq in Hw. destruct Hbad. by right.
  - by eexists _, _.
Qed.

Lemma Forall2_and_l {A B} (P : A -> B -> Prop) (Q : A -> Prop)
    (l : list A) (k : list B) :
  Forall2 (fun x y => P x y /\ Q x) l k -> Forall Q l.
Proof. induction 1 as [|???? [??]]; by constructor. Qed.

(** The inner loop from index [k] on: one node per remaining index, each
    with the name and a new copy of the declaration at that index. *)
Lemma GetNodes_pair_spec c (names : list string) (configs : list node_ptr)
    (ds : list kind_Node) (n : nat) :
  forall (k : nat) (nodes : list Node) s,
    k + n = length names ->
    length configs = length names ->
    Forall2 (fun p d => deref_node s p = Some d) configs ds ->
    exists new s',
      GetNodes_pair c (seq k n) names configs nodes s
      = (Val (nodes ++ new)%list, s') /\
      nodes_allocated s s' /\
      Forall2 (fun node pr =>
                 resolves s' c node (fst pr) (snd pr) /\ private_copy s s' node)
              new (zip (drop k names) (drop k ds)) /\
      NoDup (Node_config <$> new).
Proof.
  induction n as [|n IH]; intros k nodes s Hk Hlen Hderef.
  - exists [], s. simpl. rewrite app_nil_r. split; [done |].
    split; [apply nodes_allocated_refl |].
    rewrite drop_ge by lia. split; constructor.
  - pose proof (Forall2_length _ _ _ Hderef) as Hlen'.
    destruct (lookup_lt_is_Some_2 names k) as [nm Hnm]; [lia |].
    destruct (lookup_lt_is_Some_2 configs k) as [p Hp]; [lia |].
    destruct (lookup_lt_is_Some_2 ds k) as [d Hd]; [lia |].
    assert (deref_node s p = Some d) as Hpd.
    { exact (Forall2_lookup_lr _ _ _ _ _ _ Hderef Hp Hd). }
    destruct (DeepCopy_spec p d s Hpd) as (l & s1 & Hcopy & Hfresh & Hl & Hs1).
    set (node := mk_Node nm (ObjPtr l) (Cluster_nvml c) (Cluster_stdout c)
                         (Cluster_stderr c)).
    destruct (IH (S k) (nodes ++ [node])%list s1) as (new & s' & Hrun & Hs' & Hnew & Hnodup);
      [lia | done | |].
    { eapply Forall2_impl; [exact Hderef |]. intros ???.
      by eapply deref_node_allocated. }
    exists (node :: new), s'. split.
    { simpl. rewrite Hnm, Hp. unfold bind. rewrite Hcopy.
      fold node. rewrite Hrun. by rewrite <- app_assoc. }
    split; [by eapply nodes_allocated_trans |].
    rewrite (drop_S names nm k Hnm), (drop_S ds d k Hd). simpl. split.
    + assert (node_objs s' !! l = Some (mk_node_obj d None)) as Hl'.
      { destruct Hs' as [_ Hsub]. by eapply lookup_weaken. }
      constructor.
      * split; [| by exists l, d].
        split; [done |]. split; [| done]. simpl. by rewrite Hl'.
      * eapply Forall2_impl; [exact Hnew |].
        intros node' pr [Hres (l' & d' & Hptr & Hfresh' & Hobj)].
        split; [done |].
        exists l', d'. split; [done |]. split; [| done].
        by eapply nodes_allocated_dom.
    + apply NoDup_cons. split; [| done].
      intros Hin. apply list_elem_of_fmap in Hin as (node' & Heq & Hin).
      apply Forall2_and_l in Hnew.
      rewrite Forall_forall in Hnew.
      destruct (Hnew node' Hin) as (l' & d' & Hl' & Hfresh' & _).
      simpl in Heq. rewrite Hl' in Heq. injection Heq as <-.
      apply Hfresh'. apply elem_of_dom. by eexists.
Qed.

(** The outer loop over the two roles. *)
Lemma GetNodes_roles_spec c (nodeNames : gmap NodeRole (list string))
    (nodeConfigs : gmap NodeRole (list node_ptr))
    (ds_cp ds_w : list kind_Node) s :
  Forall2 (fun p d => deref_node s p = Some d)
          (at_role nodeConfigs ControlPlaneRole) ds_cp ->
  Forall2 (fun p d => deref_node s p = Some d)
          (at_role nodeConfigs WorkerRole) ds_w ->
  let names_cp := at_role nodeNames ControlPlaneRole in
  let names_w := at_role nodeNames WorkerRole in
  let run := GetNodes_roles c [ControlPlaneRole; WorkerRole]
               nodeNames nodeConfigs [] s in
  (length names_cp <> length ds_cp ->
   run = (Val (Err (TopologyMismatch ControlPlaneRole)), s)) /\
  (length names_cp = length ds_cp -> length names_w <> length ds_w ->
   exists s', run = (Val (Err (TopologyMismatch WorkerRole)), s') /\
              nodes_allocated s s') /\
  (length names_cp = length ds_cp -> length names_w = length ds_w ->
   exists nodes s',
     run = (Val (Ok nodes), s') /\
     nodes_allocated s s' /\
     Forall2 (fun node pr =>
                resolves s' c node (fst pr) (snd pr) /\ private_copy s s' node)
             nodes (zip names_cp ds_cp ++ zip names_w ds_w)%list /\
     NoDup (Node_config <$> nodes)).
Proof.
  intros Hcp Hw names_cp names_w run.
  pose proof (Forall2_length _ _ _ Hcp) as Hlcp.
  pose proof (Forall2_length _ _ _ Hw) as Hlw.
  subst run. cbn [GetNodes_roles]. fold names_cp names_w.
  rewrite Hlcp, Hlw.
  split; [| split].
  - intros Hne. apply Nat.eqb_neq in Hne. by rewrite Hne.
  - intros Heq Hne. rewrite Heq, Nat.eqb_refl. cbn [negb].
    destruct (GetNodes_pair_spec c names_cp (at_role nodeConfigs ControlPlaneRole)
                ds_cp (length ds_cp) 0 [] s)
      as (new & s1 & Hrun & Hs1 & _); [lia | lia | done |].
    unfold bind. rewrite Hrun.
    apply Nat.eqb_neq in Hne. rewrite Hne. by exists s1.
  - intros Heq Heq'. rewrite Heq, Heq', !Nat.eqb_refl. cbn [negb].
    destruct (GetNodes_pair_spec c names_cp (at_role nodeConfigs ControlPlaneRole)
                ds_cp (length ds_cp) 0 [] s)
      as (new & s1 & Hrun & Hs1 & Hnew & Hnodup); [lia | lia | done |].
    unfold bind. rewrite Hrun.
    destruct (GetNodes_pair_spec c names_w (at_role nodeConfigs WorkerRole)
                ds_w (length ds_w) 0 ([] ++ new)%list s1)
      as (new' & s2 & Hrun' & Hs2 & Hnew' & Hnodup'); [lia | lia | |].
    { eapply Forall2_impl; [exact Hw |]. intros ???.
      by eapply deref_node_allocated. }
    rewrite Hrun'. exists (new ++ new')%list, s2.
    split; [done |]. split; [by eapply nodes_allocated_trans |].
    rewrite !drop_0 in *. split.
    + apply Forall2_app.
      * eapply Forall2_impl; [exact Hnew |].
        intros node pr [(? & Hd & ?) (l & d & ? & ? & Hobj)]. split.
        -- split; [done |]. split; [| done]. by eapply deref_node_allocated.
        -- exists l, d. split; [done |]. split; [done |].
           destruct Hs2 as [_ Hsub]. by eapply lookup_weaken.
      * eapply Forall2_impl; [exact Hnew' |].
        intros node pr [? (l & d & ? & ? & ?)]. split; [done |].
        exists l, d. split; [done |]. split; [| done].
        by eapply nodes_allocated_dom.
    + rewrite fmap_app. apply NoDup_app. split; [done |]. split; [| done].
      intros q Hq Hq'.
      apply list_elem_of_fmap in Hq as (node & -> & Hnode).
      apply list_elem_of_fmap in Hq' as (node' & Heq'' & Hnode').
      apply Forall2_and_l in Hnew'. rewrite Forall_forall in Hnew'.
      destruct (Hnew' node' Hnode') as (l' & d' & Hl' & Hfresh' & _).
      assert (Forall (fun node => exists l o, Node_config node = ObjPtr l /\
                                   node_objs s1 !! l = Some o) new) as Hold.
      { clear -Hnew.
        induction Hnew as [|node0 pr ?? [_ (l & d & Hl & _ & Hobj)]];
          constructor; [| done].
        by eexists l, _. }
      rewrite Forall_forall in Hold.
      destruct (Hold node Hnode) as (l & d & Hl & Hd).
      rewrite Hl, Hl' in Heq''. injection Heq'' as ->.
      apply Hfresh'. apply elem_of_dom. by exists d.
Qed.

(** [GetNodes] up to its last loop, when the query succeeds, every live
    name has a role and every declared role is of the enumeration. *)
Lemma GetNodes_reaches_roles c s (output : string) (cfg : kind_Cluster) :
  exec s (get_nodes_command (Cluster_Name c)) "" = (output, None) ->
  cluster_objs s !! Cluster_config c = Some cfg ->
  Forall (fun node => is_Some (classify node)) (Fields output) ->
  Forall (fun d => known_role (Role d)) (Nodes cfg) ->
  exists nodeNames nodeConfigs s1,
    GetNodes c s
    = GetNodes_roles c [ControlPlaneRole; WorkerRole] nodeNames nodeConfigs [] s1 /\
    nodes_allocated
      (add_event (EvExec (get_nodes_command (Cluster_Name c)) "" None) s) s1 /\
    (forall role, known_role role ->
       at_role nodeNames role = live_of role (Fields output)) /\
    (forall role, known_role role ->
       Forall2 (fun p d => deref_node s1 p = Some d)
               (at_role nodeConfigs role) (declared_of role (Nodes cfg))).
Proof.
  intros Hexec Hcfg Hlive Hdecl.
  apply Forall_sort_Strings in Hlive.
  destruct (GetNodes_names_classified _ ∅ Hlive) as (nodeNames & Hnames & HnodeNames).
  set (s0 := add_event (EvExec (get_nodes_command (Cluster_Name c)) "" None) s).
  destruct (GetNodes_configs_known (Cluster_config c) 0 (Nodes cfg) ∅ s0
              Hdecl)
    as (nodeConfigs & s1 & Hconfigs & Hs1 & HnodeConfigs).
  exists nodeNames, nodeConfigs, s1. split; [| split; [done | split]].
  - unfold GetNodes, bind, CombinedOutput.
    change ["kind"; "get"; "nodes"; "--name"; Cluster_Name c]
      with (get_nodes_command (Cluster_Name c)).
    rewrite Hexec. cbn [snd]. fold s0. rewrite Hnames.
    unfold load_cluster. replace (cluster_objs s0) with (cluster_objs s) by done.
    rewrite Hcfg, Hconfigs. done.
  - intros role Hrole. by rewrite (HnodeNames role Hrole).
  - intros role Hrole. destruct (HnodeConfigs role Hrole) as (ps & -> & Hps).
    done.
Qed.

End Topology.

(** ** Node resolution: the properties of the specification *)

Section Resolver.

Context {NodeFields ClusterFields : Type}.

Local Abbreviation State := (@State NodeFields ClusterFields).
Local Abbreviation kind_Node := (@kind_Node NodeFields).

Implicit Types (s : State) (d : kind_Node) (c : Cluster).

(** When the query for the live nodes fails, so does [GetNodes]. *)
Lemma GetNodes_command_fails c s (output : string) (e : error) :
  exec s (get_nodes_command (Cluster_Name c)) "" = (output, Some e) ->
  GetNodes c s
  = (Val (Err (Errorf_w "executing command" (Some e))),
     add_event (EvExec (get_nodes_command (Cluster_Name c)) "" (Some e)) s).
Proof.
  intros Hexec. unfold GetNodes, bind, CombinedOutput.
  change ["kind"; "get"; "nodes"; "--name"; Cluster_Name c]
    with (get_nodes_command (Cluster_Name c)).
  by rewrite Hexec.
Qed.

(** When a live name has no role, [GetNodes] fails on the first such name
    of the sorted list. *)
Lemma GetNodes_unclassified c s (output : string) :
  exec s (get_nodes_command (Cluster_Name c)) "" = (output, None) ->
  Exists (fun node => classify node = None) (Fields output) ->
  exists bad,
    bad ∈ Fields output /\ classify bad = None /\
    GetNodes c s
    = (Val (Err (UnknownNodeRole bad)),
       add_event (EvExec (get_nodes_command (Cluster_Name c)) "" None) s).
Proof.
  intros Hexec Hbad.
  assert (Exists (fun node => classify node = None)
                 (sort_Strings (Fields output))) as Hbad'.
  { apply Exists_exists in Hbad as (bad & Hin & Hnone).
    apply Exists_exists. exists bad. by rewrite elem_of_sort_Strings. }
  destruct (GetNodes_names_unclassified _ ∅ Hbad') as (bad & Hin & Hnone & Hrun).
  exists bad. rewrite elem_of_sort_Strings in Hin.
  split; [done |]. split; [done |].
  unfold GetNodes, bind, CombinedOutput.
  change ["kind"; "get"; "nodes"; "--name"; Cluster_Name c]
    with (get_nodes_command (Cluster_Name c)).
  by rewrite Hexec, Hrun.
Qed.

(** Every classified name is of exactly one of the two roles. *)
Lemma length_live_of (l : list string) :
  Forall (fun node => is_Some (classify node)) l ->
  length (live_of ControlPlaneRole l) + length (live_of WorkerRole l)
  = length l.
Proof.
  intros Hl. rewrite <- (length_sort_Strings l).
  apply Forall_sort_Strings in Hl. unfold live_of.
  induction Hl as [|node l' [r Hr] _ IH]; [done |].
  rewrite !filter_cons. pose proof (classify_known _ _ Hr) as [-> | ->].
  - rewrite decide_True by done.
    rewrite decide_False by (rewrite Hr; discriminate). simpl. lia.
  - rewrite decide_False by (rewrite Hr; discriminate).
    rewrite decide_True by done. simpl. lia.
Qed.

Lemma length_declared_of (declared : list kind_Node) :
  Forall (fun d => known_role (Role d)) declared ->
  length (declared_of ControlPlaneRole declared)
  + length (declared_of WorkerRole declared)
  = length declared.
Proof.
  unfold declared_of.
  induction 1 as [|d l' [Hr | Hr] _ IH]; [done | |]; rewrite !filter_cons.
  - rewrite decide_True by done.
    rewrite decide_False by (rewrite Hr; discriminate). simpl. lia.
  - rewrite decide_False by (rewrite Hr; discriminate).
    rewrite decide_True by done. simpl. lia.
Qed.

Lemma resolved_names c s (nodes : list Node)
    (prs : list (string * kind_Node)) :
  Forall2 (fun node pr => resolves s c node (fst pr) (snd pr)) nodes prs ->
  Node_Name <$> nodes = prs.*1.
Proof.
  induction 1 as [|node pr ?? [Hn _]]; [done |]. simpl. by f_equal.
Qed.

(** What [GetNodes] gives when the counts of both roles match. *)
Lemma GetNodes_resolved c s (output : string) (cfg : kind_Cluster) :
  exec s (get_nodes_command (Cluster_Name c)) "" = (output, None) ->
  cluster_objs s !! Cluster_config c = Some cfg ->
  Forall (fun node => is_Some (classify node)) (Fields output) ->
  Forall (fun d => known_role (Role d)) (Nodes cfg) ->
  (forall role, known_role role ->
     length (live_of role (Fields output))
     = length (declared_of role (Nodes cfg))) ->
  exists nodes s',
    GetNodes c s = (Val (Ok nodes), s') /\
    nodes_allocated
      (add_event (EvExec (get_nodes_command (Cluster_Name c)) "" None) s) s' /\
    Forall2 (fun node pr =>
               resolves s' c node (fst pr) (snd pr) /\ private_copy s s' node)
            nodes (pairing (Fields output) (Nodes cfg)) /\
    NoDup (Node_config <$> nodes).
Proof.
  intros Hexec Hcfg Hlive Hdecl Hcount.
  destruct (GetNodes_reaches_roles c s output cfg Hexec Hcfg Hlive Hdecl)
    as (nodeNames & nodeConfigs & s1 & -> & Hs1 & Hnames & Hconfigs).
  destruct (GetNodes_roles_spec c nodeNames nodeConfigs _ _ s1
              (Hconfigs ControlPlaneRole ltac:(by left))
              (Hconfigs WorkerRole ltac:(by right)))
    as (_ & _ & Hok).
  rewrite (Hnames ControlPlaneRole ltac:(by left)),
    (Hnames WorkerRole ltac:(by right)) in Hok.
  destruct Hok as (nodes & s' & Hrun & Hs' & Hres & Hnodup);
    [apply Hcount; by left | apply Hcount; by right |].
  exists nodes, s'. split; [done |].
  split; [by eapply nodes_allocated_trans |]. split; [| done].
  eapply Forall2_impl; [exact Hres |].
  intros node pr [? (l & d & ? & Hfresh & ?)]. split; [done |].
  exists l, d. split; [done |]. split; [| done].
  by apply (nodes_allocated_dom _ _ _ Hs1) in Hfresh.
Qed.

(** What [GetNodes] gives when the counts of a role differ: the error
    names the first such role in the order of the roles. *)
Lemma GetNodes_mismatch c s (output : string) (cfg : kind_Cluster) :
  exec s (get_nodes_command (Cluster_Name c)) "" = (output, None) ->
  cluster_objs s !! Cluster_config c = Some cfg ->
  Forall (fun node => is_Some (classify node)) (Fields output) ->
  Forall (fun d => known_role (Role d)) (Nodes cfg) ->
  (length (live_of ControlPlaneRole (Fields output))
   <> length (declared_of ControlPlaneRole (Nodes cfg)) ->
   fst (GetNodes c s) = Val (Err (TopologyMismatch ControlPlaneRole))) /\
  (length (live_of ControlPlaneRole (Fields output))
   = length (declared_of ControlPlaneRole (Nodes cfg)) ->
   length (live_of WorkerRole (Fields output))
   <> length (declared_of WorkerRole (Nodes cfg)) ->
   fst (GetNodes c s) = Val (Err (TopologyMismatch WorkerRole))).
Proof.
  intros Hexec Hcfg Hlive Hdecl.
  destruct (GetNodes_reaches_roles c s output cfg Hexec Hcfg Hlive Hdecl)
    as (nodeNames & nodeConfigs & s1 & -> & Hs1 & Hnames & Hconfigs).
  destruct (GetNodes_roles_spec c nodeNames nodeConfigs _ _ s1
              (Hconfigs ControlPlaneRole ltac:(by left))
              (Hconfigs WorkerRole ltac:(by right)))
    as (Hcp & Hw & _).
  rewrite (Hnames ControlPlaneRole ltac:(by left)) in Hcp, Hw.
  rewrite (Hnames WorkerRole ltac:(by right)) in Hw.
  split.
  - intros Hne. by rewrite (Hcp Hne).
  - intros Heq Hne. destruct (Hw Heq Hne) as (s' & -> & _). done.
Qed.

End Resolver.

Section ResolverClaims.

Context {NodeFields ClusterFields : Type}.

Local Abbreviation State := (@State NodeFields ClusterFields).
Local Abbreviation kind_Node := (@kind_Node NodeFields).

Implicit Types (s : State) (d : kind_Node) (c : Cluster).

(** C2, as the code has it.  The names of the scenario carry no role token:
    [w-1], [cp-1], [w-0] sort to [cp-1], [w-0], [w-1], and resolution then
    fails on [cp-1], whose digit-stripped form [cp-] ends in neither
    [control-plane] nor [worker].  With names that carry the tokens,
    [worker1], [control-plane1], [worker0], and the declarations
    control-plane, worker, worker, the names sort to [control-plane1],
    [worker0], [worker1]; [control-plane1] is paired with the control-plane
    declaration, [worker0] and [worker1] in that order with the two worker
    declarations in that order, and exactly three nodes are returned, the
    control-plane one first. *)
Theorem GetNodes_scenario c s (output : string) (cfg : kind_Cluster)
    (f_cp f_w0 f_w1 : NodeFields) :
  exec s (get_nodes_command (Cluster_Name c)) "" = (output, None) ->
  cluster_objs s !! Cluster_config c = Some cfg ->
  elems (Nodes cfg) = [ mk_kind_Node ControlPlaneRole f_cp;
                        mk_kind_Node WorkerRole f_w0;
                        mk_kind_Node WorkerRole f_w1 ] ->
  (Fields output = ["w-1"; "cp-1"; "w-0"] ->
   sort_Strings (Fields output) = ["cp-1"; "w-0"; "w-1"] /\
   fst (GetNodes c s) = Val (Err (UnknownNodeRole "cp-1"))) /\
  (Fields output = ["worker1"; "control-plane1"; "worker0"] ->
   sort_Strings (Fields output) = ["control-plane1"; "worker0"; "worker1"] /\
   exists n_cp n_w0 n_w1 s',
     GetNodes c s = (Val (Ok [n_cp; n_w0; n_w1]), s') /\
     resolves s' c n_cp "control-plane1" (mk_kind_Node ControlPlaneRole f_cp) /\
     resolves s' c n_w0 "worker0" (mk_kind_Node WorkerRole f_w0) /\
     resolves s' c n_w1 "worker1" (mk_kind_Node WorkerRole f_w1)).
Proof.
  intros Hexec Hcfg Hnodes. split; intros Hfields.
  - split; [by rewrite Hfields |].
    unfold GetNodes, bind, CombinedOutput.
    change ["kind"; "get"; "nodes"; "--name"; Cluster_Name c]
      with (get_nodes_command (Cluster_Name c)).
    rewrite Hexec, Hfields. reflexivity.
  - split; [by rewrite Hfields |].
    destruct (GetNodes_resolved c s output cfg Hexec Hcfg)
      as (nodes & s' & Hrun & _ & Hres & _).
    + rewrite Hfields. all_classified.
    + rewrite Hnodes. repeat constructor; by (left + right).
    + intros role [-> | ->]; by rewrite Hfields, Hnodes.
    + rewrite Hfields, Hnodes in Hres.
      change (pairing _ _)
        with [ ("control-plane1", mk_kind_Node ControlPlaneRole f_cp);
               ("worker0", mk_kind_Node WorkerRole f_w0);
               ("worker1", mk_kind_Node WorkerRole f_w1) ] in Hres.
      inversion Hres as [|n_cp ? ? ? [H1 _] Hres1]; subst.
      inversion Hres1 as [|n_w0 ? ? ? [H2 _] Hres2]; subst.
      inversion Hres2 as [|n_w1 ? ? ? [H3 _] Hres3]; subst.
      inversion Hres3; subst.
      by exists n_cp, n_w0, n_w1, s'.
Qed.

(** C4: every live name is classified by the token that ends it once its
    maximal trailing run of decimal digits is stripped; a name ending in
    neither token makes resolution fail with the unknown-node-role error;
    when every name is accepted, each is put in the group of exactly one
    role, its own. *)
Theorem GetNodes_role_inference c s (output : string) :
  exec s (get_nodes_command (Cluster_Name c)) "" = (output, None) ->
  (forall node,
     let trimmed := TrimRightFunc node IsDigit in
     (exists digits,
        node = trimmed +:+ digits /\
        Forall (fun b => IsDigit b = true) (bytes digits) /\
        (trimmed = "" \/
         exists t b, trimmed = t +:+ String b "" /\ IsDigit b = false)) /\
     (forall role,
        classify node = Some role <->
        known_role role /\ HasSuffix trimmed role = true) /\
     (classify node = None <->
      HasSuffix trimmed ControlPlaneRole = false /\
      HasSuffix trimmed WorkerRole = false) /\
     ~ (HasSuffix trimmed ControlPlaneRole = true /\
        HasSuffix trimmed WorkerRole = true)) /\
  (Exists (fun node => classify node = None) (Fields output) ->
   exists bad,
     bad ∈ Fields output /\ classify bad = None /\
     fst (GetNodes c s) = Val (Err (UnknownNodeRole bad))) /\
  (Forall (fun node => is_Some (classify node)) (Fields output) ->
   exists nodeNames,
     GetNodes_names (sort_Strings (Fields output)) ∅ = Ok nodeNames /\
     forall node role, known_role role ->
       (node ∈ at_role nodeNames role <->
        node ∈ Fields output /\ classify node = Some role)).
Proof.
  intros Hexec. split; [| split].
  - intros node trimmed. split; [apply TrimRightFunc_spec |].
    split; [apply classify_spec |]. split; [apply classify_None |].
    intros [H1 H2]. by eapply tokens_exclusive.
  - intros Hbad.
    destruct (GetNodes_unclassified c s output Hexec Hbad)
      as (bad & Hin & Hnone & ->).
    by exists bad.
  - intros Hall. apply Forall_sort_Strings in Hall.
    destruct (GetNodes_names_classified _ ∅ Hall) as (nodeNames & Hrun & Hgroups).
    exists nodeNames. split; [done |]. intros node role Hrole.
    rewrite (Hgroups role Hrole). unfold at_role. rewrite lookup_empty. simpl.
    rewrite list_elem_of_filter, elem_of_sort_Strings. tauto.
Qed.

(** C5: the roles are taken in the order control-plane, worker; the first
    whose live count differs from its declared count makes resolution fail
    with the topology-mismatch error naming it.  When both counts match,
    zero against zero included, resolution succeeds with one node per live
    name and per declaration, so a role with no node is absent from the
    output; a success always means that the counts of both roles match. *)
Theorem GetNodes_count_mismatch c s (output : string) (cfg : kind_Cluster) :
  exec s (get_nodes_command (Cluster_Name c)) "" = (output, None) ->
  cluster_objs s !! Cluster_config c = Some cfg ->
  Forall (fun node => is_Some (classify node)) (Fields output) ->
  Forall (fun d => known_role (Role d)) (Nodes cfg) ->
  let live := fun role => live_of role (Fields output) in
  let decl := fun role => declared_of role (Nodes cfg) in
  (length (live ControlPlaneRole) <> length (decl ControlPlaneRole) ->
   fst (GetNodes c s) = Val (Err (TopologyMismatch ControlPlaneRole))) /\
  (length (live ControlPlaneRole) = length (decl ControlPlaneRole) ->
   length (live WorkerRole) <> length (decl WorkerRole) ->
   fst (GetNodes c s) = Val (Err (TopologyMismatch WorkerRole))) /\
  (length (live ControlPlaneRole) = length (decl ControlPlaneRole) ->
   length (live WorkerRole) = length (decl WorkerRole) ->
   exists nodes,
     fst (GetNodes c s) = Val (Ok nodes) /\
     Node_Name <$> nodes = (live ControlPlaneRole ++ live WorkerRole)%list /\
     length nodes = length (Fields output) /\
     length nodes = length (Nodes cfg)) /\
  (forall nodes,
     fst (GetNodes c s) = Val (Ok nodes) ->
     forall role, known_role role -> length (live role) = length (decl role)).
Proof.
  intros Hexec Hcfg Hlive Hdecl live decl.
  destruct (GetNodes_mismatch c s output cfg Hexec Hcfg Hlive Hdecl)
    as [Hcp Hw].
  fold (live ControlPlaneRole) (decl ControlPlaneRole) in Hcp, Hw.
  fold (live WorkerRole) (decl WorkerRole) in Hw.
  split; [done |]. split; [done |]. split.
  - intros Heq_cp Heq_w.
    destruct (GetNodes_resolved c s output cfg Hexec Hcfg Hlive Hdecl)
      as (nodes & s' & Hrun & _ & Hres & _).
    { by intros role [-> | ->]. }
    exists nodes. split; [by rewrite Hrun |].
    apply (Forall2_impl _ (fun node pr => resolves s' c node (fst pr) (snd pr)))
      in Hres; [| by intros ?? [? _]].
    assert (Node_Name <$> nodes
            = (live ControlPlaneRole ++ live WorkerRole)%list) as Hnames.
    { rewrite (resolved_names _ _ _ _ Hres). unfold pairing.
      rewrite fmap_app, !fst_zip; [done | |].
      - fold (live WorkerRole) (decl WorkerRole). lia.
      - fold (live ControlPlaneRole) (decl ControlPlaneRole). lia. }
    split; [done |].
    assert (length nodes = length (Fields output)) as Hlen.
    { rewrite <- (length_fmap Node_Name), Hnames, length_app.
      by apply length_live_of. }
    split; [done |].
    rewrite Hlen, <- (length_live_of _ Hlive),
      <- (length_declared_of _ Hdecl).
    fold (live ControlPlaneRole) (decl ControlPlaneRole)
         (live WorkerRole) (decl WorkerRole). lia.
  - intros nodes Hok.
    destruct (decide (length (live ControlPlaneRole)
                      = length (decl ControlPlaneRole))) as [Heq_cp | Hne].
    + destruct (decide (length (live WorkerRole)
                        = length (decl WorkerRole))) as [Heq_w | Hne].
      * by intros role [-> | ->].
      * rewrite (Hw Heq_cp Hne) in Hok. discriminate.
    + rewrite (Hcp Hne) in Hok. discriminate.
Qed.

(** C6: when the counts of both roles match, the i-th sorted live name of
    each role is paired with the i-th declaration of the role in declaration
    order, the control-plane pairs come before the worker pairs, and each
    node carries a deep copy of its declaration allocated for it: it shares
    its address with no other node, is no element of the configuration and
    no node that existed before, and the maps and backing arrays of its
    fields are its own.  So whatever is later written to the configuration
    objects, by assignment or through the maps and arrays the declarations
    point at, the node still reads the same declaration.  The names of a
    role are the role's live names in increasing order. *)
Theorem GetNodes_pairs_private_copies c s (output : string)
    (cfg : kind_Cluster) :
  exec s (get_nodes_command (Cluster_Name c)) "" = (output, None) ->
  cluster_objs s !! Cluster_config c = Some cfg ->
  Forall (fun node => is_Some (classify node)) (Fields output) ->
  Forall (fun d => known_role (Role d)) (Nodes cfg) ->
  length (live_of ControlPlaneRole (Fields output))
  = length (declared_of ControlPlaneRole (Nodes cfg)) ->
  length (live_of WorkerRole (Fields output))
  = length (declared_of WorkerRole (Nodes cfg)) ->
  exists nodes s',
    GetNodes c s = (Val (Ok nodes), s') /\
    Forall2 (fun node pr => resolves s' c node (fst pr) (snd pr))
            nodes (pairing (Fields output) (Nodes cfg)) /\
    Forall (private_copy s s') nodes /\
    NoDup (Node_config <$> nodes) /\
    cluster_objs s' = cluster_objs s /\
    Forall2 (fun node pr =>
               forall h : gmap loc kind_Cluster,
                 deref_node (set_cluster_objs h s') (Node_config node)
                 = Some (snd pr))
            nodes (pairing (Fields output) (Nodes cfg)) /\
    Forall2 (fun node pr =>
               forall ms : list mutation,
                 deref_node (mutations ms s') (Node_config node)
                 = Some (snd pr))
            nodes (pairing (Fields output) (Nodes cfg)) /\
    forall role,
      Sorted le_string (live_of role (Fields output)) /\
      Permutation (live_of role (Fields output))
        (filter (fun node => classify node = Some role) (Fields output)).
Proof.
  intros Hexec Hcfg Hlive Hdecl Heq_cp Heq_w.
  destruct (GetNodes_resolved c s output cfg Hexec Hcfg Hlive Hdecl)
    as (nodes & s' & Hrun & [Hs' _] & Hres & Hnodup).
  { by intros role [-> | ->]. }
  exists nodes, s'. split; [done |]. split.
  { eapply Forall2_impl; [exact Hres |]. by intros ?? [? _]. }
  split.
  { clear -Hres. induction Hres as [|???? [_ ?]]; by constructor. }
  split; [done |]. split; [by rewrite Hs' |].
  split; [| split; [| intros role; apply live_of_sorted]].
  - eapply Forall2_impl; [exact Hres |].
    intros node pr [(_ & Hd & _) (l & d & Hl & _)] h.
    rewrite Hl in *. exact Hd.
  - eapply Forall2_impl; [exact Hres |].
    intros node pr [(_ & Hd & _) (l & d & Hl & _ & Hobj)] ms.
    rewrite Hl in *. simpl in *. rewrite Hobj in Hd.
    by rewrite (mutations_own ms s' l d Hobj).
Qed.

End ResolverClaims.

(** The scenario of C2 run as it is written: the query gives [w-1], [cp-1],
    [w-0], the declarations are control-plane, worker, worker; resolution
    fails on [cp-1] and returns no node. *)
Lemma GetNodes_scenario_fails :
  Fields "w-1 cp-1 w-0" = ["w-1"; "cp-1"; "w-0"] /\
  Role <$> example_declared = [ControlPlaneRole; WorkerRole; WorkerRole] /\
  fst (GetNodes example_cluster (example_topology "w-1 cp-1 w-0" example_declared))
  = Val (Err (UnknownNodeRole "cp-1")) /\
  ~ exists nodes,
      fst (GetNodes example_cluster
             (example_topology "w-1 cp-1 w-0" example_declared))
      = Val (Ok nodes) /\ length nodes = 3.
Proof.
  assert (fst (GetNodes example_cluster
                 (example_topology "w-1 cp-1 w-0" example_declared))
          = Val (Err (UnknownNodeRole "cp-1"))) as Hrun by (vm_compute; reflexivity).
  split; [reflexivity |]. split; [reflexivity |]. split; [exact Hrun |].
  intros (nodes & Hok & _). rewrite Hrun in Hok. discriminate.
Qed.

(** Witnesses: the resolver's theorems at a cluster with one control-plane
    node and two workers. *)
Lemma GetNodes_scenario_witness :
  sort_Strings (Fields "worker1 control-plane1 worker0")
  = ["control-plane1"; "worker0"; "worker1"] /\
  exists n_cp n_w0 n_w1 s',
    GetNodes example_cluster
      (example_topology "worker1 control-plane1 worker0" example_declared)
    = (Val (Ok [n_cp; n_w0; n_w1]), s') /\
    resolves s' example_cluster n_cp "control-plane1"
             (mk_kind_Node ControlPlaneRole "image-a") /\
    resolves s' example_cluster n_w0 "worker0"
             (mk_kind_Node WorkerRole "image-b") /\
    resolves s' example_cluster n_w1 "worker1"
             (mk_kind_Node WorkerRole "image-c").
Proof.
  apply (GetNodes_scenario example_cluster
           (example_topology "worker1 control-plane1 worker0" example_declared)
           "worker1 control-plane1 worker0"
           (mk_kind_Cluster "kind" (mk_slice example_declared) tt)
           "image-a" "image-b" "image-c");
    reflexivity.
Defined.

Lemma GetNodes_role_inference_witness :
  exists bad,
    bad ∈ Fields "kind-worker xyz-2 kind-control-plane" /\
    classify bad = None /\
    fst (GetNodes example_cluster
           (example_topology "kind-worker xyz-2 kind-control-plane"
                             example_declared))
    = Val (Err (UnknownNodeRole bad)).
Proof.
  destruct (GetNodes_role_inference example_cluster
              (example_topology "kind-worker xyz-2 kind-control-plane"
                                example_declared)
              "kind-worker xyz-2 kind-control-plane" eq_refl)
    as (_ & Hbad & _).
  apply Hbad. eval_Fields. apply Exists_cons_tl, Exists_cons_hd. reflexivity.
Defined.

Lemma GetNodes_count_mismatch_witness :
  fst (GetNodes example_cluster
         (example_topology "kind-worker kind-worker2"
            [mk_kind_Node WorkerRole "image-b"]))
  = Val (Err (TopologyMismatch WorkerRole)).
Proof.
  destruct (GetNodes_count_mismatch example_cluster
              (example_topology "kind-worker kind-worker2"
                 [mk_kind_Node WorkerRole "image-b"])
              "kind-worker kind-worker2"
              (mk_kind_Cluster "kind"
                 (mk_slice [mk_kind_Node WorkerRole "image-b"]) tt))
    as (_ & Hworker & _).
  - reflexivity.
  - reflexivity.
  - eval_Fields. all_classified.
  - repeat constructor; by right.
  - apply Hworker; [reflexivity |]. vm_compute. lia.
Defined.

Lemma GetNodes_pairs_private_copies_witness :
  exists nodes s',
    GetNodes example_cluster
      (example_topology "kind-worker2 kind-control-plane kind-worker"
                        example_declared)
    = (Val (Ok nodes), s') /\
    Node_Name <$> nodes = ["kind-control-plane"; "kind-worker"; "kind-worker2"] /\
    Forall (private_copy
              (example_topology "kind-worker2 kind-control-plane kind-worker"
                                example_declared) s') nodes /\
    NoDup (Node_config <$> nodes) /\
    Forall2 (fun node d =>
               deref_node
                 (mutations
                    [InPlace 1%positive 1 (fun _ => "image-z");
                     Assign 1%positive (mk_kind_Cluster "kind" nil_slice tt)]
                            s')
                 (Node_config node)
               = Some d)
            nodes example_declared.
Proof.
  destruct (GetNodes_pairs_private_copies example_cluster
              (example_topology "kind-worker2 kind-control-plane kind-worker"
                                example_declared)
              "kind-worker2 kind-control-plane kind-worker"
              (mk_kind_Cluster "kind" (mk_slice example_declared) tt))
    as (nodes & s' & Hrun & Hres & Hprivate & Hnodup & _ & _ & Hkept & _).
  - reflexivity.
  - reflexivity.
  - eval_Fields. all_classified.
  - repeat constructor; by (left + right).
  - reflexivity.
  - reflexivity.
  - exists nodes, s'. split; [exact Hrun |].
    split; [rewrite (resolved_names _ _ _ _ Hres); reflexivity |].
    split; [exact Hprivate |]. split; [exact Hnodup |].
    assert (pairing (Fields "kind-worker2 kind-control-plane kind-worker")
                    example_declared
            = [ ("kind-control-plane", mk_kind_Node ControlPlaneRole "image-a");
                ("kind-worker", mk_kind_Node WorkerRole "image-b");
                ("kind-worker2", mk_kind_Node WorkerRole "image-c") ])
      as Hpairs by (vm_compute; reflexivity).
    change (pairing _ _)
      with (pairing (Fields "kind-worker2 kind-control-plane kind-worker")
                    example_declared) in Hkept.
    rewrite Hpairs in Hkept.
    inversion Hkept as [|n1 ? ? ? H1 Hkept1]; subst.
    inversion Hkept1 as [|n2 ? ? ? H2 Hkept2]; subst.
    inversion Hkept2 as [|n3 ? ? ? H3 Hkept3]; subst.
    inversion Hkept3; subst.
    repeat constructor; [apply H1 | apply H2 | apply H3].
Defined.

(** The variables of the second loop are struct copies, not private ones:
    a write through the maps and arrays of the second declaration shows in
    the variable that was copied from it, which is what a node would point
    at without [DeepCopy]; the node that was resolved is a deep copy and
    reads what it read. *)
Example GetNodes_loop_variable_shared :
  let s' :=
    snd (GetNodes example_cluster
           (example_topology "kind-worker2 kind-control-plane kind-worker"
                             example_declared)) in
  let s'' := mutate (InPlace 1%positive 1 (fun _ => "image-z")) s' in
  deref_node s' (ObjPtr 2%positive) = Some (mk_kind_Node WorkerRole "image-b") /\
  deref_node s'' (ObjPtr 2%positive) = Some (mk_kind_Node WorkerRole "image-z") /\
  deref_node s' (ElemPtr 1%positive 1)
  = Some (mk_kind_Node WorkerRole "image-b") /\
  deref_node s'' (ElemPtr 1%positive 1)
  = Some (mk_kind_Node WorkerRole "image-z") /\
  exists nodes node,
    fst (GetNodes example_cluster
           (example_topology "kind-worker2 kind-control-plane kind-worker"
                             example_declared))
    = Val (Ok nodes) /\
    nodes !! 1 = Some node /\
    Node_config node <> ObjPtr 2%positive /\
    deref_node s' (Node_config node) = Some (mk_kind_Node WorkerRole "image-b") /\
    deref_node s'' (Node_config node) = Some (mk_kind_Node WorkerRole "image-b").
Proof.
  intros s' s''.
  split; [vm_compute; reflexivity |]. split; [vm_compute; reflexivity |].
  split; [vm_compute; reflexivity |]. split; [vm_compute; reflexivity |].
  eexists _, _. split; [vm_compute; reflexivity |].
  split; [reflexivity |]. split; [discriminate |].
  split; vm_compute; reflexivity.
Qed.

(** ** The configuration store *)

Section Store.

Context {NodeFields ClusterFields : Type}.

Local Abbreviation State := (@State NodeFields ClusterFields).

Implicit Types (s : State).

(** A read of the store depends on the state through the store only: the
    heap and the events are a frame. *)
Lemma getConfigBytes_frame (nm : string) s
    (h : gmap loc (@kind_Cluster NodeFields ClusterFields)) (ev : Event) :
  getConfigBytesFromExistingCluster nm (set_cluster_objs h (add_event ev s))
  = (fst (getConfigBytesFromExistingCluster nm s),
     set_cluster_objs h
       (add_event ev (snd (getConfigBytesFromExistingCluster nm s)))).
Proof.
  unfold getConfigBytesFromExistingCluster, bind, get, ret. cbn.
  destruct (ClientConfig s _); [done |].
  destruct (NewForConfig s _); [done |].
  unfold ConfigMaps_Get, bind, take_fault, get, ret. cbn.
  destruct (faults s) as [|[e|] fs]; cbn; [| done |];
    by destruct (default ∅ (configmaps s !! _) !! _).
Qed.

Lemma getConfigBytes_frame_event (nm : string) s (ev : Event) :
  getConfigBytesFromExistingCluster nm (add_event ev s)
  = (fst (getConfigBytesFromExistingCluster nm s),
     add_event ev (snd (getConfigBytesFromExistingCluster nm s))).
Proof.
  unfold getConfigBytesFromExistingCluster, bind, get, ret. cbn.
  destruct (ClientConfig s _); [done |].
  destruct (NewForConfig s _); [done |].
  unfold ConfigMaps_Get, bind, take_fault, get, ret. cbn.
  destruct (faults s) as [|[e|] fs]; cbn; [| done |];
    by destruct (default ∅ (configmaps s !! _) !! _).
Qed.

(** A read returns. *)
Lemma getConfigBytes_returns (nm : string) s :
  exists r, fst (getConfigBytesFromExistingCluster nm s) = Val r.
Proof.
  unfold getConfigBytesFromExistingCluster, bind, get, ret. cbn.
  destruct (ClientConfig s _); [by eexists |].
  destruct (NewForConfig s _); [by eexists |].
  unfold ConfigMaps_Get, bind, take_fault, get, ret. cbn.
  destruct (faults s) as [|[e|] fs]; cbn; [| by eexists |];
    destruct (default ∅ (configmaps s !! _) !! _); by eexists.
Qed.

(** A read of a record that has no [config] field gives the empty text. *)
Lemma getConfigBytes_no_field (nm : string) s
    (records : gmap string (gmap string string))
    (data : gmap string string) :
  ClientConfig s (context_of nm) = None ->
  NewForConfig s (context_of nm) = None ->
  (forall e, head (faults s) <> Some (Some e)) ->
  configmaps s !! context_of nm = Some records ->
  records !! nvkindClusterConfigName = Some data ->
  data !! "config" = None ->
  fst (getConfigBytesFromExistingCluster nm s) = Val (Ok "").
Proof.
  intros Hclient Hset Hfault Hrecords Hdata Hfield.
  unfold getConfigBytesFromExistingCluster, bind, get, ret.
  fold (context_of nm). rewrite Hclient, Hset.
  unfold ConfigMaps_Get, bind, take_fault, get, ret.
  destruct (faults s) as [|[e|] fs]; cbn.
  - by rewrite Hrecords; cbn; rewrite Hdata, Hfield.
  - by destruct (Hfault e).
  - by rewrite Hrecords; cbn; rewrite Hdata, Hfield.
Qed.

(** A read changes neither the records nor the heap, and adds no event. *)
Lemma getConfigBytes_preserves (nm : string) s :
  configmaps (snd (getConfigBytesFromExistingCluster nm s)) = configmaps s /\
  events (snd (getConfigBytesFromExistingCluster nm s)) = events s /\
  cluster_objs (snd (getConfigBytesFromExistingCluster nm s)) = cluster_objs s.
Proof.
  unfold getConfigBytesFromExistingCluster, bind, get, ret. cbn.
  destruct (ClientConfig s _); [done |].
  destruct (NewForConfig s _); [done |].
  unfold ConfigMaps_Get, bind, take_fault, get, ret. cbn.
  destruct (faults s) as [|[e|] fs]; cbn; [| done |];
    by destruct (default ∅ (configmaps s !! _) !! _).
Qed.

(** The query for the clusters. *)
Lemma GetClusterNames_ok s (output : string) :
  exec s get_clusters_command "" = (output, None) ->
  GetClusterNames s
  = (Val (Ok (list_to_set (Fields output))),
     add_event (EvExec get_clusters_command "" None) s).
Proof.
  intros Hexec. unfold GetClusterNames, bind, CombinedOutput.
  change ["kind"; "get"; "clusters"; "-q"] with get_clusters_command.
  by rewrite Hexec.
Qed.

End Store.

(** ** Reconciliation *)

Section Reconciler.

Context {NodeFields ClusterFields : Type}.
Context `{!EqDecision NodeFields, !EqDecision ClusterFields}.
Context `{!@Collaborators NodeFields ClusterFields}.

Local Abbreviation State := (@State NodeFields ClusterFields).
Local Abbreviation kind_Cluster := (@kind_Cluster NodeFields ClusterFields).

Implicit Types (s : State) (o : ClusterOptions) (c : kind_Cluster).

Lemma elem_of_existing (nm output : string) :
  bool_decide (nm ∈ (list_to_set (Fields output) : gset string))
  = bool_decide (nm ∈ Fields output).
Proof. apply bool_decide_ext. by rewrite elem_of_list_to_set. Qed.

Lemma existing_nonempty (nm output : string) :
  nm ∈ Fields output -> String.eqb nm "" = false.
Proof.
  intros Hin. apply String.eqb_neq. intros ->.
  by apply (Fields_nonempty output).
Qed.

(** A supplied configuration for an identity that does not exist is
    adopted, with the identity as its name. *)
Lemma setConfig_supplied_new o s (output : string) (cfg : Config) c :
  config o = Some cfg ->
  cluster_objs s !! Config_Cluster cfg = Some c ->
  exec s get_clusters_command "" = (output, None) ->
  name o <> "" ->
  name o ∉ Fields output ->
  setConfig o s
  = (Val (None, o), normalized (Config_Cluster cfg) (name o) c s).
Proof.
  intros Hcfg Hc Hexec Hname Hnew.
  unfold setConfig, bind. rewrite (GetClusterNames_ok s output Hexec).
  rewrite Hcfg. apply String.eqb_neq in Hname. rewrite Hname. cbn [negb].
  unfold set_Name, bind, load_cluster, store_cluster, modify. cbn.
  rewrite Hc. rewrite elem_of_existing, bool_decide_eq_false_2 by done.
  reflexivity.
Qed.

(** A supplied configuration without a name is adopted as it is. *)
Lemma setConfig_supplied_unnamed o s (output : string) (cfg : Config) :
  config o = Some cfg ->
  exec s get_clusters_command "" = (output, None) ->
  name o = "" ->
  setConfig o s = (Val (None, o), listed s).
Proof.
  intros Hcfg Hexec Hname.
  unfold setConfig, bind. rewrite (GetClusterNames_ok s output Hexec).
  rewrite Hcfg, Hname. cbn.
  rewrite elem_of_existing, bool_decide_eq_false_2; [done |].
  apply Fields_nonempty.
Qed.

(** A supplied configuration for an identity that exists is compared,
    once it has the identity as its name, with the stored document as
    decoded. *)
Lemma setConfig_supplied_existing o s (output : string) (cfg : Config) c :
  config o = Some cfg ->
  cluster_objs s !! Config_Cluster cfg = Some c ->
  exec s get_clusters_command "" = (output, None) ->
  name o ∈ Fields output ->
  setConfig o s
  = (match fst (getConfigBytesFromExistingCluster (name o) s) with
     | Val (Ok existingConfigBytes) =>
         match yaml_Unmarshal existingConfigBytes with
         | Ok existingConfig =>
             Val (if bool_decide (with_Name (name o) c = existingConfig)
                  then None else Some ConfigConflict, o)
         | Err e => Val (Some (Errorf_w "unmarshaling YAML" (Some e)), o)
         end
     | Val (Err e) => Val (Some (Errorf_w "getting config bytes" (Some e)), o)
     | Panic msg => Panic msg
     end,
     normalized (Config_Cluster cfg) (name o) c
       (snd (getConfigBytesFromExistingCluster (name o) s))).
Proof.
  intros Hcfg Hc Hexec Hin.
  pose proof (getConfigBytes_preserves (name o) s) as (_ & _ & Hheap).
  unfold setConfig, bind. rewrite (GetClusterNames_ok s output Hexec).
  rewrite Hcfg, (existing_nonempty _ _ Hin). cbn [negb].
  unfold set_Name, bind, load_cluster, store_cluster, modify.
  cbn -[getConfigBytesFromExistingCluster].
  rewrite Hc. rewrite elem_of_existing, bool_decide_eq_true_2 by done.
  cbn -[getConfigBytesFromExistingCluster].
  rewrite getConfigBytes_frame.
  unfold normalized, listed. rewrite Hheap.
  destruct (fst (getConfigBytesFromExistingCluster (name o) s))
    as [[existingConfigBytes | e] | msg]; [| done | done].
  destruct (yaml_Unmarshal existingConfigBytes) as [existingConfig | e];
    [| done].
  unfold DeepEqual, ret. cbn. rewrite lookup_insert_eq.
  destruct (decide (with_Name (name o) c = existingConfig)) as [Heq | Hne].
  - rewrite !bool_decide_eq_true_2 by congruence. done.
  - rewrite !bool_decide_eq_false_2 by congruence. done.
Qed.

(** [NewCluster] when [setConfig] fails. *)
Lemma NewCluster_setConfig_fails (opts : list ClusterOption) s
    (e : error) o' s1 :
  setConfig (options_of opts) s = (Val (Some e, o'), s1) ->
  NewCluster opts s = (Val (Err (Errorf_w "setting config" (Some e))), s1).
Proof.
  intros Hset. unfold NewCluster, bind.
  fold (options_of opts). by rewrite Hset.
Qed.

(** [NewCluster] when [setConfig] succeeds on a named request. *)
Lemma NewCluster_setConfig_ok (opts : list ClusterOption) s s1
    (cfg : Config) :
  setConfig (options_of opts) s = (Val (None, options_of opts), s1) ->
  config (options_of opts) = Some cfg ->
  name (options_of opts) <> "" ->
  exists h,
    NewCluster opts s = (Val (Ok h), s1) /\
    Cluster_Name h = name (options_of opts) /\
    Cluster_config h = Config_Cluster cfg /\
    Cluster_nvml h = Config_nvml cfg /\
    Cluster_stdout h = Config_stdout cfg /\
    Cluster_stderr h = Config_stderr cfg.
Proof.
  intros Hset Hcfg Hname. unfold NewCluster, bind.
  fold (options_of opts). rewrite Hset, Hcfg.
  apply String.eqb_neq in Hname. rewrite Hname.
  eexists. split; [reflexivity |]. done.
Qed.

(** [NewCluster] when [setConfig] succeeds on a request without a name: the
    handle takes the name of the configuration. *)
Lemma NewCluster_setConfig_unnamed (opts : list ClusterOption) s s1
    (cfg : Config) c :
  setConfig (options_of opts) s = (Val (None, options_of opts), s1) ->
  config (options_of opts) = Some cfg ->
  name (options_of opts) = "" ->
  cluster_objs s1 !! Config_Cluster cfg = Some c ->
  exists h,
    NewCluster opts s = (Val (Ok h), s1) /\
    Cluster_Name h = Name c /\
    Cluster_config h = Config_Cluster cfg.
Proof.
  intros Hset Hcfg Hname Hc. unfold NewCluster, bind.
  fold (options_of opts). rewrite Hset, Hcfg, Hname.
  unfold load_cluster. cbn. rewrite Hc.
  eexists. split; [reflexivity |]. done.
Qed.

(** No configuration is supplied for an identity that exists: the stored
    text is the template of the new configuration. *)
Lemma setConfig_stored o s (output : string) :
  config o = None ->
  exec s get_clusters_command "" = (output, None) ->
  name o ∈ Fields output ->
  exists o',
    fst (setConfig o s)
    = match fst (getConfigBytesFromExistingCluster (name o) s) with
      | Val (Ok existingConfigBytes) =>
          match NewConfig [WithConfigTemplate existingConfigBytes] with
          | Ok _ => Val (None, o')
          | Err e => Val (Some (Errorf_w "creating new config" (Some e)), o)
          end
      | Val (Err e) => Val (Some (Errorf_w "getting config bytes" (Some e)), o)
      | Panic msg => Panic msg
      end.
Proof.
  intros Hcfg Hexec Hin.
  unfold setConfig, bind. rewrite (GetClusterNames_ok s output Hexec).
  rewrite Hcfg. cbn -[getConfigBytesFromExistingCluster].
  rewrite elem_of_existing, bool_decide_eq_true_2 by done.
  cbn -[getConfigBytesFromExistingCluster].
  rewrite getConfigBytes_frame_event.
  destruct (fst (getConfigBytesFromExistingCluster (name o) s))
    as [[existingConfigBytes | e] | msg]; [| by exists o | by exists o].
  cbn. destruct (NewConfig _) as [r | e]; [| by exists o].
  by eexists.
Qed.

(** When the clusters cannot be listed, reconciliation fails. *)
Lemma setConfig_listing_fails o s (output : string) (e : error) :
  exec s get_clusters_command "" = (output, Some e) ->
  setConfig o s
  = (Val (Some (Errorf_w "getting list of existing clusters"
                         (Some (Errorf_w "executing command" (Some e)))), o),
     add_event (EvExec get_clusters_command "" (Some e)) s).
Proof.
  intros Hexec. unfold setConfig, bind, GetClusterNames, bind, CombinedOutput.
  change ["kind"; "get"; "clusters"; "-q"] with get_clusters_command.
  by rewrite Hexec.
Qed.

(** The invariant of the data model, kept by [NewCluster]: a handle built
    with a supplied configuration bears the name of its configuration, so
    the document [Create] records for a cluster bears the cluster's
    identity. *)
Lemma NewCluster_names_config (opts : list ClusterOption) s
    (cfg : Config) c (h : Cluster) s' :
  config (options_of opts) = Some cfg ->
  cluster_objs s !! Config_Cluster cfg = Some c ->
  NewCluster opts s = (Val (Ok h), s') ->
  exists c',
    cluster_objs s' !! Cluster_config h = Some c' /\
    Name c' = Cluster_Name h.
Proof.
  intros Hcfg Hc Hrun.
  destruct (exec s get_clusters_command "") as [output [e|]] eqn:Hexec.
  { pose proof (setConfig_listing_fails (options_of opts) s output e Hexec)
      as Hset.
    rewrite (NewCluster_setConfig_fails opts s _ _ _ Hset) in Hrun.
    discriminate. }
  destruct (decide (name (options_of opts) = "")) as [Hempty | Hnamed].
  { pose proof (setConfig_supplied_unnamed _ s output cfg Hcfg Hexec Hempty)
      as Hset.
    destruct (NewCluster_setConfig_unnamed opts s _ cfg c Hset Hcfg Hempty Hc)
      as (h' & Hrun' & Hname & Hp).
    rewrite Hrun' in Hrun. injection Hrun as <- <-.
    exists c. by rewrite Hp. }
  destruct (decide (name (options_of opts) ∈ Fields output)) as [Hin | Hnew].
  - pose proof (setConfig_supplied_existing _ s output cfg c Hcfg Hc Hexec Hin)
      as Hset.
    pose proof (getConfigBytes_preserves (name (options_of opts)) s)
      as (_ & _ & Hheap).
    destruct (fst (getConfigBytesFromExistingCluster
                     (name (options_of opts)) s))
      as [[bytes | e] | msg].
    + destruct (yaml_Unmarshal bytes) as [c2 | e].
      * destruct (bool_decide (with_Name (name (options_of opts)) c = c2)).
        -- destruct (NewCluster_setConfig_ok opts s _ cfg Hset Hcfg Hnamed)
             as (h' & Hrun' & Hname & Hp & _).
           rewrite Hrun' in Hrun. injection Hrun as <- <-.
           exists (with_Name (name (options_of opts)) c).
           split; [| done]. rewrite Hp.
           cbn -[getConfigBytesFromExistingCluster].
           apply lookup_insert_eq.
        -- rewrite (NewCluster_setConfig_fails opts s _ _ _ Hset) in Hrun.
           discriminate.
      * rewrite (NewCluster_setConfig_fails opts s _ _ _ Hset) in Hrun.
        discriminate.
    + rewrite (NewCluster_setConfig_fails opts s _ _ _ Hset) in Hrun.
      discriminate.
    + unfold NewCluster, bind in Hrun. fold (options_of opts) in Hrun.
      rewrite Hset in Hrun. discriminate.
  - pose proof (setConfig_supplied_new _ s output cfg c Hcfg Hc Hexec
                  Hnamed Hnew) as Hset.
    destruct (NewCluster_setConfig_ok opts s _ cfg Hset Hcfg Hnamed)
      as (h' & Hrun' & Hname & Hp & _).
    rewrite Hrun' in Hrun. injection Hrun as <- <-.
    exists (with_Name (name (options_of opts)) c).
    split; [| done]. rewrite Hp. cbn. apply lookup_insert_eq.
Qed.

End Reconciler.

(** ** Creation *)

Section Creation.

Context {NodeFields ClusterFields : Type}.
Context `{!@Collaborators NodeFields ClusterFields}.

Local Abbreviation State := (@State NodeFields ClusterFields).

Implicit Types (s : State) (c : Cluster).

(** One request to create the record: it is written, or the store is as it
    was. *)
Lemma ConfigMaps_Create_spec (context nm : string)
    (data : gmap string string) s :
  exists err s',
    ConfigMaps_Create context nm data s = (Val err, s') /\
    ((err = None /\
      configmaps s' = written context nm data s /\
      events s' = EvConfigMapCreate context nm data :: events s) \/
     (is_Some err /\
      configmaps s' = configmaps s /\ events s' = events s)).
Proof.
  unfold ConfigMaps_Create, bind, take_fault, get, ret, modify.
  destruct (faults s) as [|[e|] fs]; cbn.
  - destruct (default ∅ (configmaps s !! context) !! nm);
      eexists _, _; (split; [reflexivity |]); [right | left]; by eauto.
  - eexists _, _. split; [reflexivity |]. right. by eauto.
  - destruct (default ∅ (configmaps s !! context) !! nm);
      eexists _, _; (split; [reflexivity |]); [right | left]; by eauto.
Qed.

(** The bounded retry around the request: the record is written once and
    no error is returned, or the store is as it was and, unless no attempt
    was due, an error is returned. *)
Lemma OnError_Create_spec (context nm : string) (data : gmap string string)
    (retriable : error -> bool) (steps : nat) :
  forall (lastErr : option error) s,
    exists err s',
      OnError steps retriable (ConfigMaps_Create context nm data) lastErr s
      = (Val err, s') /\
      ((err = None /\ steps <> 0 /\
        configmaps s' = written context nm data s /\
        events s' = EvConfigMapCreate context nm data :: events s) \/
       (configmaps s' = configmaps s /\ events s' = events s /\
        (steps = 0 -> err = lastErr) /\
        (steps <> 0 \/ is_Some lastErr -> is_Some err))).
Proof.
  induction steps as [|steps IH]; intros lastErr s.
  - exists lastErr, s. split; [done |]. right.
    split; [done |]. split; [done |]. split; [done |]. by intros [? | ?].
  - cbn [OnError]. unfold bind.
    destruct (ConfigMaps_Create_spec context nm data s)
      as (err & s1 & -> & [(-> & Hw & Hev) | ([e ->] & Hc & Hev)]).
    + exists None, s1. split; [done |]. left. by eauto.
    + destruct (retriable e).
      * destruct (IH (Some e) s1)
          as (err & s' & -> & [(-> & Hsteps & Hw' & Hev') | (Hc' & Hev' & _ & Hsome)]).
        -- exists None, s'. split; [done |]. left.
           split; [done |]. split; [done |]. unfold written in *.
           by rewrite Hw', Hev', Hc, Hev.
        -- exists err, s'. split; [done |]. right.
           split; [congruence |]. split; [congruence |]. split; [done |].
           intros _. apply Hsome. by right.
      * exists (Some e), s1. split; [done |]. right.
        split; [done |]. split; [done |]. split; [done |]. by eauto.
Qed.

(** Writing the configuration: the record is written and [nil] returned,
    or the store is as it was and an error returned. *)
Lemma addConfigBytes_spec (nm configBytes : string) s :
  exists err s',
    addConfigBytesToExistingCluster nm configBytes s = (Val err, s') /\
    ((err = None /\
      configmaps s'
      = written (context_of nm) nvkindClusterConfigName
                (config_record configBytes) s /\
      events s'
      = EvConfigMapCreate (context_of nm) nvkindClusterConfigName
                          (config_record configBytes) :: events s) \/
     (is_Some err /\ configmaps s' = configmaps s /\ events s' = events s)).
Proof.
  unfold addConfigBytesToExistingCluster, bind, get, ret.
  fold (context_of nm).
  destruct (ClientConfig s (context_of nm)) as [e|].
  { eexists _, _. split; [reflexivity |]. right. by eauto. }
  destruct (NewForConfig s (context_of nm)) as [e|].
  { eexists _, _. split; [reflexivity |]. right. by eauto. }
  unfold RetryOnConflict.
  destruct (OnError_Create_spec (context_of nm) nvkindClusterConfigName
              (config_record configBytes) IsConflict DefaultRetry_Steps None s)
    as (err & s' & Hrun & Hcases).
  unfold config_record in Hrun. rewrite Hrun.
  destruct Hcases as [(-> & _ & Hw & Hev) | (Hc & Hev & _ & Hsome)].
  - exists None, s'. split; [done |]. by left.
  - destruct Hsome as [e ->]; [by left |].
    eexists _, s'. split; [reflexivity |]. right. by eauto.
Qed.

(** When the write fails for good, the error returned is built from the
    outer [err], which is [nil] at that point, and not from [retryErr]. *)
Lemma addConfigBytes_write_fails (nm configBytes : string) s
    (e : error) s' :
  ClientConfig s (context_of nm) = None ->
  NewForConfig s (context_of nm) = None ->
  RetryOnConflict DefaultRetry_Steps
    (ConfigMaps_Create (context_of nm) nvkindClusterConfigName
                       (config_record configBytes)) s
  = (Val (Some e), s') ->
  addConfigBytesToExistingCluster nm configBytes s
  = (Val (Some (Errorf_w "writing configmap" None)), s').
Proof.
  intros Hclient Hset Hretry.
  unfold addConfigBytesToExistingCluster, bind, get, ret.
  fold (context_of nm). rewrite Hclient, Hset.
  unfold config_record in Hretry. by rewrite Hretry.
Qed.

(** [Create], step by step. *)
Lemma Create_marshal_fails c (opts : list ClusterCreateOption) s (e : error) :
  yaml_Marshal (cluster_objs s !! Cluster_config c) = Err e ->
  Create c opts s = (Val (Some (Errorf_w "marshaling YAML" (Some e))), s).
Proof.
  intros Hm. unfold Create, bind, get, ret. by rewrite Hm.
Qed.

Lemma Create_command_fails c (opts : list ClusterCreateOption) s
    (configBytes : string) (e : error) :
  let command :=
    Create_command c
      (foldl (fun o opt => opt o) (mk_ClusterCreateOptions false 0) opts) in
  yaml_Marshal (cluster_objs s !! Cluster_config c) = Ok configBytes ->
  snd (exec s command configBytes) = Some e ->
  Create c opts s
  = (Val (Some (Errorf_w "executing command" (Some e))),
     add_event (EvExec command configBytes (Some e)) s).
Proof.
  intros command Hm Hexec.
  unfold Create, bind, get, ret, Run, CombinedOutput, bind, ret.
  fold command. rewrite Hm. cbn. by rewrite Hexec.
Qed.

Lemma Create_command_succeeds c (opts : list ClusterCreateOption) s
    (configBytes : string) :
  let command :=
    Create_command c
      (foldl (fun o opt => opt o) (mk_ClusterCreateOptions false 0) opts) in
  yaml_Marshal (cluster_objs s !! Cluster_config c) = Ok configBytes ->
  snd (exec s command configBytes) = None ->
  Create c opts s
  = (let r := addConfigBytesToExistingCluster (Cluster_Name c) configBytes
                (add_event (EvExec command configBytes None) s) in
     (match fst r with
      | Val (Some e) =>
          Val (Some (Errorf_w "adding config to cluster" (Some e)))
      | Val None => Val None
      | Panic msg => Panic msg
      end, snd r)).
Proof.
  intros command Hm Hexec.
  unfold Create, bind, get, ret, Run, CombinedOutput, bind, ret.
  fold command. rewrite Hm. cbn -[addConfigBytesToExistingCluster].
  rewrite Hexec.
  destruct (addConfigBytesToExistingCluster _ _ _) as [[[e|]|msg] s'];
    reflexivity.
Qed.

End Creation.

(** ** Reconciliation and creation: the properties of the specification *)

Section ReconcilerClaims.

Context {NodeFields ClusterFields : Type}.
Context `{!EqDecision NodeFields, !EqDecision ClusterFields}.
Context `{!@Collaborators NodeFields ClusterFields}.

Local Abbreviation State := (@State NodeFields ClusterFields).
Local Abbreviation kind_Cluster := (@kind_Cluster NodeFields ClusterFields).

Implicit Types (s : State) (c : kind_Cluster) (opts : list ClusterOption).


(** C7, as the code has it: for an identity that exists, with a stored
    configuration that decodes to [c2], a handle requested with a supplied
    configuration [c1] is built whenever [c1], once its name field is set to
    the identity, is deeply equal to [c2] as [reflect.DeepEqual] has it (a
    [nil] slice and an empty one differ).  The handle keeps the caller's
    configuration, which now bears the identity and is left untouched when
    it already did, and the store is left as it was.  Only the decoded
    document counts: the statement holds for every text [bytes] that
    decodes to [c2]. *)
Theorem NewCluster_equal_config opts s (identity output bytes : string)
    (cfg : Config) (c1 c2 : kind_Cluster) :
  name (options_of opts) = identity ->
  config (options_of opts) = Some cfg ->
  cluster_objs s !! Config_Cluster cfg = Some c1 ->
  exec s get_clusters_command "" = (output, None) ->
  identity ∈ Fields output ->
  fst (getConfigBytesFromExistingCluster identity s) = Val (Ok bytes) ->
  yaml_Unmarshal bytes = Ok c2 ->
  with_Name identity c1 = c2 ->
  exists h s',
    NewCluster opts s = (Val (Ok h), s') /\
    Cluster_Name h = identity /\
    Cluster_config h = Config_Cluster cfg /\
    cluster_objs s'
    = <[Config_Cluster cfg := with_Name identity c1]> (cluster_objs s) /\
    cluster_objs s' !! Cluster_config h = Some c2 /\
    (Name c1 = identity -> cluster_objs s' = cluster_objs s) /\
    configmaps s' = configmaps s /\
    events s' = EvExec get_clusters_command "" None :: events s.
Proof.
  intros Hname Hcfg Hc1 Hexec Hin Hread Hdecode Heq.
  subst identity c2.
  pose proof (setConfig_supplied_existing _ s output cfg c1 Hcfg Hc1 Hexec Hin)
    as Hset.
  rewrite Hread, Hdecode, bool_decide_eq_true_2 in Hset by done.
  pose proof (getConfigBytes_preserves (name (options_of opts)) s)
    as (Hmaps & Hevents & Hheap).
  destruct (NewCluster_setConfig_ok opts s _ cfg Hset Hcfg)
    as (h & Hrun & Hh & Hp & _).
  { intros Hempty. rewrite Hempty in Hin. by apply (Fields_nonempty output). }
  eexists h, _. split; [exact Hrun |]. split; [done |]. split; [done |].
  assert (cluster_objs
            (normalized (Config_Cluster cfg) (name (options_of opts)) c1
               (snd (getConfigBytesFromExistingCluster
                       (name (options_of opts)) s)))
          = <[Config_Cluster cfg := with_Name (name (options_of opts)) c1]>
              (cluster_objs s)) as Hobjs.
  { cbn -[getConfigBytesFromExistingCluster]. by rewrite Hheap. }
  split; [done |]. split; [by rewrite Hobjs, Hp, lookup_insert_eq |].
  split.
  - intros Hinv. rewrite Hobjs.
    assert (with_Name (name (options_of opts)) c1 = c1) as ->
      by (rewrite <- Hinv; by destruct c1).
    by apply insert_id.
  - cbn -[getConfigBytesFromExistingCluster]. by rewrite Hmaps, Hevents.
Qed.

(** C3: with a supplied configuration and a requested identity,
    reconciliation sets the name field of the configuration to the
    identity as soon as the clusters are listed, before it compares or
    stores anything, whatever happens next.  When no cluster has the
    identity, the handle is built, the configuration is adopted under that
    name whatever name it had, no request goes to the store, and what
    [Create] then records is the document under that name. *)
Theorem NewCluster_adopts_supplied opts s (identity output : string)
    (cfg : Config) c :
  name (options_of opts) = identity ->
  identity <> "" ->
  config (options_of opts) = Some cfg ->
  cluster_objs s !! Config_Cluster cfg = Some c ->
  exec s get_clusters_command "" = (output, None) ->
  (exists r s1,
     setConfig (options_of opts) s = (Val r, s1) /\
     cluster_objs s1
     = <[Config_Cluster cfg := with_Name identity c]> (cluster_objs s)) /\
  (identity ∉ Fields output ->
   exists h s',
     NewCluster opts s = (Val (Ok h), s') /\
     Cluster_Name h = identity /\
     Cluster_config h = Config_Cluster cfg /\
     cluster_objs s' !! Cluster_config h = Some (with_Name identity c) /\
     Name (with_Name identity c) = identity /\
     configmaps s' = configmaps s /\
     faults s' = faults s /\
     events s' = EvExec get_clusters_command "" None :: events s /\
     forall (copts : list ClusterCreateOption) (configBytes : string),
       yaml_Marshal (Some (with_Name identity c)) = Ok configBytes ->
       exists err s'',
         Create h copts s' = (Val err, s'') /\
         (err = None ->
          default ∅ (configmaps s'' !! context_of identity)
            !! nvkindClusterConfigName
          = Some (config_record configBytes))).
Proof.
  intros Hname Hnonempty Hcfg Hc Hexec. subst identity. split.
  - destruct (decide (name (options_of opts) ∈ Fields output)) as [Hin | Hnew].
    + pose proof (setConfig_supplied_existing _ s output cfg c Hcfg Hc Hexec Hin)
        as Hset.
      pose proof (getConfigBytes_preserves (name (options_of opts)) s)
        as (_ & _ & Hheap).
      destruct (getConfigBytes_returns (name (options_of opts)) s) as [r Hr].
      rewrite Hr in Hset.
      assert (exists r', setConfig (options_of opts) s
                = (Val r', normalized (Config_Cluster cfg)
                             (name (options_of opts)) c
                             (snd (getConfigBytesFromExistingCluster
                                     (name (options_of opts)) s))))
        as [r' Hr'].
      { rewrite Hset. destruct r as [bytes | e]; [| by eexists].
        destruct (yaml_Unmarshal bytes); by eexists. }
      eexists _, _. split; [exact Hr' |].
      cbn -[getConfigBytesFromExistingCluster]. by rewrite Hheap.
    + eexists _, _. split; [by eapply setConfig_supplied_new |]. done.
  - intros Hnew.
    pose proof (setConfig_supplied_new _ s output cfg c Hcfg Hc Hexec
                  Hnonempty Hnew) as Hset.
    destruct (NewCluster_setConfig_ok opts s _ cfg Hset Hcfg Hnonempty)
      as (h & Hrun & Hh & Hp & _).
    eexists h, _. split; [exact Hrun |]. split; [done |]. split; [done |].
    assert (cluster_objs (normalized (Config_Cluster cfg)
                            (name (options_of opts)) c s)
              !! Cluster_config h
            = Some (with_Name (name (options_of opts)) c)) as Hobj.
    { rewrite Hp. cbn. apply lookup_insert_eq. }
    split; [done |]. split; [done |]. split; [done |]. split; [done |].
    split; [done |].
    intros copts configBytes Hmarshal.
    set (s' := normalized (Config_Cluster cfg) (name (options_of opts)) c s)
      in *.
    rewrite <- Hobj in Hmarshal.
    set (command := Create_command h
           (foldl (fun o opt => opt o) (mk_ClusterCreateOptions false 0) copts)).
    destruct (snd (exec s' command configBytes)) as [e|] eqn:Hcmd.
    + eexists _, _. split; [by eapply Create_command_fails |]. done.
    + rewrite (Create_command_succeeds h copts s' configBytes Hmarshal Hcmd).
      fold command.
      destruct (addConfigBytes_spec (Cluster_Name h) configBytes
                  (add_event (EvExec command configBytes None) s'))
        as (err & s'' & Hadd & Hcases).
      rewrite Hadd. cbn [fst snd].
      destruct Hcases as [(-> & Hw & _) | ([e ->] & _)].
      * exists None, s''. split; [done |]. intros _.
        rewrite Hw, Hh. unfold written.
        rewrite lookup_insert_eq. cbn. apply lookup_insert_eq.
      * eexists _, s''. split; [reflexivity |]. done.
Qed.

End ReconcilerClaims.

Section CreationClaims.

Context {NodeFields ClusterFields : Type}.
Context `{!EqDecision NodeFields, !EqDecision ClusterFields}.
Context `{!@Collaborators NodeFields ClusterFields}.

Local Abbreviation State := (@State NodeFields ClusterFields).
Local Abbreviation kind_Cluster := (@kind_Cluster NodeFields ClusterFields).

Implicit Types (s : State) (c : Cluster) (copts : list ClusterCreateOption).

(** C8: [Create] writes the configuration only after the provisioning
    command has reported success.  When the command fails, [Create]
    returns its error and the store is untouched.  A run that returns
    [nil] has run the command with success and then written the record,
    in that order; a run that returns an error has written nothing: no
    configuration is recorded for a cluster that was not created. *)
Theorem Create_writes_after_provisioning c copts s :
  let command :=
    Create_command c
      (foldl (fun o opt => opt o) (mk_ClusterCreateOptions false 0) copts) in
  exists err s',
    Create c copts s = (Val err, s') /\
    (forall (configBytes : string) (e : error),
       yaml_Marshal (cluster_objs s !! Cluster_config c) = Ok configBytes ->
       snd (exec s command configBytes) = Some e ->
       err = Some (Errorf_w "executing command" (Some e)) /\
       configmaps s' = configmaps s /\
       events s' = EvExec command configBytes (Some e) :: events s) /\
    (err = None ->
     exists configBytes,
       yaml_Marshal (cluster_objs s !! Cluster_config c) = Ok configBytes /\
       snd (exec s command configBytes) = None /\
       configmaps s'
       = written (context_of (Cluster_Name c)) nvkindClusterConfigName
                 (config_record configBytes) s /\
       events s'
       = EvConfigMapCreate (context_of (Cluster_Name c))
           nvkindClusterConfigName (config_record configBytes)
         :: EvExec command configBytes None :: events s) /\
    (is_Some err ->
     configmaps s' = configmaps s /\
     forall context nm data,
       EvConfigMapCreate context nm data ∈ events s' ->
       EvConfigMapCreate context nm data ∈ events s).
Proof.
  intros command.
  destruct (yaml_Marshal (cluster_objs s !! Cluster_config c))
    as [configBytes | e] eqn:Hmarshal.
  2: { eexists _, s. split; [by apply Create_marshal_fails |].
       split; [done |]. split; [done |]. done. }
  destruct (snd (exec s command configBytes)) as [e|] eqn:Hcmd.
  - eexists _, _. split; [by eapply Create_command_fails |].
    split; [| split; [done |]].
    + intros bytes' e' [= <-] He'. rewrite Hcmd in He'. by injection He' as <-.
    + intros _. split; [done |]. intros context nm data Hin. cbn in Hin.
      apply elem_of_cons in Hin as [? | ?]; [done | done].
  - rewrite (Create_command_succeeds c copts s configBytes Hmarshal Hcmd).
    fold command.
    destruct (addConfigBytes_spec (Cluster_Name c) configBytes
                (add_event (EvExec command configBytes None) s))
      as (err & s' & Hadd & Hcases).
    rewrite Hadd. cbn [fst snd].
    destruct Hcases as [(-> & Hw & Hev) | ([e ->] & Hc & Hev)].
    + exists None, s'. split; [done |]. split; [| split].
      * intros bytes' e' [= <-] He'. congruence.
      * intros _. by exists configBytes.
      * by intros [? ?].
    + eexists _, s'. split; [reflexivity |]. split; [| split; [done |]].
      * intros bytes' e' [= <-] He'. congruence.
      * intros _. split; [done |]. intros context nm data Hin.
        rewrite Hev in Hin. cbn in Hin.
        apply elem_of_cons in Hin as [? | ?]; [done | done].
Qed.

(** C9, where the code departs from it.  When the write still fails once
    the retries are over, with whatever error [e], [Create] returns one
    and the same error: its text names the operations, but the operand of
    [%w] is the outer [err], [nil] at that point, where [retryErr] was
    meant; the chain of the error returned ends there, and [e] is not
    on it. *)
Theorem Create_write_failure_drops_cause c copts s (configBytes : string)
    (e : error) s' :
  let command :=
    Create_command c
      (foldl (fun o opt => opt o) (mk_ClusterCreateOptions false 0) copts) in
  let returned :=
    Errorf_w "adding config to cluster"
             (Some (Errorf_w "writing configmap" None)) in
  yaml_Marshal (cluster_objs s !! Cluster_config c) = Ok configBytes ->
  snd (exec s command configBytes) = None ->
  ClientConfig s (context_of (Cluster_Name c)) = None ->
  NewForConfig s (context_of (Cluster_Name c)) = None ->
  RetryOnConflict DefaultRetry_Steps
    (ConfigMaps_Create (context_of (Cluster_Name c)) nvkindClusterConfigName
                       (config_record configBytes))
    (add_event (EvExec command configBytes None) s)
  = (Val (Some e), s') ->
  Create c copts s = (Val (Some returned), s') /\
  chain returned = [returned; Errorf_w "writing configmap" None] /\
  Unwrap (Errorf_w "writing configmap" None) = None /\
  (e <> returned -> e <> Errorf_w "writing configmap" None ->
   ~ carries returned e).
Proof.
  intros command returned Hmarshal Hcmd Hclient Hset Hretry.
  split; [| split; [done | split; [done |]]].
  - rewrite (Create_command_succeeds c copts s configBytes Hmarshal Hcmd).
    fold command.
    by rewrite (addConfigBytes_write_fails (Cluster_Name c) configBytes
                  (add_event (EvExec command configBytes None) s) e s'
                  Hclient Hset Hretry).
  - intros Hne1 Hne2 Hin. unfold carries in Hin. cbn in Hin.
    apply elem_of_cons in Hin as [? | Hin]; [done |].
    apply elem_of_cons in Hin as [? | Hin]; [done |].
    by apply not_elem_of_nil in Hin.
Qed.

(** C10: when the record of an existing cluster is there without its
    [config] field, the read gives the empty text and no error, and
    reconciliation goes on with it: a supplied configuration is compared
    with what the empty text decodes to, and with none supplied the empty
    text is the template of the new configuration. *)
Theorem getConfigBytes_missing_field (o : ClusterOptions) s (output : string)
    (records : gmap string (gmap string string))
    (data : gmap string string) :
  exec s get_clusters_command "" = (output, None) ->
  name o ∈ Fields output ->
  ClientConfig s (context_of (name o)) = None ->
  NewForConfig s (context_of (name o)) = None ->
  (forall e, head (faults s) <> Some (Some e)) ->
  configmaps s !! context_of (name o) = Some records ->
  records !! nvkindClusterConfigName = Some data ->
  data !! "config" = None ->
  fst (getConfigBytesFromExistingCluster (name o) s) = Val (Ok "") /\
  match config o with
  | Some cfg =>
      forall c1 : kind_Cluster,
        cluster_objs s !! Config_Cluster cfg = Some c1 ->
        fst (setConfig o s)
        = Val (match yaml_Unmarshal "" with
               | Ok c0 =>
                   if bool_decide (with_Name (name o) c1 = c0)
                   then None else Some ConfigConflict
               | Err e => Some (Errorf_w "unmarshaling YAML" (Some e))
               end, o)
  | None =>
      exists o',
        fst (setConfig o s)
        = match NewConfig [WithConfigTemplate ""] with
          | Ok _ => Val (None, o')
          | Err e => Val (Some (Errorf_w "creating new config" (Some e)), o)
          end
  end.
Proof.
  intros Hexec Hin Hclient Hset Hfault Hrecords Hdata Hfield.
  pose proof (getConfigBytes_no_field (name o) s records data
                Hclient Hset Hfault Hrecords Hdata Hfield) as Hread.
  split; [done |].
  destruct (config o) as [cfg|] eqn:Hcfg.
  - intros c1 Hc1.
    rewrite (setConfig_supplied_existing o s output cfg c1 Hcfg Hc1 Hexec Hin).
    rewrite Hread. cbn [fst].
    by destruct (yaml_Unmarshal "").
  - destruct (setConfig_stored o s output Hcfg Hexec Hin) as [o' Ho'].
    rewrite Hread in Ho'. by exists o'.
Qed.

End CreationClaims.


(** The counterexample to C7 as it is worded: the cluster [kind] exists and
    its stored configuration decodes to [example_renamed]; the caller asks
    for [kind] with that very document; the request is refused as a
    conflict, for the name of the caller's document is set to the identity
    before the comparison and the stored one bears another name. *)
Lemma NewCluster_equal_config_refused :
  let s := example_world "kind" [] (example_record "other worker")
                         example_renamed in
  let opts := [option_name "kind"; option_config example_config] in
  "kind" ∈ Fields "kind" /\
  cluster_objs s !! Config_Cluster example_config = Some example_renamed /\
  fst (getConfigBytesFromExistingCluster "kind" s) = Val (Ok "other worker") /\
  example_Unmarshal "other worker" = Ok example_renamed /\
  fst (NewCluster (H := example_collaborators) opts s)
  = Val (Err (Errorf_w "setting config" (Some ConfigConflict))) /\
  ~ exists h, fst (NewCluster (H := example_collaborators) opts s)
              = Val (Ok h).
Proof.
  intros s opts.
  assert (fst (NewCluster (H := example_collaborators) opts s)
          = Val (Err (Errorf_w "setting config" (Some ConfigConflict))))
    as Hrun by (vm_compute; reflexivity).
  split; [eval_Fields; by left |]. split; [reflexivity |].
  split; [vm_compute; reflexivity |]. split; [vm_compute; reflexivity |].
  split; [exact Hrun |].
  intros [h Hh]. rewrite Hrun in Hh. discriminate Hh.
Qed.

(** [reflect.DeepEqual] tells a [nil] slice from an empty one: a document
    whose [Nodes] is empty and not [nil] is written without its nodes and
    read back with a [nil] slice, so that a request with that document for
    the cluster it was stored for is refused as a conflict. *)
Example NewCluster_empty_nodes_refused :
  let s := example_world "kind" [] (example_record "kind") example_empty in
  let opts := [option_name "kind"; option_config example_config] in
  example_Marshal (Some example_empty) = Ok "kind" /\
  example_Unmarshal "kind" = Ok (mk_kind_Cluster "kind" nil_slice tt) /\
  elems (Nodes example_empty) = [] /\
  fst (NewCluster (H := example_collaborators) opts s)
  = Val (Err (Errorf_w "setting config" (Some ConfigConflict))).
Proof. repeat split; vm_compute; reflexivity. Qed.

(** A request without a name is not compared at all: the handle takes the
    name of the supplied configuration, here that of a cluster that exists
    with another stored configuration. *)
Remark NewCluster_unnamed_skips_comparison :
  let s := example_world "kind" [] (example_record "kind worker")
                         example_larger in
  example_Unmarshal "kind worker" = Ok example_stored /\
  example_larger <> example_stored /\
  fst (NewCluster (H := example_collaborators)
         [option_config example_config] s)
  = Val (Ok (mk_Cluster "kind" 1%positive "/root/.kube/config" 0 1 2)).
Proof.
  intros s. split; [vm_compute; reflexivity |]. split; [discriminate |].
  vm_compute. reflexivity.
Qed.

(** The retry of the write: two conflicts and then a success write the
    record; five conflicts use the steps up. *)
Example Create_retries_conflicts :
  let s2 := example_world "" [Some example_conflict; Some example_conflict]
                          ∅ example_stored in
  let s5 := example_world "" (replicate 5 (Some example_conflict))
                          ∅ example_stored in
  fst (Create (H := example_collaborators) example_cluster [] s2) = Val None /\
  configmaps (snd (Create (H := example_collaborators) example_cluster [] s2))
    !! "kind-kind"
  = Some (example_record "kind worker") /\
  fst (Create (H := example_collaborators) example_cluster [] s5)
  = Val (Some (Errorf_w "adding config to cluster"
                        (Some (Errorf_w "writing configmap" None)))) /\
  configmaps (snd (Create (H := example_collaborators) example_cluster [] s5))
    !! "kind-kind"
  = Some ∅.
Proof.
  intros s2 s5. repeat split; vm_compute; reflexivity.
Qed.


(* The stored text is spaced otherwise than the codec writes it. *)
Lemma NewCluster_equal_config_witness :
  example_Marshal (Some example_stored) = Ok "kind worker" /\
  exists h s',
    NewCluster (H := example_collaborators)
      [option_name "kind"; option_config example_config]
      (example_world "kind" [] (example_record "  kind   worker ")
                     example_stored)
    = (Val (Ok h), s') /\
    Cluster_Name h = "kind" /\
    cluster_objs s' !! Cluster_config h = Some example_stored /\
    configmaps s'
    = configmaps (example_world "kind" [] (example_record "  kind   worker ")
                                example_stored).
Proof.
  split; [vm_compute; reflexivity |].
  destruct (@NewCluster_equal_config unit unit _ _ example_collaborators
              [option_name "kind"; option_config example_config]
              (example_world "kind" [] (example_record "  kind   worker ")
                             example_stored)
              "kind" "kind" "  kind   worker " example_config
              example_stored example_stored)
    as (h & s' & Hrun & Hname & _ & _ & Hobj & _ & Hmaps & _).
  - reflexivity.
  - reflexivity.
  - reflexivity.
  - reflexivity.
  - eval_Fields. by left.
  - vm_compute. reflexivity.
  - vm_compute. reflexivity.
  - reflexivity.
  - by exists h, s'.
Defined.

Lemma NewCluster_adopts_supplied_witness :
  exists h s',
    NewCluster (H := example_collaborators)
      [option_name "fresh"; option_config example_config]
      (example_world "kind" [] (example_record "kind worker") example_renamed)
    = (Val (Ok h), s') /\
    Cluster_Name h = "fresh" /\
    cluster_objs s' !! Cluster_config h
    = Some (with_Name "fresh" example_renamed).
Proof.
  destruct (@NewCluster_adopts_supplied unit unit _ _ example_collaborators
              [option_name "fresh"; option_config example_config]
              (example_world "kind" [] (example_record "kind worker")
                             example_renamed)
              "fresh" "kind" example_config example_renamed)
    as [_ Hnew].
  - reflexivity.
  - discriminate.
  - reflexivity.
  - reflexivity.
  - reflexivity.
  - destruct Hnew as (h & s' & Hrun & Hname & _ & Hobj & _).
    + eval_Fields. apply not_elem_of_cons. split; [discriminate |].
      apply not_elem_of_nil.
    + by exists h, s'.
Defined.

Lemma Create_writes_after_provisioning_witness :
  exists err s',
    Create (H := example_collaborators) example_cluster []
           (example_failing_world example_stored)
    = (Val err, s') /\
    err = Some (Errorf_w "executing command"
                         (Some (ExitError "exit status 1"))) /\
    configmaps s' = configmaps (example_failing_world example_stored).
Proof.
  destruct (@Create_writes_after_provisioning unit unit example_collaborators
              example_cluster [] (example_failing_world example_stored))
    as (err & s' & Hrun & Hfails & _).
  destruct (Hfails "kind worker" (ExitError "exit status 1"))
    as (Herr & Hmaps & _).
  - vm_compute. reflexivity.
  - reflexivity.
  - by exists err, s'.
Defined.

(* The API server refuses the write; the refusal is not on the chain of the
   error that [Create] returns. *)
Lemma Create_write_failure_drops_cause_witness :
  exists s',
    Create (H := example_collaborators) example_cluster []
           (example_world "" [Some example_forbidden] ∅ example_stored)
    = (Val (Some (Errorf_w "adding config to cluster"
                           (Some (Errorf_w "writing configmap" None)))), s') /\
    ~ carries (Errorf_w "adding config to cluster"
                        (Some (Errorf_w "writing configmap" None)))
              example_forbidden.
Proof.
  eexists.
  destruct (@Create_write_failure_drops_cause unit unit example_collaborators
              example_cluster []
              (example_world "" [Some example_forbidden] ∅ example_stored)
              "kind worker" example_forbidden
              (set_faults []
                 (add_event
                    (EvExec (Create_command (H := example_collaborators)
                               example_cluster
                               (mk_ClusterCreateOptions false 0))
                            "kind worker" None)
                    (example_world "" [Some example_forbidden] ∅
                                   example_stored))))
    as (Hrun & _ & _ & Hnot).
  - vm_compute. reflexivity.
  - reflexivity.
  - reflexivity.
  - reflexivity.
  - reflexivity.
  - split; [exact Hrun |]. apply Hnot; discriminate.
Defined.

Lemma getConfigBytes_missing_field_witness :
  fst (getConfigBytesFromExistingCluster "kind"
         (example_world "kind" [] {[ nvkindClusterConfigName := ∅ ]}
                        example_stored))
  = Val (Ok "").
Proof.
  destruct (@getConfigBytes_missing_field unit unit _ _ example_collaborators
              (mk_ClusterOptions "kind" None "")
              (example_world "kind" [] {[ nvkindClusterConfigName := ∅ ]}
                             example_stored)
              "kind" {[ nvkindClusterConfigName := ∅ ]} ∅)
    as [Hread _].
  - reflexivity.
  - eval_Fields. by left.
  - reflexivity.
  - reflexivity.
  - discriminate.
  - reflexivity.
  - reflexivity.
  - reflexivity.
  - exact Hread.
Defined.

(** * Further properties of the program *)

(** ** Role inference on the names [kind] gives *)

Section KindNames.

Lemma lastIndexFunc_all (d : string) (f : ascii -> bool) :
  Forall (fun b => f b = true) (bytes d) ->
  lastIndexFunc d f false = (-1)%Z.
Proof.
  induction d as [|b d IH]; [done |]. intros [Hb Hd]%Forall_cons.
  simpl. rewrite (IH Hd), Hb. done.
Qed.

Lemma lastIndexFunc_last (t : string) (b : ascii) (d : string)
    (f : ascii -> bool) :
  f b = false ->
  Forall (fun b => f b = true) (bytes d) ->
  lastIndexFunc (t +:+ String b d) f false = Z.of_nat (String.length t).
Proof.
  intros Hb Hd. induction t as [|x t IH].
  - rewrite append_nil_l. simpl. by rewrite (lastIndexFunc_all d f Hd), Hb.
  - rewrite append_cons. cbn [lastIndexFunc]. rewrite IH.
    destruct (0 <=? _)%Z eqn:Hle; [| apply Z.leb_gt in Hle; lia].
    simpl. lia.
Qed.

(** What ends in a byte that [f] refuses loses exactly the run of accepted
    bytes that follows. *)
Lemma TrimRightFunc_strip (t : string) (b : ascii) (d : string)
    (f : ascii -> bool) :
  f b = false ->
  Forall (fun b => f b = true) (bytes d) ->
  TrimRightFunc ((t +:+ String b "") +:+ d) f = t +:+ String b "".
Proof.
  intros Hb Hd. unfold TrimRightFunc.
  rewrite append_assoc, append_cons, append_nil_l.
  rewrite (lastIndexFunc_last t b d f Hb Hd).
  replace (Z.to_nat (Z.of_nat (String.length t) + 1))
    with (String.length (t +:+ String b "")).
  - rewrite <- (append_nil_l d) at 1. rewrite <- append_cons, <- append_assoc.
    apply substring_prefix.
  - rewrite length_append. simpl. lia.
Qed.

(** X1: a name made of any prefix, a role token and any run of decimal
    digits gets the role of the token; so do the names [kind] gives to the
    nodes of a cluster, whatever the cluster is called. *)
Theorem classify_token_digits (pre digits : string) (role : NodeRole) :
  known_role role ->
  Forall (fun b => IsDigit b = true) (bytes digits) ->
  classify (pre +:+ role +:+ digits) = Some role.
Proof.
  intros Hrole Hdigits. apply classify_spec. split; [done |].
  assert (TrimRightFunc (pre +:+ role +:+ digits) IsDigit = pre +:+ role)
    as ->.
  { rewrite <- append_assoc. destruct Hrole as [-> | ->].
    - change ControlPlaneRole with ("control-plan" +:+ String "e" "").
      rewrite <- (append_assoc pre). by apply TrimRightFunc_strip.
    - change WorkerRole with ("worke" +:+ String "r" "").
      rewrite <- (append_assoc pre). by apply TrimRightFunc_strip. }
  apply HasSuffix_spec. by exists pre.
Qed.

End KindNames.

Lemma classify_token_digits_witness :
  classify "my-cluster-worker12" = Some WorkerRole.
Proof.
  apply (classify_token_digits "my-cluster-" "12" WorkerRole).
  - by right.
  - repeat constructor.
Defined.

(** ** Node resolution: every run *)

Section ResolverRuns.

Context {NodeFields ClusterFields : Type}.

Local Abbreviation State := (@State NodeFields ClusterFields).
Local Abbreviation kind_Node := (@kind_Node NodeFields).

Implicit Types (s : State) (d : kind_Node) (c : Cluster).

(** The first element that fails a decidable property. *)
Lemma Exists_first {A} (P : A -> Prop) (dec : forall x, {P x} + {~ P x})
    (l : list A) :
  Exists (fun x => ~ P x) l ->
  exists pre bad post,
    l = (pre ++ bad :: post)%list /\ Forall P pre /\ ~ P bad.
Proof.
  induction l as [|x l IH]; intros Hex; [by inversion Hex |].
  destruct (dec x) as [Hx | Hx].
  - destruct IH as (pre & bad & post & -> & Hpre & Hbad).
    { by inversion Hex. }
    exists (x :: pre), bad, post. split; [done |]. split; [by constructor | done].
  - by exists [], x, l.
Qed.

Lemma known_role_dec (role : NodeRole) :
  {known_role role} + {~ known_role role}.
Proof.
  unfold known_role.
  destruct (decide (role = ControlPlaneRole)); [by left; left |].
  destruct (decide (role = WorkerRole)); [by left; right |].
  right. by intros [? | ?].
Defined.

Lemma classified_dec (node : string) :
  {is_Some (classify node)} + {~ is_Some (classify node)}.
Proof.
  destruct (classify node); [left; by eexists | right; by intros [? ?]].
Defined.

(** The second loop stops at the first declaration whose role is not of
    the enumeration. *)
Lemma GetNodes_configs_unknown_first (cfg0 : loc) (pre : list kind_Node)
    (bad : kind_Node) (post : list kind_Node) :
  Forall (fun d => known_role (Role d)) pre ->
  ~ known_role (Role bad) ->
  forall (i : nat) (m : gmap NodeRole (list node_ptr)) s,
    exists s',
      GetNodes_configs cfg0 i (pre ++ bad :: post) m s
      = (Val (Err (Errorf_v "unknown node role: " (Role bad))), s') /\
      nodes_allocated s s'.
Proof.
  intros Hpre Hbad. induction Hpre as [|d pre Hd _ IH]; intros i m s.
  - exists s. split; [| apply nodes_allocated_refl]. simpl.
    destruct (String.eqb (Role bad) ControlPlaneRole) eqn:Hcp.
    { apply String.eqb_eq in Hcp. destruct Hbad. by left. }
    destruct (String.eqb (Role bad) WorkerRole) eqn:Hw.
    { apply String.eqb_eq in Hw. destruct Hbad. by right. }
    done.
  - destruct (new_node_spec d (Some (cfg0, i)) s)
      as (l & s1 & Hnew & _ & _ & Hs1).
    destruct (IH (S i)
                (<[Role d := (at_role m (Role d) ++ [ObjPtr l])%list]> m) s1)
      as (s' & Hrun & Hs').
    exists s'. split; [| by eapply nodes_allocated_trans].
    change ((d :: pre) ++ bad :: post)%list with (d :: (pre ++ bad :: post))%list.
    cbn [GetNodes_configs]. destruct Hd as [Hr | Hr].
    + replace (String.eqb (Role d) ControlPlaneRole) with true
        by (by rewrite Hr).
      unfold bind. rewrite Hnew. exact Hrun.
    + replace (String.eqb (Role d) ControlPlaneRole) with false
        by (by rewrite Hr).
      replace (String.eqb (Role d) WorkerRole) with true by (by rewrite Hr).
      unfold bind. rewrite Hnew. exact Hrun.
Qed.

(** X2: when every live name has a role, a declaration whose role is
    neither [control-plane] nor [worker] (a declaration without a role
    among them) makes resolution fail with the unknown-node-role error
    naming the role of the first such declaration, whatever the counts. *)
Theorem GetNodes_unknown_declared_role c s (output : string)
    (cfg : kind_Cluster) (pre : list kind_Node) (bad : kind_Node)
    (post : list kind_Node) :
  exec s (get_nodes_command (Cluster_Name c)) "" = (output, None) ->
  cluster_objs s !! Cluster_config c = Some cfg ->
  Forall (fun node => is_Some (classify node)) (Fields output) ->
  elems (Nodes cfg) = (pre ++ bad :: post)%list ->
  Forall (fun d => known_role (Role d)) pre ->
  ~ known_role (Role bad) ->
  fst (GetNodes c s)
  = Val (Err (errorString ("unknown node role: " +:+ Role bad))).
Proof.
  intros Hexec Hcfg Hlive Hnodes Hpre Hbad.
  apply Forall_sort_Strings in Hlive.
  destruct (GetNodes_names_classified _ ∅ Hlive) as (nodeNames & Hnames & _).
  unfold GetNodes, bind, CombinedOutput.
  change ["kind"; "get"; "nodes"; "--name"; Cluster_Name c]
    with (get_nodes_command (Cluster_Name c)).
  rewrite Hexec. cbn [snd]. rewrite Hnames.
  unfold load_cluster.
  replace (cluster_objs (add_event _ s)) with (cluster_objs s) by done.
  rewrite Hcfg, Hnodes.
  destruct (GetNodes_configs_unknown_first (Cluster_config c) pre bad post
              Hpre Hbad 0 ∅
              (add_event (EvExec (get_nodes_command (Cluster_Name c)) "" None) s))
    as (s' & -> & _).
  done.
Qed.

(** X3: on a handle that has a configuration, [GetNodes] always returns:
    no index is ever out of range.  Whatever it returns, it has run one
    command, the query for the nodes, and nothing has changed but the heap
    of nodes, which has only grown: the store, the configuration objects
    and the nodes that existed are as they were. *)
Theorem GetNodes_returns c s (cfg : kind_Cluster) :
  cluster_objs s !! Cluster_config c = Some cfg ->
  exists r s',
    GetNodes c s = (Val r, s') /\
    nodes_allocated
      (add_event (EvExec (get_nodes_command (Cluster_Name c)) ""
                         (snd (exec s (get_nodes_command (Cluster_Name c)) "")))
                 s) s'.
Proof.
  intros Hcfg.
  destruct (exec s (get_nodes_command (Cluster_Name c)) "")
    as [output [e|]] eqn:Hexec; cbn [snd].
  { eexists _, _. split; [by eapply GetNodes_command_fails |].
    apply nodes_allocated_refl. }
  destruct (List.Forall_Exists_dec (fun node => is_Some (classify node))
              classified_dec (Fields output)) as [Hlive | Hbad].
  2: { destruct (GetNodes_unclassified c s output Hexec) as (bad & _ & _ & Hrun).
       { eapply Exists_impl; [exact Hbad |]. intros node Hnode. cbn in Hnode.
         destruct (classify node); [| done]. destruct Hnode. by eexists. }
       eexists _, _. split; [exact Hrun |]. apply nodes_allocated_refl. }
  destruct (List.Forall_Exists_dec (fun d : kind_Node => known_role (Role d))
              (fun d => known_role_dec (Role d)) (Nodes cfg))
    as [Hdecl | Hbad].
  2: { destruct (Exists_first _ (fun d : kind_Node => known_role_dec (Role d))
                   _ Hbad)
         as (pre & bad & post & Hnodes & Hpre & Hb).
       pose proof Hlive as Hlive'. apply Forall_sort_Strings in Hlive'.
       destruct (GetNodes_names_classified _ ∅ Hlive')
         as (nodeNames & Hnames & _).
       destruct (GetNodes_configs_unknown_first (Cluster_config c) pre bad
                   post Hpre Hb 0 ∅
                   (add_event
                      (EvExec (get_nodes_command (Cluster_Name c)) "" None) s))
         as (s' & Hrun & Hs').
       exists (Err (Errorf_v "unknown node role: " (Role bad))), s'.
       split; [| done].
       unfold GetNodes, bind, CombinedOutput.
       change ["kind"; "get"; "nodes"; "--name"; Cluster_Name c]
         with (get_nodes_command (Cluster_Name c)).
       rewrite Hexec. cbn [snd]. rewrite Hnames.
       unfold load_cluster.
       replace (cluster_objs (add_event _ s)) with (cluster_objs s) by done.
       by rewrite Hcfg, Hnodes, Hrun. }
  destruct (GetNodes_reaches_roles c s output cfg Hexec Hcfg Hlive Hdecl)
    as (nodeNames & nodeConfigs & s1 & -> & Hs1 & Hnames & Hconfigs).
  destruct (GetNodes_roles_spec c nodeNames nodeConfigs _ _ s1
              (Hconfigs ControlPlaneRole ltac:(by left))
              (Hconfigs WorkerRole ltac:(by right)))
    as (Hcp & Hw & Hok).
  destruct (decide (length (at_role nodeNames ControlPlaneRole)
                    = length (declared_of ControlPlaneRole (Nodes cfg))))
    as [Heq_cp | Hne].
  2: { eexists _, _. split; [by apply Hcp | done]. }
  destruct (decide (length (at_role nodeNames WorkerRole)
                    = length (declared_of WorkerRole (Nodes cfg))))
    as [Heq_w | Hne].
  - destruct (Hok Heq_cp Heq_w) as (nodes & s' & Hrun & Hs' & _).
    eexists _, _. split; [exact Hrun |]. by eapply nodes_allocated_trans.
  - destruct (Hw Heq_cp Hne) as (s' & Hrun & Hs').
    eexists _, _. split; [exact Hrun |]. by eapply nodes_allocated_trans.
Qed.

End ResolverRuns.

(** ** Node resolution: the order of the live names *)

Section SortUnique.

Lemma le_string_antisym (a b : string) :
  le_string a b -> le_string b a -> a = b.
Proof.
  rewrite !le_string_compare. intros Hab Hba.
  apply String.compare_eq_iff.
  rewrite (String.compare_antisym b a) in Hba.
  by destruct (String.compare a b).
Qed.

Lemma le_string_refl (a : string) : le_string a a.
Proof.
  apply le_string_compare.
  replace (String.compare a a) with Eq; [done |].
  symmetry. induction a as [|x a IH]; [done |]. simpl.
  replace (Ascii.compare x x) with Eq; [done |].
  symmetry. unfold Ascii.compare. apply N.compare_refl.
Qed.

(** Two sorted arrangements of the same names are the same list. *)
Lemma sorted_unique (l1 l2 : list string) :
  StronglySorted le_string l1 -> StronglySorted le_string l2 ->
  Permutation l1 l2 -> l1 = l2.
Proof.
  intros H1; revert l2; induction H1 as [|x l1 Hl1 IH Hx]; intros l2 H2 Hperm.
  - by apply Permutation_nil in Hperm.
  - destruct H2 as [|y l2 Hl2 Hy].
    { symmetry in Hperm. by apply Permutation_nil in Hperm. }
    assert (x = y) as <-.
    { apply le_string_antisym.
      - assert (y ∈ x :: l1) as [-> | Hin]%elem_of_cons
          by (rewrite Hperm; by left).
        + apply le_string_refl.
        + rewrite Forall_forall in Hx. by apply Hx.
      - assert (x ∈ y :: l2) as [-> | Hin]%elem_of_cons
          by (rewrite <- Hperm; by left).
        + apply le_string_refl.
        + rewrite Forall_forall in Hy. by apply Hy. }
    f_equal. apply IH; [done |]. by apply Permutation_cons_inv in Hperm.
Qed.

Lemma sort_Strings_Permutation (l1 l2 : list string) :
  Permutation l1 l2 -> sort_Strings l1 = sort_Strings l2.
Proof.
  intros Hperm. apply sorted_unique.
  - apply Sorted.Sorted_StronglySorted; [exact le_string_trans |].
    apply sort_Strings_sorted.
  - apply Sorted.Sorted_StronglySorted; [exact le_string_trans |].
    apply sort_Strings_sorted.
  - by rewrite !sort_Strings_perm.
Qed.

End SortUnique.

Section ExecFrame.

Context {NodeFields ClusterFields : Type}.

Local Abbreviation State := (@State NodeFields ClusterFields).
Local Abbreviation kind_Node := (@kind_Node NodeFields).

Implicit Types (s : State) (c : Cluster)
  (f : list string -> string -> string * option error).

(** The loops of [GetNodes] run no command: the answers of the outside
    world are a frame. *)
Lemma GetNodes_configs_exec f (cfg0 : loc) (declared : list kind_Node) :
  forall (i : nat) (m : gmap NodeRole (list node_ptr)) s,
    GetNodes_configs cfg0 i declared m (set_exec f s)
    = (fst (GetNodes_configs cfg0 i declared m s),
       set_exec f (snd (GetNodes_configs cfg0 i declared m s))).
Proof.
  induction declared as [|node rest IH]; intros i m s; [done |].
  cbn [GetNodes_configs].
  destruct (String.eqb (Role node) ControlPlaneRole);
    [| destruct (String.eqb (Role node) WorkerRole); [| done]];
    unfold bind, new_node; cbn -[GetNodes_configs fresh];
    rewrite <- IH; reflexivity.
Qed.

Lemma GetNodes_pair_exec f c (names : list string)
    (configs : list node_ptr) (indices : list nat) :
  forall (nodes : list Node) s,
    GetNodes_pair c indices names configs nodes (set_exec f s)
    = (fst (GetNodes_pair c indices names configs nodes s),
       set_exec f (snd (GetNodes_pair c indices names configs nodes s))).
Proof.
  induction indices as [|i rest IH]; intros nodes s; [done |].
  cbn [GetNodes_pair].
  destruct (names !! i) as [nm|]; [| done].
  destruct (configs !! i) as [p|]; [| done].
  unfold bind, DeepCopy.
  replace (deref_node (set_exec f s) p) with (deref_node s p)
    by (by destruct p).
  destruct (deref_node s p) as [d|].
  - unfold new_node. cbn -[GetNodes_pair fresh]. rewrite <- IH. reflexivity.
  - rewrite <- IH. reflexivity.
Qed.

Lemma GetNodes_roles_exec f c (nodeNames : gmap NodeRole (list string))
    (nodeConfigs : gmap NodeRole (list node_ptr)) (roles : list NodeRole) :
  forall (nodes : list Node) s,
    GetNodes_roles c roles nodeNames nodeConfigs nodes (set_exec f s)
    = (fst (GetNodes_roles c roles nodeNames nodeConfigs nodes s),
       set_exec f (snd (GetNodes_roles c roles nodeNames nodeConfigs nodes s))).
Proof.
  induction roles as [|role rest IH]; intros nodes s; [done |].
  cbn [GetNodes_roles].
  destruct (negb _); [done |].
  unfold bind. rewrite GetNodes_pair_exec.
  destruct (GetNodes_pair c _ _ _ nodes s) as [[nodes' | msg] s1]; [| done].
  cbn [fst snd]. apply IH.
Qed.

(** X4: the nodes [GetNodes] returns do not depend on the order in which
    the live names are reported: two outside worlds whose queries answer
    the same names in any order give the same result. *)
Theorem GetNodes_order_independent c s f (out1 out2 : string) :
  exec s (get_nodes_command (Cluster_Name c)) "" = (out1, None) ->
  f (get_nodes_command (Cluster_Name c)) "" = (out2, None) ->
  Permutation (Fields out1) (Fields out2) ->
  fst (GetNodes c (set_exec f s)) = fst (GetNodes c s).
Proof.
  intros H1 H2 Hperm.
  unfold GetNodes, bind, CombinedOutput.
  change ["kind"; "get"; "nodes"; "--name"; Cluster_Name c]
    with (get_nodes_command (Cluster_Name c)).
  replace (exec (set_exec f s)) with f by done.
  rewrite H1, H2. cbn [snd].
  rewrite (sort_Strings_Permutation _ _ Hperm).
  destruct (GetNodes_names _ ∅) as [nodeNames | e]; [| done].
  set (ev := EvExec (get_nodes_command (Cluster_Name c)) "" None).
  change (add_event ev (set_exec f s)) with (set_exec f (add_event ev s)).
  generalize (add_event ev s). intros s0.
  unfold load_cluster.
  replace (cluster_objs (set_exec f s0)) with (cluster_objs s0) by done.
  destruct (cluster_objs s0 !! Cluster_config c) as [cfg|]; [| done].
  rewrite GetNodes_configs_exec.
  destruct (GetNodes_configs (Cluster_config c) 0 (Nodes cfg) ∅ s0)
    as [[[nodeConfigs | e] | msg] s1];
    [| done | done].
  cbn [fst snd]. by rewrite GetNodes_roles_exec.
Qed.

End ExecFrame.

(** ** Reconciliation: every run *)

Section ReconcilerRuns.

Context {NodeFields ClusterFields : Type}.
Context `{!EqDecision NodeFields, !EqDecision ClusterFields}.
Context `{!@Collaborators NodeFields ClusterFields}.

Local Abbreviation State := (@State NodeFields ClusterFields).
Local Abbreviation kind_Cluster := (@kind_Cluster NodeFields ClusterFields).

Implicit Types (s : State) (o : ClusterOptions) (c : kind_Cluster)
  (opts : list ClusterOption).

(** An error carries itself, and what it wraps carries. *)
Lemma carries_self (e : error) : carries e e.
Proof. unfold carries. destruct e; apply elem_of_cons; by left. Qed.

Lemma carries_wrap (ctx : string) (e cause : error) :
  carries e cause -> carries (Errorf_w ctx (Some e)) cause.
Proof. intros Hc. unfold carries. cbn. apply elem_of_cons. by right. Qed.

(** A read sends at most one request and changes nothing else. *)
Lemma getConfigBytes_state (nm : string) s :
  exists fs,
    snd (getConfigBytesFromExistingCluster nm s) = set_faults fs s /\
    (fs = faults s \/ fs = tail (faults s)).
Proof.
  unfold getConfigBytesFromExistingCluster, bind, get, ret. cbn.
  destruct (ClientConfig s _); [exists (faults s); split; [by destruct s | by left] |].
  destruct (NewForConfig s _); [exists (faults s); split; [by destruct s | by left] |].
  unfold ConfigMaps_Get, bind, take_fault, get, ret. cbn.
  destruct (faults s) as [|[e|] fs] eqn:Hf; cbn.
  - exists []. split; [| by left].
    destruct (default ∅ (configmaps s !! _) !! _); cbn;
      destruct s; cbn in *; by subst.
  - exists fs. split; [done | by right].
  - exists fs. split; [| by right].
    by destruct (default ∅ (configmaps s !! _) !! _).
Qed.

Lemma reads_only_read (nm : string) s0 s :
  exec s0 = exec s -> HomeDir s0 = HomeDir s ->
  configmaps s0 = configmaps s -> node_objs s0 = node_objs s ->
  events s0
  = EvExec get_clusters_command "" (snd (exec s get_clusters_command ""))
    :: events s ->
  faults s0 = faults s ->
  forall h,
    reads_only s
      (set_cluster_objs h (snd (getConfigBytesFromExistingCluster nm s0))) /\
    reads_only s (snd (getConfigBytesFromExistingCluster nm s0)).
Proof.
  intros Hexec Hhome Hmaps Hnodes Hevents Hfaults h.
  destruct (getConfigBytes_state nm s0) as (fs & -> & Hfs).
  unfold reads_only, requests_made. cbn.
  rewrite Hexec, Hhome, Hmaps, Hnodes, Hevents.
  assert (length (faults s) - length fs <= 1).
  { destruct Hfs as [-> | ->]; rewrite Hfaults; [lia |].
    destruct (faults s); simpl; lia. }
  done.
Qed.

Lemma setConfig_reads_only o s r s' :
  setConfig o s = (r, s') -> reads_only s s'.
Proof.
  unfold setConfig, bind, GetClusterNames, bind, CombinedOutput.
  change ["kind"; "get"; "clusters"; "-q"] with get_clusters_command.
  destruct (exec s get_clusters_command "") as [output [e|]] eqn:Hexec;
    cbn [snd].
  { intros [= <- <-]. unfold reads_only, requests_made. cbn.
    rewrite Hexec. repeat split; (done || lia). }
  set (s0 := add_event (EvExec get_clusters_command "" None) s).
  unfold ret at 1. cbv beta iota.
  match goal with
  | |- (let (_, _) := ?rename s0 in _) = _ -> _ =>
      destruct (rename s0) as [[[] | msg] s1] eqn:Hrename
  end.
  all: assert (exists h, s1 = set_cluster_objs h s0) as [h ->] by
    (unfold ret in Hrename; destruct (config o) as [cfg|];
     [ destruct (negb (String.eqb (name o) ""));
       [ unfold set_Name, bind, load_cluster, store_cluster, modify in Hrename;
         destruct (cluster_objs s0 !! Config_Cluster cfg);
         simplify_eq; first [by eexists | destruct s; by eexists]
       | simplify_eq; destruct s; by eexists ]
     | simplify_eq; destruct s; by eexists ]).
  2: { intros [= <- <-]. unfold reads_only, requests_made. cbn.
       rewrite Hexec. repeat split; (done || lia). }
  clear Hrename.
  assert (forall h', reads_only s (set_cluster_objs h' s0)) as Hs1.
  { intros h'. unfold reads_only, requests_made. cbn.
    rewrite Hexec. repeat split; (done || lia). }
  pose proof (reads_only_read (name o) (set_cluster_objs h s0) s
                eq_refl eq_refl eq_refl eq_refl
                ltac:(by rewrite Hexec) eq_refl) as Hread.
  destruct (bool_decide (name o ∈ _)); cbn [negb andb].
  - destruct (getConfigBytesFromExistingCluster (name o) _)
      as [[[bytes | e] | msg] s2]; cbn [snd] in Hread.
    + destruct (config o) as [cfg|].
      * destruct (yaml_Unmarshal bytes) as [c2 | e].
        -- unfold DeepEqual. destruct (negb _); intros [= <- <-];
             exact (proj2 (Hread ∅)).
        -- intros [= <- <-]. exact (proj2 (Hread ∅)).
      * unfold ret. destruct (NewConfig _) as [r0 | e].
        -- unfold new_cluster. intros [= <- <-]. apply (proj1 (Hread _)).
        -- intros [= <- <-]. exact (proj2 (Hread ∅)).
    + intros [= <- <-]. exact (proj2 (Hread ∅)).
    + intros [= <- <-]. exact (proj2 (Hread ∅)).
  - destruct (is_nil (config o)); cbn [negb].
    + unfold ret. destruct (NewConfig _) as [r0 | e].
      * unfold new_cluster. intros [= <- <-]. apply Hs1.
      * intros [= <- <-]. apply Hs1.
    + intros [= <- <-]. apply Hs1.
Qed.

Lemma NewCluster_frame opts s (r : res (result Cluster)) s' :
  NewCluster opts s = (r, s') -> reads_only s s'.
Proof.
  unfold NewCluster, bind. fold (options_of opts).
  destruct (setConfig (options_of opts) s) as [[[err o] | msg] s1] eqn:Hset.
  2: { intros [= <- <-]. by eapply setConfig_reads_only. }
  pose proof (setConfig_reads_only _ _ _ _ Hset) as Hs1.
  destruct err as [e|]; [by intros [= <- <-] |].
  destruct (config o) as [cfg|]; [| by intros [= <- <-]].
  destruct (String.eqb (name o) "").
  - unfold load_cluster.
    destruct (cluster_objs s1 !! Config_Cluster cfg); by intros [= <- <-].
  - by intros [= <- <-].
Qed.

(** X5: whatever [NewCluster] returns, handle, error or panic, it has run
    one command, the query for the clusters, has sent at most one request
    to the store, and has written nothing to it; the nodes of the heap are
    as they were. *)
Theorem NewCluster_reads_only opts s :
  reads_only s (snd (NewCluster opts s)) /\
  configmaps (snd (NewCluster opts s)) = configmaps s /\
  (forall context nm data,
     EvConfigMapCreate context nm data ∈ events (snd (NewCluster opts s)) ->
     EvConfigMapCreate context nm data ∈ events s).
Proof.
  destruct (NewCluster opts s) as [r s'] eqn:Hrun. cbn [snd].
  pose proof (NewCluster_frame opts s r s' Hrun) as Hframe.
  split; [done |]. destruct Hframe as (_ & _ & Hmaps & _ & Hevents & _).
  split; [done |]. intros context nm data. rewrite Hevents.
  by intros [? | ?]%elem_of_cons.
Qed.

(** X6: a request that supplies a configuration and no name is never
    compared with anything: once the clusters are listed the handle is
    built under the name of the configuration, whether a cluster of that
    name exists or not; the configuration is not changed and no request
    goes to the store. *)
Theorem NewCluster_unnamed opts s (output : string) (cfg : Config) c :
  name (options_of opts) = "" ->
  config (options_of opts) = Some cfg ->
  cluster_objs s !! Config_Cluster cfg = Some c ->
  exec s get_clusters_command "" = (output, None) ->
  exists h,
    NewCluster opts s = (Val (Ok h), listed s) /\
    Cluster_Name h = Name c /\
    Cluster_config h = Config_Cluster cfg /\
    cluster_objs (listed s) = cluster_objs s /\
    faults (listed s) = faults s.
Proof.
  intros Hname Hcfg Hc Hexec.
  pose proof (setConfig_supplied_unnamed _ s output cfg Hcfg Hexec Hname)
    as Hset.
  destruct (NewCluster_setConfig_unnamed opts s _ cfg c Hset Hcfg Hname Hc)
    as (h & Hrun & Hh & Hp).
  by exists h.
Qed.

(** X7: a supplied configuration whose document pointer is [nil] makes
    [NewCluster] panic once the clusters are listed, named or not. *)
Theorem NewCluster_nil_document opts s (output : string) (cfg : Config) :
  config (options_of opts) = Some cfg ->
  cluster_objs s !! Config_Cluster cfg = None ->
  exec s get_clusters_command "" = (output, None) ->
  NewCluster opts s = (Panic nil_dereference, listed s).
Proof.
  intros Hcfg Hc Hexec.
  destruct (decide (name (options_of opts) = "")) as [Hname | Hname].
  - pose proof (setConfig_supplied_unnamed _ s output cfg Hcfg Hexec Hname)
      as Hset.
    unfold NewCluster, bind. fold (options_of opts).
    rewrite Hset, Hcfg, Hname. unfold load_cluster. cbn. by rewrite Hc.
  - unfold NewCluster, bind. fold (options_of opts).
    unfold setConfig, bind. rewrite (GetClusterNames_ok s output Hexec).
    rewrite Hcfg. apply String.eqb_neq in Hname. rewrite Hname. cbn [negb].
    unfold set_Name, bind, load_cluster. cbn. by rewrite Hc.
Qed.

(** [setConfig] without a supplied configuration, for an identity that
    does not exist. *)
Lemma setConfig_default o s (output : string) :
  config o = None ->
  exec s get_clusters_command "" = (output, None) ->
  name o ∉ Fields output ->
  setConfig o s
  = match NewConfig [] with
    | Ok r =>
        (Val (None,
              mk_ClusterOptions (name o)
                (Some (mk_Config (fresh (dom (cluster_objs s)))
                                 (new_nvml r) (new_stdout r) (new_stderr r)))
                (kubeconfig o)),
         set_cluster_objs
           (<[fresh (dom (cluster_objs s)) := new_Cluster r]> (cluster_objs s))
           (listed s))
    | Err e =>
        (Val (Some (Errorf_w "creating new config" (Some e)), o), listed s)
    end.
Proof.
  intros Hcfg Hexec Hnew.
  unfold setConfig, bind. rewrite (GetClusterNames_ok s output Hexec).
  rewrite Hcfg. cbn -[fresh].
  rewrite elem_of_existing, bool_decide_eq_false_2 by done. cbn -[fresh].
  by destruct (NewConfig []).
Qed.

(** X8: with no configuration supplied and no cluster of the requested
    name, [NewCluster] asks [NewConfig] for its default configuration;
    when that fails the error carries the failure; otherwise the handle
    holds that document at a new address, as [NewConfig] gave it: its name
    field is not set to the requested name, which only the handle bears. *)
Theorem NewCluster_default_config opts s (output : string) :
  config (options_of opts) = None ->
  exec s get_clusters_command "" = (output, None) ->
  name (options_of opts) ∉ Fields output ->
  match NewConfig [] with
  | Err e =>
      NewCluster opts s
      = (Val (Err (Errorf_w "setting config"
                     (Some (Errorf_w "creating new config" (Some e))))),
         listed s)
  | Ok r =>
      exists h s',
        NewCluster opts s = (Val (Ok h), s') /\
        Cluster_Name h
        = (if String.eqb (name (options_of opts)) ""
           then Name (new_Cluster r) else name (options_of opts)) /\
        (Cluster_config h ∉ dom (cluster_objs s)) /\
        cluster_objs s'
        = <[Cluster_config h := new_Cluster r]> (cluster_objs s) /\
        cluster_objs s' !! Cluster_config h = Some (new_Cluster r) /\
        faults s' = faults s
  end.
Proof.
  intros Hcfg Hexec Hnew.
  pose proof (setConfig_default _ s output Hcfg Hexec Hnew) as Hset.
  destruct (NewConfig []) as [r | e].
  - unfold NewCluster, bind. fold (options_of opts). rewrite Hset.
    cbn -[fresh].
    destruct (String.eqb (name (options_of opts)) "").
    + unfold load_cluster. cbn -[fresh]. rewrite lookup_insert_eq.
      eexists _, _. split; [reflexivity |]. cbn -[fresh].
      split; [done |]. split; [apply is_fresh |]. split; [done |].
      split; [apply lookup_insert_eq | done].
    + eexists _, _. split; [reflexivity |]. cbn -[fresh].
      split; [done |]. split; [apply is_fresh |]. split; [done |].
      split; [apply lookup_insert_eq | done].
  - by eapply NewCluster_setConfig_fails.
Qed.

(** X9: with no configuration supplied for an identity that exists, the
    stored text becomes the template of the handle's configuration: the
    handle bears the identity and holds, at a new address, the document
    [NewConfig] makes of the text; the store is left as it was.  When
    [NewConfig] refuses the text, the error carries its failure. *)
Theorem NewCluster_adopts_stored opts s (output bytes : string) :
  config (options_of opts) = None ->
  exec s get_clusters_command "" = (output, None) ->
  name (options_of opts) ∈ Fields output ->
  fst (getConfigBytesFromExistingCluster (name (options_of opts)) s)
  = Val (Ok bytes) ->
  match NewConfig [WithConfigTemplate bytes] with
  | Err e =>
      fst (NewCluster opts s)
      = Val (Err (Errorf_w "setting config"
                    (Some (Errorf_w "creating new config" (Some e)))))
  | Ok r =>
      exists h s',
        NewCluster opts s = (Val (Ok h), s') /\
        Cluster_Name h = name (options_of opts) /\
        (Cluster_config h ∉ dom (cluster_objs s)) /\
        cluster_objs s' !! Cluster_config h = Some (new_Cluster r) /\
        configmaps s' = configmaps s
  end.
Proof.
  intros Hcfg Hexec Hin Hread.
  assert (name (options_of opts) <> "") as Hname.
  { intros Hempty. rewrite Hempty in Hin. by apply (Fields_nonempty output). }
  apply String.eqb_neq in Hname.
  pose proof (getConfigBytes_preserves (name (options_of opts)) s)
    as (Hmaps & _ & Hheap).
  unfold NewCluster, bind. fold (options_of opts).
  unfold setConfig, bind. rewrite (GetClusterNames_ok s output Hexec).
  rewrite Hcfg. cbn -[getConfigBytesFromExistingCluster fresh].
  rewrite elem_of_existing, bool_decide_eq_true_2 by done.
  cbn -[getConfigBytesFromExistingCluster fresh].
  rewrite getConfigBytes_frame_event, Hread.
  cbn -[getConfigBytesFromExistingCluster fresh].
  destruct (NewConfig [WithConfigTemplate bytes]) as [r | e]; [| done].
  cbn -[getConfigBytesFromExistingCluster fresh]. rewrite Hname.
  eexists _, _. split; [reflexivity |].
  cbn -[getConfigBytesFromExistingCluster fresh].
  split; [done |]. rewrite Hheap. split; [apply is_fresh |].
  split; [apply lookup_insert_eq | done].
Qed.

(** X10: for an identity that exists while the store has no record for it,
    [NewCluster] fails, with or without a supplied configuration, and the
    error carries the not-found status of the API server. *)
Theorem NewCluster_store_miss opts s (output : string) :
  exec s get_clusters_command "" = (output, None) ->
  name (options_of opts) ∈ Fields output ->
  (forall cfg, config (options_of opts) = Some cfg ->
               is_Some (cluster_objs s !! Config_Cluster cfg)) ->
  ClientConfig s (context_of (name (options_of opts))) = None ->
  NewForConfig s (context_of (name (options_of opts))) = None ->
  (forall e, head (faults s) <> Some (Some e)) ->
  default ∅ (configmaps s !! context_of (name (options_of opts)))
    !! nvkindClusterConfigName = None ->
  let status :=
    StatusError "NotFound"
      ("configmaps " +:+ nvkindClusterConfigName +:+ " not found") in
  let returned :=
    Errorf_w "setting config"
      (Some (Errorf_w "getting config bytes"
               (Some (Errorf_w "getting configmap" (Some status))))) in
  fst (NewCluster opts s) = Val (Err returned) /\
  carries returned status /\
  configmaps (snd (NewCluster opts s)) = configmaps s.
Proof.
  intros Hexec Hin Hptr Hclient Hset Hfault Hmiss status returned.
  assert (fst (getConfigBytesFromExistingCluster (name (options_of opts)) s)
          = Val (Err (Errorf_w "getting configmap" (Some status)))) as Hread.
  { unfold getConfigBytesFromExistingCluster, bind, get, ret.
    fold (context_of (name (options_of opts))). rewrite Hclient, Hset.
    unfold ConfigMaps_Get, bind, take_fault, get, ret.
    destruct (faults s) as [|[e|] fs]; cbn.
    - by rewrite Hmiss.
    - by destruct (Hfault e).
    - by rewrite Hmiss. }
  split; [| split].
  3: { destruct (NewCluster opts s) as [r s'] eqn:Hrun.
       by destruct (NewCluster_frame opts s r s' Hrun) as (_ & _ & ? & _). }
  - destruct (config (options_of opts)) as [cfg|] eqn:Hcfg.
    + destruct (Hptr cfg eq_refl) as [c Hc].
      pose proof (setConfig_supplied_existing _ s output cfg c Hcfg Hc
                    Hexec Hin) as Hrun.
      rewrite Hread in Hrun.
      by rewrite (NewCluster_setConfig_fails opts s _ _ _ Hrun).
    + destruct (setConfig_stored _ s output Hcfg Hexec Hin) as [o' Ho'].
      rewrite Hread in Ho'.
      unfold NewCluster, bind. fold (options_of opts).
      destruct (setConfig (options_of opts) s) as [r1 s1].
      cbn [fst] in Ho'. by rewrite Ho'.
  - do 3 apply carries_wrap. apply carries_self.
Qed.

(** X11: when the clusters cannot be listed, [NewCluster] fails with an
    error that carries the failure of the command; the supplied
    configuration has not been renamed and no request has gone to the
    store. *)
Theorem NewCluster_listing_fails opts s (output : string) (e : error) :
  exec s get_clusters_command "" = (output, Some e) ->
  let returned :=
    Errorf_w "setting config"
      (Some (Errorf_w "getting list of existing clusters"
               (Some (Errorf_w "executing command" (Some e))))) in
  NewCluster opts s
  = (Val (Err returned), add_event (EvExec get_clusters_command "" (Some e)) s) /\
  carries returned e.
Proof.
  intros Hexec returned. split.
  - eapply NewCluster_setConfig_fails.
    by apply (setConfig_listing_fails (options_of opts) s output e).
  - do 3 apply carries_wrap. apply carries_self.
Qed.

(** [setConfig] leaves the name and the kubeconfig of the options as they
    were. *)
Lemma setConfig_keeps_options o s (err : option error) o' s' :
  setConfig o s = (Val (err, o'), s') ->
  name o' = name o /\ kubeconfig o' = kubeconfig o.
Proof.
  unfold setConfig, bind, GetClusterNames, bind, CombinedOutput, ret,
    DeepEqual, new_cluster.
  intros Hrun.
  repeat (case_match; simplify_eq; try done).
Qed.

(** X25: the kubeconfig of a handle.  Whatever way [NewCluster] came to
    its configuration, the handle it returns has the kubeconfig of the
    options when they name one, else the file [.kube/config] of the home
    directory, and no kubeconfig at all when there is no home directory. *)
Theorem NewCluster_kubeconfig opts s (h : Cluster) s' :
  NewCluster opts s = (Val (Ok h), s') ->
  Cluster_kubeconfig h
  = if String.eqb (kubeconfig (options_of opts)) ""
    then if String.eqb (HomeDir s) "" then ""
         else HomeDir s +:+ "/.kube/config"
    else kubeconfig (options_of opts).
Proof.
  unfold NewCluster, bind. fold (options_of opts).
  destruct (setConfig (options_of opts) s) as [[[err o] | msg] s1] eqn:Hset;
    [| done].
  destruct (setConfig_keeps_options _ _ _ _ _ Hset) as [_ Hkube].
  destruct (setConfig_reads_only _ _ _ _ Hset) as (_ & Hhome & _).
  destruct err as [e|]; [done |].
  destruct (config o) as [cfg|]; [| done].
  rewrite <- Hkube, <- Hhome.
  destruct (String.eqb (name o) "").
  - unfold load_cluster.
    destruct (cluster_objs s1 !! Config_Cluster cfg); [| done].
    unfold get, ret. intros [= <- <-]. cbn.
    destruct (String.eqb (kubeconfig o) "") eqn:Hk; [| done].
    destruct (String.eqb (HomeDir s1) ""); [| done].
    by apply String.eqb_eq in Hk.
  - unfold get, ret. intros [= <- <-]. cbn.
    destruct (String.eqb (kubeconfig o) "") eqn:Hk; [| done].
    destruct (String.eqb (HomeDir s1) ""); [| done].
    by apply String.eqb_eq in Hk.
Qed.

End ReconcilerRuns.

(** ** Creation: every run *)

Section CreationRuns.

Context {NodeFields ClusterFields : Type}.
Context `{!EqDecision NodeFields, !EqDecision ClusterFields}.
Context `{!@Collaborators NodeFields ClusterFields}.

Local Abbreviation State := (@State NodeFields ClusterFields).
Local Abbreviation kind_Cluster := (@kind_Cluster NodeFields ClusterFields).

Implicit Types (s : State) (c : Cluster) (copts : list ClusterCreateOption).

Lemma store_only_refl s : store_only s s.
Proof. by repeat split. Qed.

Lemma store_only_trans s1 s2 s3 :
  store_only s1 s2 -> store_only s2 s3 -> store_only s1 s3.
Proof.
  unfold store_only. intros (?&?&?&?&?&?) (?&?&?&?&?&?).
  repeat split; congruence.
Qed.

Lemma ConfigMaps_Create_frame (context nm : string)
    (data : gmap string string) s :
  store_only s (snd (ConfigMaps_Create context nm data s)).
Proof.
  unfold ConfigMaps_Create, bind, take_fault, get, ret, modify.
  destruct (faults s) as [|[e|] fs]; cbn;
    try destruct (default ∅ (configmaps s !! context) !! nm);
    by repeat split.
Qed.

(** The steps of the retry, by what the API server answers: a conflict
    uses a step up and the next answer is asked for. *)
Lemma OnError_conflict (context nm : string) (data : gmap string string)
    (steps : nat) (lastErr : option error) (e : error)
    (fs : list (option error)) s :
  faults s = Some e :: fs ->
  IsConflict e = true ->
  OnError (S steps) IsConflict (ConfigMaps_Create context nm data) lastErr s
  = OnError steps IsConflict (ConfigMaps_Create context nm data) (Some e)
      (set_faults fs s).
Proof.
  intros Hf He. cbn [OnError].
  unfold bind at 1. unfold ConfigMaps_Create at 1.
  unfold bind, take_fault. rewrite Hf. cbn. by rewrite He.
Qed.

Lemma OnError_frame (context nm : string) (data : gmap string string)
    (steps : nat) :
  forall (lastErr : option error) s,
    store_only s
      (snd (OnError steps IsConflict (ConfigMaps_Create context nm data)
              lastErr s)) /\
    length (faults s)
    - length (faults (snd (OnError steps IsConflict
                             (ConfigMaps_Create context nm data) lastErr s)))
    <= steps.
Proof.
  induction steps as [|steps IH]; intros lastErr s.
  - cbn. split; [apply store_only_refl | lia].
  - cbn [OnError]. unfold bind.
    pose proof (ConfigMaps_Create_frame context nm data s) as Hframe.
    assert (length (faults s)
            - length (faults (snd (ConfigMaps_Create context nm data s))) <= 1)
      as Hone.
    { unfold ConfigMaps_Create, bind, take_fault, get, ret, modify.
      destruct (faults s) as [|[e|] fs]; cbn;
        try destruct (default ∅ (configmaps s !! context) !! nm); cbn; lia. }
    destruct (ConfigMaps_Create context nm data s) as [[[e|] | msg] s1];
      cbn [snd] in *.
    + destruct (IsConflict e).
      * destruct (IH (Some e) s1) as [Hs1 Hlen].
        split; [by eapply store_only_trans | lia].
      * cbn. split; [done | lia].
    + cbn. split; [done | lia].
    + cbn. split; [done | lia].
Qed.

(** The write of the configuration touches nothing but the store. *)
Lemma addConfigBytes_store_only (nm configBytes : string) s :
  store_only s (snd (addConfigBytesToExistingCluster nm configBytes s)).
Proof.
  pose proof (OnError_frame (context_of nm) nvkindClusterConfigName
                (config_record configBytes) DefaultRetry_Steps None s)
    as [Hframe _].
  unfold addConfigBytesToExistingCluster, bind, get, ret.
  fold (context_of nm).
  destruct (ClientConfig s (context_of nm)) as [e|];
    [apply store_only_refl |].
  destruct (NewForConfig s (context_of nm)) as [e|];
    [apply store_only_refl |].
  unfold RetryOnConflict.
  destruct (OnError_Create_spec (context_of nm) nvkindClusterConfigName
              (config_record configBytes) IsConflict DefaultRetry_Steps None s)
    as (err & s' & Hrun & _).
  rewrite Hrun in Hframe.
  unfold config_record in Hrun. rewrite Hrun.
  by destruct err.
Qed.

(** X12: [Create] sends at most five requests to the store, whatever the
    store answers and whatever the command does, and it leaves the heap,
    and so the configuration of the caller, as it was. *)
Theorem Create_bounded c copts s :
  requests_made s (snd (Create c copts s)) <= DefaultRetry_Steps /\
  cluster_objs (snd (Create c copts s)) = cluster_objs s /\
  node_objs (snd (Create c copts s)) = node_objs s.
Proof.
  set (command :=
         Create_command c
           (foldl (fun o opt => opt o) (mk_ClusterCreateOptions false 0) copts)).
  destruct (yaml_Marshal (cluster_objs s !! Cluster_config c))
    as [configBytes | e] eqn:Hm.
  2: { rewrite (Create_marshal_fails _ _ _ _ Hm). cbn.
       unfold requests_made. split; [lia | done]. }
  destruct (snd (exec s command configBytes)) as [e|] eqn:Hexec.
  { rewrite (Create_command_fails _ _ _ _ _ Hm Hexec). cbn.
    unfold requests_made. cbn. split; [lia | done]. }
  rewrite (Create_command_succeeds _ _ _ _ Hm Hexec).
  fold command. cbv zeta. cbn [snd].
  set (s1 := add_event (EvExec command configBytes None) s).
  destruct (addConfigBytes_store_only (Cluster_Name c) configBytes s1)
    as (_ & _ & _ & _ & Hc & Hn).
  split; [| by split].
  pose proof (OnError_frame (context_of (Cluster_Name c))
                nvkindClusterConfigName (config_record configBytes)
                DefaultRetry_Steps None s1) as [_ Hlen].
  unfold requests_made.
  change (faults s) with (faults s1).
  unfold addConfigBytesToExistingCluster, bind, get, ret.
  fold (context_of (Cluster_Name c)).
  destruct (ClientConfig s1 (context_of (Cluster_Name c))) as [e|];
    [cbn; lia |].
  destruct (NewForConfig s1 (context_of (Cluster_Name c))) as [e|];
    [cbn; lia |].
  unfold RetryOnConflict.
  destruct (OnError_Create_spec (context_of (Cluster_Name c))
              nvkindClusterConfigName (config_record configBytes) IsConflict
              DefaultRetry_Steps None s1)
    as (err & s' & Hrun & _).
  rewrite Hrun in Hlen.
  unfold config_record in Hrun. rewrite Hrun.
  by destruct err.
Qed.

(** A read of a record that is there. *)
Lemma getConfigBytes_reads_record (nm : string) s
    (data : gmap string string) :
  ClientConfig s (context_of nm) = None ->
  NewForConfig s (context_of nm) = None ->
  next_answered s ->
  default ∅ (configmaps s !! context_of nm) !! nvkindClusterConfigName
  = Some data ->
  fst (getConfigBytesFromExistingCluster nm s)
  = Val (Ok (default "" (data !! "config"))).
Proof.
  intros Hcc Hnfc Hnext Hdata.
  unfold getConfigBytesFromExistingCluster, bind, get, ret.
  fold (context_of nm). rewrite Hcc, Hnfc.
  unfold ConfigMaps_Get, bind, take_fault, get, ret.
  unfold next_answered in Hnext.
  destruct (faults s) as [|[e|] fs]; cbn.
  - by rewrite Hdata.
  - by destruct (Hnext e).
  - by rewrite Hdata.
Qed.

(** What a run of [Create] that returns [nil] has been through. *)
Lemma Create_nil_inv c copts s s' :
  let command :=
    Create_command c
      (foldl (fun o opt => opt o) (mk_ClusterCreateOptions false 0) copts) in
  Create c copts s = (Val None, s') ->
  exists configBytes,
    yaml_Marshal (cluster_objs s !! Cluster_config c) = Ok configBytes /\
    snd (exec s command configBytes) = None /\
    ClientConfig s (context_of (Cluster_Name c)) = None /\
    NewForConfig s (context_of (Cluster_Name c)) = None /\
    configmaps s'
    = written (context_of (Cluster_Name c)) nvkindClusterConfigName
              (config_record configBytes) s /\
    store_only s s'.
Proof.
  intros command Hrun.
  destruct (yaml_Marshal (cluster_objs s !! Cluster_config c))
    as [configBytes | e] eqn:Hm;
    [| by rewrite (Create_marshal_fails _ _ _ _ Hm) in Hrun].
  destruct (snd (exec s command configBytes)) as [e|] eqn:Hexec;
    [by rewrite (Create_command_fails _ _ _ _ _ Hm Hexec) in Hrun |].
  rewrite (Create_command_succeeds _ _ _ _ Hm Hexec) in Hrun.
  fold command in Hrun. cbv zeta in Hrun.
  set (s1 := add_event (EvExec command configBytes None) s) in *.
  pose proof (addConfigBytes_store_only (Cluster_Name c) configBytes s1)
    as Hstore.
  destruct (addConfigBytes_spec (Cluster_Name c) configBytes s1)
    as (err & s2 & Hadd & Hcases).
  pose proof Hadd as Hadd'.
  unfold addConfigBytesToExistingCluster, bind, get, ret in Hadd'.
  fold (context_of (Cluster_Name c)) in Hadd'.
  rewrite Hadd in Hrun, Hstore. cbn [fst snd] in Hrun, Hstore.
  destruct err as [e|]; [done |]. injection Hrun as <-.
  exists configBytes.
  destruct Hcases as [(_ & Hw & _) | ([? [=]] & _)].
  change (ClientConfig s1) with (ClientConfig s) in Hadd'.
  change (NewForConfig s1) with (NewForConfig s) in Hadd'.
  destruct (ClientConfig s (context_of (Cluster_Name c))); [done |].
  destruct (NewForConfig s (context_of (Cluster_Name c))); [done |].
  repeat split; try done.
  all: destruct Hstore as (?&?&?&?&?&?); done.
Qed.

(** X13: what [Create] has recorded can be read back: after a run of
    [Create] that returned [nil], reading the configuration of the cluster
    yields the very text the configuration of the handle was marshalled
    to, unless the API server fails the read. *)
Theorem Create_then_read c copts s s' :
  Create c copts s = (Val None, s') ->
  next_answered s' ->
  exists configBytes,
    yaml_Marshal (cluster_objs s !! Cluster_config c) = Ok configBytes /\
    fst (getConfigBytesFromExistingCluster (Cluster_Name c) s')
    = Val (Ok configBytes).
Proof.
  intros Hrun Hnext.
  destruct (Create_nil_inv _ _ _ _ Hrun)
    as (configBytes & Hm & _ & Hcc & Hnfc & Hw & (_ & _ & Hcc' & Hnfc' & _)).
  exists configBytes. split; [done |].
  rewrite (getConfigBytes_reads_record (Cluster_Name c) s'
             (config_record configBytes)).
  - unfold config_record. by rewrite lookup_singleton_eq.
  - by rewrite Hcc'.
  - by rewrite Hnfc'.
  - done.
  - rewrite Hw. unfold written.
    by rewrite lookup_insert_eq; cbn; rewrite lookup_insert_eq.
Qed.

(** X14: asking for a cluster again with the configuration it was created
    from.  After a run of [Create] that returned [nil], [NewCluster] for
    the same identity and the same document compares the document, under
    the identity as its name, with what the text [Create] recorded decodes
    to: it returns a handle when the two are deeply equal, reports a
    conflict when they are not, and fails when the text does not decode.
    The record was written from the document as it was, so a document
    under another name, or one that the codec does not read back as it
    wrote it (an empty slice that is not [nil]), is refused. *)
Theorem Create_then_NewCluster c copts s s' opts (output : string)
    (cfg : Config) (doc : kind_Cluster) :
  Create c copts s = (Val None, s') ->
  cluster_objs s !! Cluster_config c = Some doc ->
  name (options_of opts) = Cluster_Name c ->
  config (options_of opts) = Some cfg ->
  Config_Cluster cfg = Cluster_config c ->
  exec s' get_clusters_command "" = (output, None) ->
  Cluster_Name c ∈ Fields output ->
  next_answered s' ->
  exists configBytes,
    yaml_Marshal (Some doc) = Ok configBytes /\
    match yaml_Unmarshal configBytes with
    | Ok stored =>
        (with_Name (Cluster_Name c) doc = stored ->
         exists h,
           fst (NewCluster opts s') = Val (Ok h) /\
           Cluster_Name h = Cluster_Name c /\
           Cluster_config h = Cluster_config c) /\
        (with_Name (Cluster_Name c) doc <> stored ->
         fst (NewCluster opts s')
         = Val (Err (Errorf_w "setting config" (Some ConfigConflict))))
    | Err e =>
        fst (NewCluster opts s')
        = Val (Err (Errorf_w "setting config"
                      (Some (Errorf_w "unmarshaling YAML" (Some e)))))
    end.
Proof.
  intros Hrun Hdoc Hname Hcfg Hptr Hexec Hin Hnext.
  destruct (Create_nil_inv _ _ _ _ Hrun)
    as (configBytes & Hm & _ & Hcc & Hnfc & Hw & (_ & _ & Hcc' & Hnfc' & Hheap & _)).
  assert (fst (getConfigBytesFromExistingCluster (Cluster_Name c) s')
          = Val (Ok configBytes)) as Hread.
  { rewrite (getConfigBytes_reads_record (Cluster_Name c) s'
               (config_record configBytes)).
    - unfold config_record. by rewrite lookup_singleton_eq.
    - by rewrite Hcc'.
    - by rewrite Hnfc'.
    - done.
    - rewrite Hw. unfold written.
      by rewrite lookup_insert_eq; cbn; rewrite lookup_insert_eq. }
  rewrite Hdoc in Hm. exists configBytes. split; [exact Hm |].
  assert (cluster_objs s' !! Config_Cluster cfg = Some doc) as Hdoc'
    by (by rewrite Hptr, Hheap).
  assert (name (options_of opts) ∈ Fields output) as Hin'
    by (by rewrite Hname).
  pose proof (setConfig_supplied_existing (options_of opts) s' output cfg doc
                Hcfg Hdoc' Hexec Hin') as Hset.
  rewrite Hname, Hread in Hset.
  destruct (yaml_Unmarshal configBytes) as [stored | e].
  - split.
    + intros Hsame.
      rewrite bool_decide_eq_true_2 in Hset by done.
      destruct (NewCluster_setConfig_ok opts s' _ cfg Hset Hcfg)
        as (h & -> & Hh & Hc & _).
      { rewrite Hname. intros Heq.
        pose proof (existing_nonempty _ _ Hin) as Hnz.
        by rewrite Heq in Hnz. }
      exists h. repeat split; congruence.
    + intros Hdiff.
      rewrite bool_decide_eq_false_2 in Hset by done.
      by rewrite (NewCluster_setConfig_fails _ _ _ _ _ Hset).
  - by rewrite (NewCluster_setConfig_fails _ _ _ _ _ Hset).
Qed.

(** A request to create a record that is there is refused, and the refusal
    is no conflict. *)
Lemma ConfigMaps_Create_exists (context nm : string)
    (data old : gmap string string) s :
  next_answered s ->
  default ∅ (configmaps s !! context) !! nm = Some old ->
  exists e s',
    ConfigMaps_Create context nm data s = (Val (Some e), s') /\
    IsConflict e = false /\
    configmaps s' = configmaps s /\
    faults s' = tail (faults s) /\
    events s' = events s.
Proof.
  intros Hnext Hold.
  unfold ConfigMaps_Create, bind, take_fault, get, ret.
  unfold next_answered in Hnext.
  destruct (faults s) as [|[e|] fs] eqn:Hf; cbn.
  - rewrite Hold. eexists _, _. split; [reflexivity |].
    by rewrite Hf.
  - by destruct (Hnext e).
  - rewrite Hold. eexists _, _. split; [reflexivity |]. done.
Qed.

(** An error that is not retriable ends the retry at once. *)
Lemma OnError_refused (steps : nat) (retriable : error -> bool)
    (fn : M (option error)) (lastErr : option error) (e : error) s s' :
  fn s = (Val (Some e), s') ->
  retriable e = false ->
  OnError (S steps) retriable fn lastErr s = (Val (Some e), s').
Proof.
  intros Hfn He. cbn [OnError]. unfold bind. by rewrite Hfn, He.
Qed.

(** X15: [Create] never overwrites a record.  When the store already has a
    record for the cluster, the request to create one is refused and not
    tried again, the record is as it was and [Create] returns an error,
    although the cluster has been provisioned. *)
Theorem Create_never_overwrites c copts s (configBytes : string)
    (data : gmap string string) :
  let command :=
    Create_command c
      (foldl (fun o opt => opt o) (mk_ClusterCreateOptions false 0) copts) in
  yaml_Marshal (cluster_objs s !! Cluster_config c) = Ok configBytes ->
  snd (exec s command configBytes) = None ->
  ClientConfig s (context_of (Cluster_Name c)) = None ->
  NewForConfig s (context_of (Cluster_Name c)) = None ->
  next_answered s ->
  default ∅ (configmaps s !! context_of (Cluster_Name c))
    !! nvkindClusterConfigName = Some data ->
  exists err s',
    Create c copts s = (Val (Some err), s') /\
    configmaps s' = configmaps s /\
    faults s' = tail (faults s) /\
    events s' = EvExec command configBytes None :: events s.
Proof.
  intros command Hm Hexec Hcc Hnfc Hnext Hdata.
  rewrite (Create_command_succeeds _ _ _ _ Hm Hexec).
  fold command. cbv zeta.
  set (s1 := add_event (EvExec command configBytes None) s).
  destruct (ConfigMaps_Create_exists (context_of (Cluster_Name c))
              nvkindClusterConfigName (config_record configBytes) data s1)
    as (e & s' & Hreq & He & Hmaps & Hfaults & Hev); [done | done |].
  rewrite (addConfigBytes_write_fails (Cluster_Name c) configBytes s1 e s');
    [| done | done |].
  - cbn. by eexists _, _.
  - unfold RetryOnConflict, DefaultRetry_Steps.
    by apply OnError_refused.
Qed.

(** A request to create a record that is not there writes it. *)
Lemma ConfigMaps_Create_absent (context nm : string)
    (data : gmap string string) s :
  next_answered s ->
  default ∅ (configmaps s !! context) !! nm = None ->
  exists s',
    ConfigMaps_Create context nm data s = (Val None, s') /\
    configmaps s' = written context nm data s /\
    faults s' = tail (faults s).
Proof.
  intros Hnext Hnone.
  unfold ConfigMaps_Create, bind, take_fault, get, ret, modify.
  unfold next_answered in Hnext.
  destruct (faults s) as [|[e|] fs] eqn:Hf; cbn.
  - rewrite Hnone. eexists. split; [reflexivity |]. cbn. by rewrite Hf.
  - by destruct (Hnext e).
  - rewrite Hnone. eexists. split; [reflexivity |]. done.
Qed.

(** The retry goes through the conflicts the API server answers, one step
    for each. *)
Lemma OnError_conflicts (context nm : string) (data : gmap string string)
    (rest : list (option error)) (steps : nat) :
  forall (conflicts : list (option error)) (lastErr : option error) s,
    faults s = (conflicts ++ rest)%list ->
    Forall conflict_answer conflicts ->
    exists lastErr',
      OnError (length conflicts + steps) IsConflict
        (ConfigMaps_Create context nm data) lastErr s
      = OnError steps IsConflict (ConfigMaps_Create context nm data) lastErr'
          (set_faults rest s) /\
      (conflicts <> [] -> is_Some lastErr').
Proof.
  induction conflicts as [|f conflicts IH]; intros lastErr s Hf Hall.
  - exists lastErr. cbn in *. split; [| done].
    rewrite <- Hf. by destruct s.
  - apply Forall_cons in Hall as [(e & -> & He) Hall].
    cbn [length Nat.add].
    rewrite (OnError_conflict context nm data _ lastErr e
               (conflicts ++ rest)%list s Hf He).
    destruct (IH (Some e) (set_faults (conflicts ++ rest) s) eq_refl Hall)
      as (lastErr' & Hrun & Hsome).
    destruct conflicts as [|f' conflicts'].
    + exists (Some e). split; [| by eauto]. reflexivity.
    + exists lastErr'. split; [exact Hrun |]. intros _. by apply Hsome.
Qed.

(** When the retry ends without an error, the write returns [nil]. *)
Lemma addConfigBytes_write_ok (nm configBytes : string) s s' :
  ClientConfig s (context_of nm) = None ->
  NewForConfig s (context_of nm) = None ->
  RetryOnConflict DefaultRetry_Steps
    (ConfigMaps_Create (context_of nm) nvkindClusterConfigName
                       (config_record configBytes)) s
  = (Val None, s') ->
  addConfigBytesToExistingCluster nm configBytes s = (Val None, s').
Proof.
  intros Hclient Hset Hretry.
  unfold addConfigBytesToExistingCluster, bind, get, ret.
  fold (context_of nm). rewrite Hclient, Hset.
  unfold config_record in Hretry. by rewrite Hretry.
Qed.

(** X16: [Create] tolerates up to four conflicts.  When the API server
    answers the first requests, fewer than five, with a conflict and the
    next one without a fault, the record is written by that request and
    [Create] returns [nil]. *)
Theorem Create_after_conflicts c copts s (configBytes : string)
    (conflicts rest : list (option error)) :
  let command :=
    Create_command c
      (foldl (fun o opt => opt o) (mk_ClusterCreateOptions false 0) copts) in
  yaml_Marshal (cluster_objs s !! Cluster_config c) = Ok configBytes ->
  snd (exec s command configBytes) = None ->
  ClientConfig s (context_of (Cluster_Name c)) = None ->
  NewForConfig s (context_of (Cluster_Name c)) = None ->
  default ∅ (configmaps s !! context_of (Cluster_Name c))
    !! nvkindClusterConfigName = None ->
  faults s = (conflicts ++ rest)%list ->
  Forall conflict_answer conflicts ->
  length conflicts < DefaultRetry_Steps ->
  (forall e, head rest <> Some (Some e)) ->
  exists s',
    Create c copts s = (Val None, s') /\
    configmaps s'
    = written (context_of (Cluster_Name c)) nvkindClusterConfigName
              (config_record configBytes) s /\
    faults s' = tail rest.
Proof.
  intros command Hm Hexec Hcc Hnfc Hnone Hf Hall Hlen Hrest.
  rewrite (Create_command_succeeds _ _ _ _ Hm Hexec).
  fold command. cbv zeta.
  set (s1 := add_event (EvExec command configBytes None) s).
  destruct (OnError_conflicts (context_of (Cluster_Name c))
              nvkindClusterConfigName (config_record configBytes) rest
              (DefaultRetry_Steps - length conflicts) conflicts None s1 Hf Hall)
    as (lastErr' & Hrun & _).
  replace (length conflicts + (DefaultRetry_Steps - length conflicts))
    with DefaultRetry_Steps in Hrun by lia.
  destruct (ConfigMaps_Create_absent (context_of (Cluster_Name c))
              nvkindClusterConfigName (config_record configBytes)
              (set_faults rest s1))
    as (s' & Hreq & Hw & Hfaults); [done | done |].
  destruct (DefaultRetry_Steps - length conflicts) as [|k] eqn:Hk; [lia |].
  cbn [OnError] in Hrun. unfold bind in Hrun at 1. rewrite Hreq in Hrun.
  unfold ret in Hrun.
  rewrite (addConfigBytes_write_ok (Cluster_Name c) configBytes s1 s');
    [| done | done | exact Hrun].
  cbn. by exists s'.
Qed.

(** X17: after five conflicts [Create] gives up.  The sixth answer of the
    API server is not asked for, nothing is written, and the error
    returned is the one of a failed write. *)
Theorem Create_gives_up c copts s (configBytes : string)
    (conflicts rest : list (option error)) :
  let command :=
    Create_command c
      (foldl (fun o opt => opt o) (mk_ClusterCreateOptions false 0) copts) in
  yaml_Marshal (cluster_objs s !! Cluster_config c) = Ok configBytes ->
  snd (exec s command configBytes) = None ->
  ClientConfig s (context_of (Cluster_Name c)) = None ->
  NewForConfig s (context_of (Cluster_Name c)) = None ->
  faults s = (conflicts ++ rest)%list ->
  Forall conflict_answer conflicts ->
  length conflicts = DefaultRetry_Steps ->
  Create c copts s
  = (Val (Some (Errorf_w "adding config to cluster"
                         (Some (Errorf_w "writing configmap" None)))),
     set_faults rest (add_event (EvExec command configBytes None) s)).
Proof.
  intros command Hm Hexec Hcc Hnfc Hf Hall Hlen.
  rewrite (Create_command_succeeds _ _ _ _ Hm Hexec).
  fold command. cbv zeta.
  set (s1 := add_event (EvExec command configBytes None) s).
  destruct (OnError_conflicts (context_of (Cluster_Name c))
              nvkindClusterConfigName (config_record configBytes) rest
              0 conflicts None s1 Hf Hall)
    as (lastErr' & Hrun & Hsome).
  replace (length conflicts + 0) with DefaultRetry_Steps in Hrun by lia.
  destruct Hsome as [e ->].
  { intros ->. by cbn in Hlen. }
  cbn [OnError] in Hrun. unfold ret in Hrun.
  by rewrite (addConfigBytes_write_fails (Cluster_Name c) configBytes s1 e
                (set_faults rest s1)).
Qed.

(** X18: when the cluster is provisioned but the client for its API server
    cannot be set up, [Create] fails with an error that carries the
    cause; no request has gone to the store, so that the cluster exists
    without a recorded configuration. *)
Theorem Create_client_unavailable c copts s (configBytes : string)
    (e : error) :
  let command :=
    Create_command c
      (foldl (fun o opt => opt o) (mk_ClusterCreateOptions false 0) copts) in
  yaml_Marshal (cluster_objs s !! Cluster_config c) = Ok configBytes ->
  snd (exec s command configBytes) = None ->
  ClientConfig s (context_of (Cluster_Name c)) = Some e \/
  (ClientConfig s (context_of (Cluster_Name c)) = None /\
   NewForConfig s (context_of (Cluster_Name c)) = Some e) ->
  exists returned,
    Create c copts s
    = (Val (Some returned), add_event (EvExec command configBytes None) s) /\
    carries returned e.
Proof.
  intros command Hm Hexec Hclient.
  rewrite (Create_command_succeeds _ _ _ _ Hm Hexec).
  fold command. cbv zeta.
  set (s1 := add_event (EvExec command configBytes None) s).
  unfold addConfigBytesToExistingCluster, bind, get, ret.
  fold (context_of (Cluster_Name c)).
  change (ClientConfig s1) with (ClientConfig s).
  change (NewForConfig s1) with (NewForConfig s).
  destruct Hclient as [-> | [-> ->]]; cbn -[Errorf_w].
  - eexists. split; [reflexivity |].
    do 2 apply carries_wrap. apply carries_self.
  - eexists. split; [reflexivity |].
    do 2 apply carries_wrap. apply carries_self.
Qed.

End CreationRuns.

(** ** The child processes *)

Section ChildRuns.

Context {NodeFields ClusterFields : Type}.
Context `{!OS}.

Local Abbreviation State := (@State NodeFields ClusterFields).

Implicit Types (s : State) (c : Cluster).

(** [runChildProcess] with the pipe attached, or with no input: the
    command line is printed, the command is run, and its failure is
    wrapped. *)
Lemma runChildProcess_runs (arg0 : string) (args : list string)
    (input : string) s :
  input = "" \/ StdinPipe (arg0 :: args) = None ->
  runChildProcess (arg0 :: args) input s
  = (Val (announced (arg0 :: args),
          match snd (exec s (arg0 :: args) input) with
          | Some e =>
              Some (Errorf_w ("error running '"
                              +:+ String.concat " " (arg0 :: args) +:+ "'")
                             (Some e))
          | None => None
          end),
     add_event (EvExec (arg0 :: args) input
                       (snd (exec s (arg0 :: args) input))) s).
Proof.
  intros Hpipe.
  unfold runChildProcess.
  assert ((if (0 <? String.length input)%nat
           then StdinPipe (arg0 :: args) else None) = None) as ->.
  { destruct Hpipe as [-> | ->]; [done | by destruct (_ <? _)%nat]. }
  unfold bind, Run, CombinedOutput, bind, ret.
  by destruct (snd (exec s (arg0 :: args) input)).
Qed.

(** [runChildProcess] when no pipe is to be had. *)
Lemma runChildProcess_no_pipe (arg0 : string) (args : list string)
    (input : string) (e : error) s :
  input <> "" ->
  StdinPipe (arg0 :: args) = Some e ->
  runChildProcess (arg0 :: args) input s
  = (Val ("", Some (Errorf_w "attaching pipe to child" (Some e))), s).
Proof.
  intros Hinput Hpipe. unfold runChildProcess.
  destruct input as [|a input]; [done |]. cbn. by rewrite Hpipe.
Qed.

(** X19: [PrintClusterInfo] stops at the first failure.  When the query
    for the endpoints fails, the nodes are not asked for: one command has
    been run, its line alone has been printed, and the error carries the
    failure of the command. *)
Theorem PrintClusterInfo_stops c s (e : error) :
  let cmd := ["kubectl"; "cluster-info"; "--context";
              context_of (Cluster_Name c)] in
  snd (exec s cmd "") = Some e ->
  exists returned,
    PrintClusterInfo c s
    = (Val (announced cmd, Some returned),
       add_event (EvExec cmd "" (Some e)) s) /\
    carries returned e.
Proof.
  intros cmd Hexec.
  unfold PrintClusterInfo. fold (context_of (Cluster_Name c)). fold cmd.
  unfold bind at 1. unfold cmd at 1.
  rewrite runChildProcess_runs by (by left).
  fold cmd. rewrite Hexec. cbn -[Errorf_w String.concat].
  eexists. split; [reflexivity |].
  do 2 apply carries_wrap. apply carries_self.
Qed.

(** X20: when the query for the endpoints succeeds, [PrintClusterInfo]
    asks for the nodes next, whatever the operating system does about
    pipes: both lines are printed, the two commands have been run one
    after the other, each with an empty input, and the outcome is the one
    of the second. *)
Theorem PrintClusterInfo_in_order c s :
  let cmd1 := ["kubectl"; "cluster-info"; "--context";
               context_of (Cluster_Name c)] in
  let cmd2 := ["kubectl"; "--context"; context_of (Cluster_Name c);
               "get"; "nodes"] in
  let s1 := add_event (EvExec cmd1 "" None) s in
  snd (exec s cmd1 "") = None ->
  exists r,
    PrintClusterInfo c s
    = (Val (announced cmd1 +:+ announced cmd2, r),
       add_event (EvExec cmd2 "" (snd (exec s cmd2 ""))) s1) /\
    (snd (exec s cmd2 "") = None -> r = None) /\
    (forall e, snd (exec s cmd2 "") = Some e ->
               exists returned, r = Some returned /\ carries returned e).
Proof.
  intros cmd1 cmd2 s1 Hexec.
  unfold PrintClusterInfo. fold (context_of (Cluster_Name c)).
  fold cmd1. fold cmd2.
  unfold bind at 1. unfold cmd1 at 1.
  rewrite runChildProcess_runs by (by left).
  fold cmd1. rewrite Hexec. fold s1.
  cbv beta iota. unfold bind at 1. unfold cmd2 at 1.
  rewrite runChildProcess_runs by (by left).
  fold cmd2. change (exec s1) with (exec s).
  destruct (snd (exec s cmd2 "")) as [e|]; unfold ret; cbv beta iota.
  - eexists. split; [reflexivity |]. split; [done |].
    intros e' [= <-]. eexists. split; [reflexivity |].
    do 2 apply carries_wrap. apply carries_self.
  - eexists. split; [reflexivity |]. split; [done |]. done.
Qed.

(** The commands of a state that has one event more. *)
Lemma commands_run_one s (argv : list string) (stdin : string)
    (err : option error) :
  commands_run s (add_event (EvExec argv stdin err) s) [argv].
Proof.
  exists [EvExec argv stdin err]. split; [done |].
  constructor; [by eauto | constructor].
Qed.

Lemma commands_run_two s (argv1 argv2 : list string) (stdin1 stdin2 : string)
    (err1 err2 : option error) :
  commands_run s
    (add_event (EvExec argv2 stdin2 err2)
       (add_event (EvExec argv1 stdin1 err1) s))
    [argv1; argv2].
Proof.
  exists [EvExec argv2 stdin2 err2; EvExec argv1 stdin1 err1].
  split; [done |].
  constructor; [by eauto |]. constructor; [by eauto | constructor].
Qed.

Lemma commands_run_none s : commands_run s s [].
Proof. exists []. split; [done | constructor]. Qed.

(** X21: every command that [PrintClusterInfo] and
    [RegisterNvidiaRuntimeClass] run is a [kubectl] that is told its
    context: [--context] followed by the context of the cluster of the
    handle.  No run of either goes by the default context. *)
Theorem kubectl_context_explicit c s :
  let told (cmd : list string) :=
    head cmd = Some "kubectl" /\
    occurs_in ["--context"; context_of (Cluster_Name c)] cmd in
  (exists cmds,
     commands_run s (snd (PrintClusterInfo c s)) cmds /\ Forall told cmds) /\
  (exists cmds,
     commands_run s (snd (RegisterNvidiaRuntimeClass c s)) cmds /\
     Forall told cmds).
Proof.
  intros told.
  set (cmd1 := ["kubectl"; "cluster-info"; "--context";
                context_of (Cluster_Name c)]).
  set (cmd2 := ["kubectl"; "--context"; context_of (Cluster_Name c);
                "get"; "nodes"]).
  set (cmd3 := ["kubectl"; "--context"; context_of (Cluster_Name c);
                "apply"; "-f"; "-"]).
  assert (told cmd1) as H1.
  { split; [done |]. by exists ["kubectl"; "cluster-info"], []. }
  assert (told cmd2) as H2.
  { split; [done |]. by exists ["kubectl"], ["get"; "nodes"]. }
  assert (told cmd3) as H3.
  { split; [done |]. by exists ["kubectl"], ["apply"; "-f"; "-"]. }
  split.
  - unfold PrintClusterInfo. fold (context_of (Cluster_Name c)).
    fold cmd1. fold cmd2.
    unfold bind at 1. unfold cmd1 at 1.
    rewrite runChildProcess_runs by (by left).
    fold cmd1.
    destruct (snd (exec s cmd1 "")) as [e|]; cbv beta iota.
    + exists [cmd1]. split; [apply commands_run_one | by apply Forall_singleton].
    + unfold bind at 1. unfold cmd2 at 1.
      rewrite runChildProcess_runs by (by left).
      fold cmd2. exists [cmd1; cmd2].
      split; [| by apply Forall_cons; split; [| apply Forall_singleton]].
      match goal with
      | |- context [match ?x with Some _ => _ | None => _ end] =>
          destruct x
      end; apply commands_run_two.
  - unfold RegisterNvidiaRuntimeClass. fold (context_of (Cluster_Name c)).
    fold cmd3. unfold bind. unfold cmd3 at 1.
    destruct (StdinPipe cmd3) as [e|] eqn:Hpipe.
    + rewrite (runChildProcess_no_pipe _ _ _ e) by done.
      exists []. split; [apply commands_run_none | constructor].
    + rewrite runChildProcess_runs by (by right).
      fold cmd3. exists [cmd3]. split; [| by apply Forall_singleton].
      match goal with
      | |- context [match ?x with Some _ => _ | None => _ end] =>
          destruct x
      end; apply commands_run_one.
Qed.

(** X22: [RegisterNvidiaRuntimeClass] feeds the manifest to the one command
    it runs; when no pipe can be attached to the child, the command is not
    run and its line is not printed, and the error carries the failure of
    the pipe. *)
Theorem RegisterNvidiaRuntimeClass_feeds_manifest c s :
  let cmd := ["kubectl"; "--context"; context_of (Cluster_Name c);
              "apply"; "-f"; "-"] in
  match StdinPipe cmd with
  | Some e =>
      exists returned,
        RegisterNvidiaRuntimeClass c s = (Val ("", Some returned), s) /\
        carries returned e
  | None =>
      exists r,
        RegisterNvidiaRuntimeClass c s
        = (Val (announced cmd, r),
           add_event (EvExec cmd k8sRuntimeClassYaml
                             (snd (exec s cmd k8sRuntimeClassYaml))) s) /\
        (snd (exec s cmd k8sRuntimeClassYaml) = None -> r = None) /\
        (forall e, snd (exec s cmd k8sRuntimeClassYaml) = Some e ->
                   exists returned, r = Some returned /\ carries returned e)
  end.
Proof.
  intros cmd.
  destruct (StdinPipe cmd) as [e|] eqn:Hpipe;
    unfold RegisterNvidiaRuntimeClass, bind;
    fold (context_of (Cluster_Name c)); unfold cmd in *.
  - rewrite (runChildProcess_no_pipe _ _ _ e) by done.
    cbv beta iota. unfold ret. eexists. split; [reflexivity |].
    do 2 apply carries_wrap. apply carries_self.
  - rewrite runChildProcess_runs by (by right).
    fold cmd.
    destruct (snd (exec s cmd k8sRuntimeClassYaml)) as [e|];
      unfold ret; cbv beta iota.
    + eexists. split; [reflexivity |]. split; [done |].
      intros e' [= <-]. eexists. split; [reflexivity |].
      do 2 apply carries_wrap. apply carries_self.
    + eexists. split; [reflexivity |]. split; [done |]. done.
Qed.

(** X23: [Delete] runs one command, [kind delete cluster] for the name of
    the handle, with an empty input and whatever the operating system
    does about pipes; it sends nothing to the store, and when the command
    fails the error carries its failure. *)
Theorem Delete_one_command c s :
  let command := ["kind"; "delete"; "cluster"; "--name"; Cluster_Name c] in
  exists r,
    Delete c s
    = (Val (announced command, r),
       add_event (EvExec command "" (snd (exec s command ""))) s) /\
    (snd (exec s command "") = None -> r = None) /\
    (forall e, snd (exec s command "") = Some e ->
               exists returned, r = Some returned /\ carries returned e).
Proof.
  intros command.
  unfold Delete. fold command. unfold bind. unfold command at 1.
  rewrite runChildProcess_runs by (by left).
  fold command.
  destruct (snd (exec s command "")) as [e|]; unfold ret; cbv beta iota.
  - eexists. split; [reflexivity |]. split; [done |].
    intros e' [= <-]. eexists. split; [reflexivity |].
    do 2 apply carries_wrap. apply carries_self.
  - eexists. split; [reflexivity |]. split; [done |]. done.
Qed.

End ChildRuns.

(** ** The clusters that exist *)

Section ClusterNames.

Context {NodeFields ClusterFields : Type}.

Local Abbreviation State := (@State NodeFields ClusterFields).

Implicit Types (s : State).

(** X24: the clusters [GetClusterNames] returns are the names the tool
    prints, as a set: their order, their repetition and the blanks
    between them do not matter, and the empty name is never among them. *)
Theorem GetClusterNames_set s f (out1 out2 : string) :
  exec s get_clusters_command "" = (out1, None) ->
  f get_clusters_command "" = (out2, None) ->
  (forall nm, nm ∈ Fields out1 <-> nm ∈ Fields out2) ->
  fst (GetClusterNames (set_exec f s)) = fst (GetClusterNames s) /\
  exists names : gset string,
    fst (GetClusterNames s) = Val (Ok names) /\
    ("" ∉ names) /\
    (forall nm, nm ∈ names <-> nm ∈ Fields out1).
Proof.
  intros Hexec Hf Hsame.
  rewrite (GetClusterNames_ok s out1 Hexec).
  rewrite (GetClusterNames_ok (set_exec f s) out2 Hf). cbn [fst].
  assert ((list_to_set (Fields out2) : gset string)
          = list_to_set (Fields out1)) as ->.
  { apply set_eq. intros nm. rewrite !elem_of_list_to_set. by rewrite Hsame. }
  split; [done |].
  eexists. split; [reflexivity |]. split.
  - rewrite elem_of_list_to_set. intros Hin.
    by pose proof (existing_nonempty _ _ Hin).
  - intros nm. by rewrite elem_of_list_to_set.
Qed.

End ClusterNames.

(** ** The theorems at the examples *)

Lemma GetNodes_unknown_declared_role_witness :
  fst (GetNodes example_cluster
         (example_topology "kind-worker kind-worker2" example_undeclared))
  = Val (Err (errorString "unknown node role: etcd")).
Proof.
  apply (GetNodes_unknown_declared_role example_cluster
           (example_topology "kind-worker kind-worker2" example_undeclared)
           "kind-worker kind-worker2"
           (mk_kind_Cluster "kind" (mk_slice example_undeclared) tt)
           [mk_kind_Node WorkerRole "image-b"]
           (mk_kind_Node "etcd" "image-x") []).
  - reflexivity.
  - reflexivity.
  - eval_Fields. all_classified.
  - reflexivity.
  - apply Forall_singleton. by right.
  - intros [Hrole | Hrole]; discriminate Hrole.
Defined.

Lemma GetNodes_returns_witness :
  exists r s',
    GetNodes example_cluster
      (example_topology "kind-worker xyz-2" example_declared)
    = (Val r, s') /\
    node_objs s' = ∅.
Proof.
  destruct (GetNodes_returns example_cluster
              (example_topology "kind-worker xyz-2" example_declared)
              (mk_kind_Cluster "kind" (mk_slice example_declared) tt) eq_refl)
    as (r & s' & Hrun & Halloc).
  exists r, s'. split; [exact Hrun |].
  vm_compute in Hrun. by injection Hrun as _ <-.
Defined.

Lemma GetNodes_order_independent_witness :
  fst (GetNodes example_cluster
         (set_exec (example_exec "kind"
                      "kind-control-plane kind-worker kind-worker2")
            (example_topology "kind-worker2 kind-control-plane kind-worker"
                              example_declared)))
  = fst (GetNodes example_cluster
           (example_topology "kind-worker2 kind-control-plane kind-worker"
                             example_declared)).
Proof.
  apply (GetNodes_order_independent example_cluster
           (example_topology "kind-worker2 kind-control-plane kind-worker"
                             example_declared)
           (example_exec "kind" "kind-control-plane kind-worker kind-worker2")
           "kind-worker2 kind-control-plane kind-worker"
           "kind-control-plane kind-worker kind-worker2").
  - reflexivity.
  - reflexivity.
  - eval_Fields.
    apply (Permutation_cons_append ["kind-control-plane"; "kind-worker"]
             "kind-worker2").
Defined.

Lemma NewCluster_unnamed_witness :
  exists h,
    NewCluster (H := example_collaborators) [option_config example_config]
      (example_world "kind other" [] ∅ example_renamed)
    = (Val (Ok h), listed (example_world "kind other" [] ∅ example_renamed)) /\
    Cluster_Name h = "other" /\
    Cluster_config h = 1%positive.
Proof.
  destruct (NewCluster_unnamed (H := example_collaborators)
              [option_config example_config]
              (example_world "kind other" [] ∅ example_renamed)
              "kind other" example_config example_renamed)
    as (h & Hrun & Hname & Hcfg & _).
  - reflexivity.
  - reflexivity.
  - reflexivity.
  - reflexivity.
  - by exists h.
Defined.

Lemma NewCluster_nil_document_witness :
  NewCluster (H := example_collaborators)
    [option_name "fresh"; option_config example_dangling]
    (example_world "kind" [] ∅ example_stored)
  = (Panic nil_dereference, listed (example_world "kind" [] ∅ example_stored)).
Proof.
  apply (NewCluster_nil_document (H := example_collaborators)
           [option_name "fresh"; option_config example_dangling]
           (example_world "kind" [] ∅ example_stored)
           "kind" example_dangling).
  - reflexivity.
  - reflexivity.
  - reflexivity.
Defined.

Lemma NewCluster_default_config_witness :
  exists h s',
    NewCluster (H := example_defaulting) [option_name "fresh"]
      (example_world "kind" [] ∅ example_stored)
    = (Val (Ok h), s') /\
    Cluster_Name h = "fresh" /\
    (Name <$> cluster_objs s' !! Cluster_config h) = Some "nvkind".
Proof.
  pose proof (NewCluster_default_config (H := example_defaulting)
                [option_name "fresh"]
                (example_world "kind" [] ∅ example_stored) "kind")
    as Hdefault.
  change (NewConfig []) with (example_default_NewConfig []) in Hdefault.
  cbv beta iota delta [example_default_NewConfig] in Hdefault.
  destruct Hdefault as (h & s' & Hrun & Hname & _ & _ & Hdoc & _).
  - reflexivity.
  - reflexivity.
  - eval_Fields. intros Hin. apply list_elem_of_singleton in Hin.
    discriminate Hin.
  - exists h, s'. split; [exact Hrun |]. split; [exact Hname |].
    by rewrite Hdoc.
Defined.

Lemma NewCluster_adopts_stored_witness :
  exists h s',
    NewCluster (H := example_collaborators) [option_name "kind"]
      (example_world "kind" [] (example_record "kind worker") example_renamed)
    = (Val (Ok h), s') /\
    Cluster_Name h = "kind" /\
    cluster_objs s' !! Cluster_config h = Some example_stored.
Proof.
  pose proof (NewCluster_adopts_stored (H := example_collaborators)
                [option_name "kind"]
                (example_world "kind" [] (example_record "kind worker")
                               example_renamed)
                "kind" "kind worker")
    as Hstored.
  change (NewConfig [WithConfigTemplate "kind worker"])
    with (Ok (mk_NewConfigResult example_stored 0 1 2)
          : result (@NewConfigResult unit unit)) in Hstored.
  cbv beta iota in Hstored.
  destruct Hstored as (h & s' & Hrun & Hname & _ & Hdoc & _).
  - reflexivity.
  - reflexivity.
  - eval_Fields. by apply list_elem_of_singleton.
  - vm_compute. reflexivity.
  - by exists h, s'.
Defined.

Lemma NewCluster_store_miss_witness :
  fst (NewCluster (H := example_collaborators) [option_name "kind"]
         (example_world "kind" [] ∅ example_stored))
  = Val (Err (Errorf_w "setting config"
                (Some (Errorf_w "getting config bytes"
                         (Some (Errorf_w "getting configmap"
                                  (Some (StatusError "NotFound"
                                           "configmaps nvkind-cluster-config not found")))))))).
Proof.
  destruct (NewCluster_store_miss (H := example_collaborators)
              [option_name "kind"]
              (example_world "kind" [] ∅ example_stored) "kind")
    as (Hrun & _).
  - reflexivity.
  - eval_Fields. by apply list_elem_of_singleton.
  - intros cfg Hcfg. discriminate Hcfg.
  - reflexivity.
  - reflexivity.
  - intros e He. discriminate He.
  - vm_compute. reflexivity.
  - exact Hrun.
Defined.

Lemma NewCluster_listing_fails_witness :
  fst (NewCluster (H := example_collaborators)
         [option_name "kind"; option_config example_config]
         (example_failing_world example_renamed))
  = Val (Err (Errorf_w "setting config"
                (Some (Errorf_w "getting list of existing clusters"
                         (Some (Errorf_w "executing command"
                                  (Some (ExitError "exit status 1")))))))) /\
  cluster_objs
    (snd (NewCluster (H := example_collaborators)
            [option_name "kind"; option_config example_config]
            (example_failing_world example_renamed)))
  !! 1%positive = Some example_renamed.
Proof.
  destruct (NewCluster_listing_fails (H := example_collaborators)
              [option_name "kind"; option_config example_config]
              (example_failing_world example_renamed)
              "" (ExitError "exit status 1") eq_refl)
    as (Hrun & _).
  rewrite Hrun. split; reflexivity.
Defined.

Lemma Create_then_read_witness :
  fst (getConfigBytesFromExistingCluster "kind"
         (snd (Create (H := example_collaborators) example_cluster []
                 (example_world "" [Some example_conflict] ∅ example_stored))))
  = Val (Ok "kind worker").
Proof.
  destruct (Create_then_read (H := example_collaborators) example_cluster []
              (example_world "" [Some example_conflict] ∅ example_stored)
              (snd (Create (H := example_collaborators) example_cluster []
                      (example_world "" [Some example_conflict] ∅
                                     example_stored))))
    as (configBytes & Hm & Hread).
  - vm_compute. reflexivity.
  - intros e He. vm_compute in He. discriminate He.
  - vm_compute in Hm. injection Hm as <-. exact Hread.
Defined.

Lemma Create_then_NewCluster_witness :
  exists h,
    fst (NewCluster (H := example_collaborators)
           [option_name "kind"; option_config example_config]
           (snd (Create (H := example_collaborators) example_cluster []
                   (example_world "kind" [] ∅ example_stored))))
    = Val (Ok h) /\
    Cluster_Name h = "kind" /\
    Cluster_config h = 1%positive.
Proof.
  destruct (Create_then_NewCluster (H := example_collaborators)
              example_cluster []
              (example_world "kind" [] ∅ example_stored)
              (snd (Create (H := example_collaborators) example_cluster []
                      (example_world "kind" [] ∅ example_stored)))
              [option_name "kind"; option_config example_config]
              "kind" example_config example_stored)
    as (configBytes & Hm & Hcases).
  - vm_compute. reflexivity.
  - reflexivity.
  - reflexivity.
  - reflexivity.
  - reflexivity.
  - reflexivity.
  - eval_Fields. by apply list_elem_of_singleton.
  - intros e He. vm_compute in He. discriminate He.
  - vm_compute in Hm. injection Hm as <-.
    change (yaml_Unmarshal "kind worker") with (Ok example_stored) in Hcases.
    cbv beta iota in Hcases. destruct Hcases as [Hsame _].
    apply Hsame. reflexivity.
Defined.

(** The same request after the cluster was created from a document whose
    [Nodes] is empty and not [nil]: the text recorded has no nodes and is
    read back with a [nil] slice, and the request is refused. *)
Example Create_then_NewCluster_empty_nodes :
  let s' := snd (Create (H := example_collaborators) example_cluster []
                   (example_world "kind" [] ∅ example_empty)) in
  fst (Create (H := example_collaborators) example_cluster []
         (example_world "kind" [] ∅ example_empty)) = Val None /\
  fst (getConfigBytesFromExistingCluster "kind" s') = Val (Ok "kind") /\
  fst (NewCluster (H := example_collaborators)
         [option_name "kind"; option_config example_config] s')
  = Val (Err (Errorf_w "setting config" (Some ConfigConflict))).
Proof. repeat split; vm_compute; reflexivity. Qed.

Lemma Create_never_overwrites_witness :
  exists err s',
    Create (H := example_collaborators) example_cluster []
      (example_world "" [] (example_record "kind") example_stored)
    = (Val (Some err), s') /\
    configmaps s' !! "kind-kind" = Some (example_record "kind").
Proof.
  destruct (Create_never_overwrites (H := example_collaborators)
              example_cluster []
              (example_world "" [] (example_record "kind") example_stored)
              "kind worker" {[ "config" := "kind" ]})
    as (err & s' & Hrun & Hmaps & _).
  - vm_compute. reflexivity.
  - reflexivity.
  - reflexivity.
  - reflexivity.
  - intros e He. discriminate He.
  - vm_compute. reflexivity.
  - exists err, s'. split; [exact Hrun |]. rewrite Hmaps.
    vm_compute. reflexivity.
Defined.

Lemma Create_after_conflicts_witness :
  exists s',
    Create (H := example_collaborators) example_cluster []
      (example_world ""
         [Some example_conflict; Some example_conflict; None;
          Some example_forbidden]
         ∅ example_stored)
    = (Val None, s') /\
    configmaps s' !! "kind-kind" = Some (example_record "kind worker") /\
    faults s' = [Some example_forbidden].
Proof.
  destruct (Create_after_conflicts (H := example_collaborators)
              example_cluster []
              (example_world ""
                 [Some example_conflict; Some example_conflict; None;
                  Some example_forbidden]
                 ∅ example_stored)
              "kind worker"
              [Some example_conflict; Some example_conflict]
              [None; Some example_forbidden])
    as (s' & Hrun & Hmaps & Hfaults).
  - vm_compute. reflexivity.
  - reflexivity.
  - reflexivity.
  - reflexivity.
  - vm_compute. reflexivity.
  - reflexivity.
  - repeat apply Forall_cons_2; [| | apply Forall_nil_2];
      by exists example_conflict.
  - vm_compute. lia.
  - intros e He. discriminate He.
  - exists s'. split; [exact Hrun |]. split; [| exact Hfaults].
    rewrite Hmaps. vm_compute. reflexivity.
Defined.

Lemma Create_gives_up_witness :
  exists s',
    Create (H := example_collaborators) example_cluster []
      (example_world "" (replicate 5 (Some example_conflict) ++ [None])%list
                     ∅ example_stored)
    = (Val (Some (Errorf_w "adding config to cluster"
                           (Some (Errorf_w "writing configmap" None)))), s') /\
    faults s' = [None] /\
    configmaps s' !! "kind-kind" = Some ∅.
Proof.
  eexists.
  rewrite (Create_gives_up (H := example_collaborators) example_cluster []
             (example_world ""
                (replicate 5 (Some example_conflict) ++ [None])%list
                ∅ example_stored)
             "kind worker" (replicate 5 (Some example_conflict)) [None]).
  - split; [reflexivity |]. split; reflexivity.
  - vm_compute. reflexivity.
  - reflexivity.
  - reflexivity.
  - reflexivity.
  - reflexivity.
  - repeat apply Forall_cons_2; try apply Forall_nil_2;
      by exists example_conflict.
  - reflexivity.
Defined.

Lemma Create_client_unavailable_witness :
  exists returned,
    fst (Create (H := example_collaborators) example_cluster []
           (example_no_client example_stored))
    = Val (Some returned) /\
    carries returned (errorString "no configuration has been provided") /\
    configmaps (snd (Create (H := example_collaborators) example_cluster []
                       (example_no_client example_stored)))
    = ∅.
Proof.
  destruct (Create_client_unavailable (H := example_collaborators)
              example_cluster [] (example_no_client example_stored)
              "kind worker"
              (errorString "no configuration has been provided"))
    as (returned & Hrun & Hcarries).
  - vm_compute. reflexivity.
  - reflexivity.
  - left. reflexivity.
  - exists returned. rewrite Hrun. split; [reflexivity |].
    split; [exact Hcarries | reflexivity].
Defined.

Lemma PrintClusterInfo_stops_witness :
  exists returned,
    PrintClusterInfo (H := example_os) example_cluster
      (example_failing_world example_stored)
    = (Val ("+ kubectl cluster-info --context kind-kind" +:+ newline,
            Some returned),
       add_event
         (EvExec ["kubectl"; "cluster-info"; "--context"; "kind-kind"] ""
                 (Some (ExitError "exit status 1")))
         (example_failing_world example_stored)) /\
    carries returned (ExitError "exit status 1").
Proof.
  apply (PrintClusterInfo_stops (H := example_os) example_cluster
           (example_failing_world example_stored)
           (ExitError "exit status 1")).
  reflexivity.
Defined.

Lemma PrintClusterInfo_in_order_witness :
  PrintClusterInfo (H := example_os_no_pipe) example_cluster
    (example_world "kind" [] ∅ example_stored)
  = (Val ("+ kubectl cluster-info --context kind-kind" +:+ newline
          +:+ "+ kubectl --context kind-kind get nodes" +:+ newline, None),
     add_event
       (EvExec ["kubectl"; "--context"; "kind-kind"; "get"; "nodes"] "" None)
       (add_event
          (EvExec ["kubectl"; "cluster-info"; "--context"; "kind-kind"] ""
                  None)
          (example_world "kind" [] ∅ example_stored))).
Proof.
  destruct (PrintClusterInfo_in_order (H := example_os_no_pipe)
              example_cluster (example_world "kind" [] ∅ example_stored))
    as (r & Hrun & Hnone & _).
  - reflexivity.
  - rewrite Hrun, Hnone by reflexivity. reflexivity.
Defined.

Lemma GetClusterNames_set_witness :
  fst (GetClusterNames
         (set_exec (example_exec "dev kind kind" "")
                   (example_world "kind  dev" [] ∅ example_stored)))
  = fst (GetClusterNames (example_world "kind  dev" [] ∅ example_stored)).
Proof.
  destruct (GetClusterNames_set
              (example_world "kind  dev" [] ∅ example_stored)
              (example_exec "dev kind kind" "") "kind  dev" "dev kind kind")
    as [Hsame _].
  - reflexivity.
  - reflexivity.
  - intros nm. eval_Fields.
    rewrite !elem_of_cons, !elem_of_nil. tauto.
  - exact Hsame.
Defined.

Lemma NewCluster_kubeconfig_witness :
  exists h s',
    NewCluster (H := example_collaborators)
      [option_name "fresh"; option_config example_config]
      (example_world "kind" [] ∅ example_stored)
    = (Val (Ok h), s') /\
    Cluster_kubeconfig h = "/root/.kube/config".
Proof.
  destruct (NewCluster (H := example_collaborators)
              [option_name "fresh"; option_config example_config]
              (example_world "kind" [] ∅ example_stored))
    as [[[h | e] | msg] s'] eqn:Hrun;
    [| vm_compute in Hrun; discriminate Hrun
     | vm_compute in Hrun; discriminate Hrun].
  exists h, s'. split; [reflexivity |].
  exact (NewCluster_kubeconfig (H := example_collaborators)
           [option_name "fresh"; option_config example_config]
           (example_world "kind" [] ∅ example_stored) h s' Hrun).
Defined.
